(** * probnum: the Normal distribution family, checked against its specification

    The development embeds
    - [probnum/probability/distributions/normal.py]: the factory [Normal.__new__],
      the initialisers of the five variants, the arithmetic of [Normal], the
      moments, densities and [reshape] of the variants, and the sampler of
      the identical-factors variant;
    - [probnum/prob/randomvariablelist.py]: [_RandomVariableList];
    - the directly computed posterior of
      [tests/test_linalg/test_linearsolvers/test_linearsolvers.py].

    Python objects live in a store and are named by references; a method is a
    function in a state-and-exception monad over that store.  NumPy, SciPy and
    the modules of probnum outside these files ([asdist], [Dirac], the linear
    operators) are collaborators: their operations are parameters of the
    methods that call them. *)

From Stdlib Require Import List String Ascii Bool Arith ZArith QArith Lia.
From Stdlib Require Import DecimalString.
From mathcomp Require boot algebra.
Import ListNotations.

Set Implicit Arguments.

(** ** Python values *)

Module Py.

Open Scope string_scope.
Open Scope list_scope.
Open Scope nat_scope.

(** The exceptions the embedded code raises or lets through. *)
Inductive exn :=
| ValueError (msg : string)
| TypeError (msg : string)
| AttributeError (msg : string)
| IndexError (msg : string)
| ZeroDivisionError (msg : string)
| OverflowError (msg : string)
| NotImplementedError (msg : option string).

Inductive result (A : Type) :=
| Ok (a : A)
| Raise (e : exn).
Arguments Ok {A} a.
Arguments Raise {A} e.

Definition rbind {A B} (r : result A) (k : A -> result B) : result B :=
  match r with
  | Ok a => k a
  | Raise e => Raise e
  end.

Declare Scope py_scope.
Delimit Scope py_scope with py.
Notation "x <- r ;; k" := (rbind r (fun x => k))
  (at level 61, r at next level, right associativity) : py_scope.
Notation "' pat <- r ;; k" := (rbind r (fun x => match x with pat => k end))
  (at level 61, pat pattern, r at next level, right associativity) : py_scope.

Definition is_Ok {A} (r : result A) : bool :=
  match r with Ok _ => true | Raise _ => false end.

Definition is_ValueError {A} (r : result A) : bool :=
  match r with Raise (ValueError _) => true | _ => false end.

Definition is_NotImplementedError {A} (r : result A) : bool :=
  match r with Raise (NotImplementedError _) => true | _ => false end.

(** Python's two built-in number classes; [np.isscalar] holds of both. *)
Inductive scalar_type := PyInt | PyFloat.

(** A linear operator of [probnum.linalg.linear_operators].  Every operator
    has a [shape]; [Kronecker] and [SymmetricKronecker] expose their factors
    [A] and [B], and the latter the flag [_ABequal] that its two factors are
    identical.  [LinearOperator cls] is an operator of any other class
    ([Identity], [MatrixMult], [ScalarMult], ...). *)
Inductive linop :=
| LinearOperator (cls : string) (shape : nat * nat)
| Kronecker (shape : nat * nat) (A B : linop)
| SymmetricKronecker (shape : nat * nat) (A B : linop) (_ABequal : bool).

Definition linop_shape (op : linop) : nat * nat :=
  match op with
  | LinearOperator _ s => s
  | Kronecker s _ _ => s
  | SymmetricKronecker s _ _ _ => s
  end.

Definition linop_class (op : linop) : string :=
  match op with
  | LinearOperator cls _ => cls
  | Kronecker _ _ _ => "Kronecker"
  | SymmetricKronecker _ _ _ _ => "SymmetricKronecker"
  end.

(** Modelled from the spec: the constructor of [SymmetricKronecker] is not
    among the sources.  The operator "represents the symmetric Kronecker
    product acting on vectorized symmetric matrices": for matrices of
    dimension [p] both factors are [p]-by-[p], so its two factors have one
    shape.  The other operators are under no condition. *)
Definition factors_of_one_shape (op : linop) : Prop :=
  match op with
  | SymmetricKronecker _ A B _ => linop_shape A = linop_shape B
  | _ => True
  end.

(** The values the parameters [mean] and [cov] range over.
    - [VScalar]: an [int] or a [float];
    - [VNdarray]: a dense [np.ndarray], its entries in row-major order;
    - [VSparse]: a [scipy.sparse.spmatrix] of class [cls], always 2-D;
    - [VLinOp]: a [scipy.sparse.linalg.LinearOperator];
    - [VObject]: any other object ([None], a list, ...) that is no string and
      has no attribute [shape]; [shape] is what [np.shape] reports for it
      ([()] for [None], [(2,)] for the list [[1., 2.]]). *)
Inductive pyval :=
| VScalar (ty : scalar_type) (x : Q)
| VNdarray (shape : list nat) (data : list Q)
| VSparse (cls : string) (shape : nat * nat) (data : list Q)
| VLinOp (op : linop)
| VObject (cls : string) (shape : list nat).

(** [v.__class__.__name__] *)
Definition class_name (v : pyval) : string :=
  match v with
  | VScalar PyInt _ => "int"
  | VScalar PyFloat _ => "float"
  | VNdarray _ _ => "ndarray"
  | VSparse cls _ _ => cls
  | VLinOp op => linop_class op
  | VObject cls _ => cls
  end.

(** [np.isscalar(v)] *)
Definition np_isscalar (v : pyval) : bool :=
  match v with VScalar _ _ => true | _ => false end.

(** [np.shape(v)]: the attribute [shape] where there is one, the shape of
    [np.asarray(v)] otherwise. *)
Definition np_shape (v : pyval) : list nat :=
  match v with
  | VScalar _ _ => []
  | VNdarray s _ => s
  | VSparse _ (r, c) _ => [r; c]
  | VLinOp op => [fst (linop_shape op); snd (linop_shape op)]
  | VObject _ s => s
  end.

(** [v.shape]: numbers and plain objects have no such attribute. *)
Definition attr_shape (v : pyval) : result (list nat) :=
  match v with
  | VScalar _ _ | VObject _ _ =>
      Raise (AttributeError (class_name v ++ " object has no attribute shape")%string)
  | _ => Ok (np_shape v)
  end.

(** [isinstance(v, (np.ndarray, scipy.sparse.spmatrix))] *)
Definition is_array (v : pyval) : bool :=
  match v with VNdarray _ _ | VSparse _ _ _ => true | _ => false end.

(** [isinstance(v, scipy.sparse.linalg.LinearOperator)] *)
Definition is_LinearOperator (v : pyval) : bool :=
  match v with VLinOp _ => true | _ => false end.

(** [isinstance(v, linear_operators.SymmetricKronecker) and v._ABequal] *)
Definition is_SymmetricKronecker_ABequal (v : pyval) : bool :=
  match v with
  | VLinOp (SymmetricKronecker _ _ _ eq) => eq
  | _ => false
  end.

(** [np.prod(s)] of a shape: the exact product.  NumPy computes it in 64-bit
    integers and agrees with it for every shape of fewer than [2 ^ 63]
    entries, as every dense array has. *)
Definition np_prod (s : list nat) : nat := fold_right Nat.mul 1 s.

(** [s[i]] on a tuple *)
Definition tuple_get (s : list nat) (i : nat) : result nat :=
  match nth_error s i with
  | Some d => Ok d
  | None => Raise (IndexError "tuple index out of range")
  end.

(** [m, n = s] *)
Definition unpack2 (s : list nat) : result (nat * nat) :=
  match s with
  | [m; n] => Ok (m, n)
  | [] => Raise (ValueError "not enough values to unpack (expected 2, got 0)")
  | [_] => Raise (ValueError "not enough values to unpack (expected 2, got 1)")
  | _ => Raise (ValueError "too many values to unpack (expected 2)")
  end.

(** [float(v)]: a number converts, and so does an array of one entry.  The
    value is kept exactly: the rounding of an [int] to the nearest float is
    not part of the model. *)
Definition py_float (v : pyval) : result pyval :=
  match v with
  | VScalar _ x => Ok (VScalar PyFloat x)
  | VNdarray _ [x] => Ok (VScalar PyFloat x)
  | VNdarray _ _ =>
      Raise (TypeError "only size-1 arrays can be converted to Python scalars")
  | _ =>
      Raise (TypeError ("float() argument must be a string or a number, not "
                          ++ class_name v)%string)
  end.

(** The factors [cov.A] and [cov.B]. *)
Definition attr_A (v : pyval) : result linop :=
  match v with
  | VLinOp (Kronecker _ A _) | VLinOp (SymmetricKronecker _ A _ _) => Ok A
  | _ => Raise (AttributeError (class_name v ++ " object has no attribute A")%string)
  end.

Definition attr_B (v : pyval) : result linop :=
  match v with
  | VLinOp (Kronecker _ _ B) | VLinOp (SymmetricKronecker _ _ B _) => Ok B
  | _ => Raise (AttributeError (class_name v ++ " object has no attribute B")%string)
  end.

Fixpoint shape_eqb (s t : list nat) : bool :=
  match s, t with
  | [], [] => true
  | a :: s', b :: t' => Nat.eqb a b && shape_eqb s' t'
  | _, _ => false
  end.

(** [s in shapes] *)
Definition shape_in (s : list nat) (shapes : list (list nat)) : bool :=
  existsb (shape_eqb s) shapes.

End Py.

(** ** normal.py: construction *)

Module NormalNew.
Import Py.

Open Scope string_scope.
Open Scope list_scope.
Open Scope nat_scope.
Open Scope py_scope.

(** The classes of normal.py: [Normal] and its five variants. *)
Inductive pyclass :=
| Normal
| _UnivariateNormal
| _MultivariateNormal
| _MatrixvariateNormal
| _OperatorvariateNormal
| _SymmetricKroneckerIdenticalFactorsNormal.

(** [cls.__name__] *)
Definition pyclass_name (c : pyclass) : string :=
  match c with
  | Normal => "Normal"
  | _UnivariateNormal => "_UnivariateNormal"
  | _MultivariateNormal => "_MultivariateNormal"
  | _MatrixvariateNormal => "_MatrixvariateNormal"
  | _OperatorvariateNormal => "_OperatorvariateNormal"
  | _SymmetricKroneckerIdenticalFactorsNormal =>
      "_SymmetricKroneckerIdenticalFactorsNormal"
  end.

Definition dim1shapes : list (list nat) := [[1; 1]; [1]; []].

Definition cannot_instantiate (mean cov : pyval) : string :=
  "Cannot instantiate normal distributions with mean of type "
    ++ class_name mean ++ " and covariance of type " ++ class_name cov ++ ".".

(** [Normal.__new__(cls, mean, cov, random_state)]: the class of the object
    it returns.  Called on a variant itself it hands on to [__new__] of the
    superclass, which is not among the sources and is taken to build an
    instance of [cls]; the statements of this development are about calls on
    [Normal], the factory. *)
Definition Normal__new__ (cls : pyclass) (mean cov : pyval) : result pyclass :=
  match cls with
  | Normal =>
      if (np_isscalar mean && np_isscalar cov)
         || (shape_in (np_shape mean) dim1shapes
             && shape_in (np_shape cov) dim1shapes)
      then Ok _UnivariateNormal
      else if is_array mean && is_array cov then
        if List.length (np_shape mean) =? 1
        then Ok _MultivariateNormal
        else Ok _MatrixvariateNormal
      else if is_LinearOperator mean || is_LinearOperator cov then
        if is_SymmetricKronecker_ABequal cov
        then Ok _SymmetricKroneckerIdenticalFactorsNormal
        else Ok _OperatorvariateNormal
      else Raise (ValueError (cannot_instantiate mean cov))
  | _ => Ok cls
  end.

(** [Normal.__init__]: the parameters it hands to [Distribution.__init__] as
    [{"mean": mean, "cov": cov}], which keeps them. *)
Definition Normal__init__ (mean cov : pyval) : result (pyval * pyval) :=
  Ok (mean, cov).

Definition _UnivariateNormal__init__ (mean cov : pyval) : result (pyval * pyval) :=
  fmean <- py_float mean ;;
  fcov <- py_float cov ;;
  Normal__init__ fmean fcov.

Definition shape_mismatch : string :=
  "Shape mismatch of mean and covariance. Total number of elements of the mean must match "
    ++ "the first and second dimension of the covariance.".

(** The check shared, line by line, by [_MultivariateNormal.__init__] and
    [_MatrixvariateNormal.__init__]; [msg2d] is the message of the first test,
    the only place where the two differ. *)
Definition dense__init__ (msg2d : string) (mean cov : pyval)
  : result (pyval * pyval) :=
  smean <- attr_shape mean ;;
  let _mean_dim := np_prod smean in
  scov <- attr_shape cov ;;
  if negb (List.length scov =? 2) then Raise (ValueError msg2d)
  else
    c0 <- tuple_get scov 0 ;;
    if negb (_mean_dim =? c0) then Raise (ValueError shape_mismatch)
    else
      c1 <- tuple_get scov 1 ;;
      if negb (_mean_dim =? c1) then Raise (ValueError shape_mismatch)
      else Normal__init__ mean cov.

Definition _MultivariateNormal__init__ : pyval -> pyval -> result (pyval * pyval) :=
  dense__init__ "Covariance must be a 2D matrix or linear operator.".

Definition _MatrixvariateNormal__init__ : pyval -> pyval -> result (pyval * pyval) :=
  dense__init__ "Covariance must be a 2D matrix.".

Definition kronecker_mismatch : string :=
  "Kronecker structured covariance must have factors with the same shape as the mean.".

Definition symmetric_kronecker_mismatch : string :=
  "Normal distributions with symmetric Kronecker structured covariance must have square mean"
    ++ " and square covariance factors with matching dimensions.".

(** [_OperatorvariateNormal.__init__]: [or] evaluates its operands from the
    left and stops at the first that holds. *)
Definition _OperatorvariateNormal__init__ (mean cov : pyval)
  : result (pyval * pyval) :=
  smean <- attr_shape mean ;;
  let _mean_dim := np_prod smean in
  match cov with
  | VLinOp (Kronecker _ A B) =>
      '(m, n) <- unpack2 smean ;;
      if negb (m =? fst (linop_shape A)) || negb (m =? snd (linop_shape A))
         || negb (n =? fst (linop_shape B)) || negb (n =? snd (linop_shape B))
      then Raise (ValueError kronecker_mismatch)
      else Normal__init__ mean cov
  | VLinOp (SymmetricKronecker _ A B _) =>
      '(m, n) <- unpack2 smean ;;
      if negb (m =? n) || negb (n =? fst (linop_shape A))
         || negb (n =? snd (linop_shape B))
      then Raise (ValueError symmetric_kronecker_mismatch)
      else Normal__init__ mean cov
  | _ =>
      scov <- attr_shape cov ;;
      c0 <- tuple_get scov 0 ;;
      if negb (_mean_dim =? c0)
      then Raise (ValueError "Shape mismatch of mean and covariance.")
      else
        c1 <- tuple_get scov 1 ;;
        if negb (_mean_dim =? c1)
        then Raise (ValueError "Shape mismatch of mean and covariance.")
        else Normal__init__ mean cov
  end.

Definition _SymmetricKroneckerIdenticalFactorsNormal__init__ (mean cov : pyval)
  : result (pyval * pyval) :=
  smean <- attr_shape mean ;;
  '(m, _n) <- unpack2 smean ;;
  if negb (m =? _n) then Raise (ValueError symmetric_kronecker_mismatch)
  else
    A <- attr_A cov ;;
    if negb (_n =? fst (linop_shape A))
    then Raise (ValueError symmetric_kronecker_mismatch)
    else
      B <- attr_B cov ;;
      if negb (_n =? snd (linop_shape B))
      then Raise (ValueError symmetric_kronecker_mismatch)
      else _OperatorvariateNormal__init__ mean cov.

(** [type(obj).__init__(obj, mean, cov, random_state)] by the object's class. *)
Definition init (c : pyclass) : pyval -> pyval -> result (pyval * pyval) :=
  match c with
  | Normal => Normal__init__
  | _UnivariateNormal => _UnivariateNormal__init__
  | _MultivariateNormal => _MultivariateNormal__init__
  | _MatrixvariateNormal => _MatrixvariateNormal__init__
  | _OperatorvariateNormal => _OperatorvariateNormal__init__
  | _SymmetricKroneckerIdenticalFactorsNormal =>
      _SymmetricKroneckerIdenticalFactorsNormal__init__
  end.

(** A constructed Normal: its class and the parameters it keeps. *)
Record normal := MkNormal {
  n_class : pyclass;
  n_mean : pyval;
  n_cov : pyval
}.

(** The call [cls(mean, cov)]: [__new__] picks the class, then the class's
    own [__init__] checks and stores the parameters. *)
Definition construct (cls : pyclass) (mean cov : pyval) : result normal :=
  c <- Normal__new__ cls mean cov ;;
  '(m, k) <- init c mean cov ;;
  Ok (MkNormal c m k).

(** *** The vocabulary of the statements about construction *)

(** The one-element shapes of [dim1shapes], as a proposition. *)
Definition one_element_shape (s : list nat) : Prop :=
  s = [1; 1] \/ s = [1] \/ s = [].

(** The inputs of the first case of the factory: two scalars, or two values
    of one-element shape. *)
Definition univariate_input (mean cov : pyval) : Prop :=
  (np_isscalar mean = true /\ np_isscalar cov = true)
  \/ (one_element_shape (np_shape mean) /\ one_element_shape (np_shape cov)).

(** The type of a value, as far as [isinstance] and [_ABequal] tell. *)
Inductive pytype :=
| TScalar
| TNdarray
| TSparse
| TLinearOperator (symmetric_kronecker_ABequal : bool)
| TObject.

Definition type_of (v : pyval) : pytype :=
  match v with
  | VScalar _ _ => TScalar
  | VNdarray _ _ => TNdarray
  | VSparse _ _ _ => TSparse
  | VLinOp _ => TLinearOperator (is_SymmetricKronecker_ABequal v)
  | VObject _ _ => TObject
  end.

(** [isinstance(v, Kronecker) or isinstance(v, SymmetricKronecker)] *)
Definition kronecker_structured (v : pyval) : bool :=
  match v with
  | VLinOp (Kronecker _ _ _) | VLinOp (SymmetricKronecker _ _ _ _) => true
  | _ => false
  end.

(** The class an outcome of [__new__] names, whatever the message. *)
Definition chosen {A} (r : result A) : option A :=
  match r with Ok c => Some c | Raise _ => None end.

End NormalNew.

(** ** normal.py: arithmetic *)

Module NormalArith.
Import Py NormalNew.

Open Scope list_scope.
Open Scope nat_scope.
Open Scope string_scope.

(** *** The store *)

Definition ref := nat.

(** [random_state]: [None], or the seed or generator handed on unchanged. *)
Definition random_state := option Z.

(** The distribution objects of the store.
    - [NormalObj]: an instance of a class of normal.py;
    - [DiracObj]: a point mass of dirac.py; its [mean()] is its support;
    - [DistributionObj]: an instance of any other distribution class;
      [sample_from] is the object whose [sample] its own [sample] calls. *)
Inductive object :=
| NormalObj (n : normal) (rs : random_state)
| DiracObj (support : pyval) (rs : random_state)
| DistributionObj (cls : string) (sample_from : option ref) (rs : random_state).

Definition store := list object.

(** An operand of an operator: a plain value or a distribution object. *)
Inductive operand :=
| Val (v : pyval)
| Obj (r : ref).

(** Computations that read and extend the store and may raise. *)
Definition M (A : Type) : Type := store -> result A * store.

Definition ret {A} (a : A) : M A := fun h => (Ok a, h).

Definition raise {A} (e : exn) : M A := fun h => (Raise e, h).

Definition bind {A B} (m : M A) (k : A -> M B) : M B :=
  fun h =>
    match m h with
    | (Ok a, h') => k a h'
    | (Raise e, h') => (Raise e, h')
    end.

Definition lift {A} (r : result A) : M A := fun h => (r, h).

(** [try: m except Exception: handler] *)
Definition try_except {A} (m : M A) (handler : M A) : M A :=
  fun h =>
    match m h with
    | (Ok a, h') => (Ok a, h')
    | (Raise _, h') => handler h'
    end.

Declare Scope store_scope.
Delimit Scope store_scope with store.
Notation "x <- m ; k" := (bind m (fun x => k))
  (at level 61, m at next level, right associativity) : store_scope.
Notation "' pat <- m ; k" := (bind m (fun x => match x with pat => k end))
  (at level 61, pat pattern, m at next level, right associativity) : store_scope.
Open Scope store_scope.

(** A new object gets the next free reference. *)
Definition alloc (o : object) : M ref :=
  fun h => (Ok (List.length h), (h ++ [o])%list).

Definition load (r : ref) : M object :=
  fun h =>
    match nth_error h r with
    | Some o => (Ok o, h)
    | None => (Raise (TypeError "not an object"), h)
    end.

(** [self] as an instance of [Normal]: the receiver of every method below. *)
Definition load_normal (self : ref) : M (normal * random_state) :=
  o <- load self ;
  match o with
  | NormalObj n rs => ret (n, rs)
  | _ => raise (TypeError "descriptor requires a Normal object")
  end.

(** [type(o).__name__] *)
Definition object_class (o : object) : string :=
  match o with
  | NormalObj n _ => pyclass_name (n_class n)
  | DiracObj _ _ => "Dirac"
  | DistributionObj cls _ _ => cls
  end.

(** [x.__class__.__name__] of an operand *)
Definition operand_class (x : operand) : M string :=
  match x with
  | Val v => ret (class_name v)
  | Obj r => o <- load r ; ret (object_class o)
  end.

(** [isinstance(o, Dirac)] *)
Definition is_Dirac (o : object) : bool :=
  match o with DiracObj _ _ => true | _ => false end.

(** The truth value of [v == 0]: a number compares by value, an array
    compares entrywise and has a truth value only with at most one entry,
    every other object is equal to itself alone. *)
Definition py_eq_zero (v : pyval) : result bool :=
  match v with
  | VScalar _ x => Ok (Qeq_bool x 0)
  | VNdarray _ [] => Ok false
  | VNdarray _ [x] | VSparse _ _ [x] => Ok (Qeq_bool x 0)
  | VNdarray _ _ | VSparse _ _ _ =>
      Raise (ValueError
        "The truth value of an array with more than one element is ambiguous. Use a.any() or a.all()")
  | VLinOp _ | VObject _ _ => Ok false
  end.

Definition operand_eq_zero (x : operand) : result bool :=
  match x with
  | Val v => py_eq_zero v
  | Obj _ => Ok false
  end.

(** *** Collaborators

    What normal.py calls and does not define: [asdist] and the operators of
    [Dirac] and [Distribution] from the rest of probnum, and the arithmetic of
    NumPy, SciPy and the linear operators on parameter values. *)
Record collaborators := {
  (** [asdist(obj)] *)
  asdist : operand -> M ref;
  (** [-d], [operator.inv(d)] on a Dirac *)
  Dirac__neg__ : ref -> M ref;
  Dirac__invert__ : ref -> M ref;
  (** [d * other] on a Distribution that is no Normal *)
  Distribution__mul__ : ref -> operand -> M ref;
  (** [a + b], [a * b], [a @ b], [a ** b] *)
  py_add : pyval -> pyval -> result pyval;
  py_mul : pyval -> pyval -> result pyval;
  py_matmul : pyval -> pyval -> result pyval;
  py_pow : pyval -> pyval -> result pyval;
  (** [-a], [operator.pos(a)], [a.transpose()], [a.T], [np.squeeze(a)] *)
  py_neg : pyval -> result pyval;
  py_pos : pyval -> result pyval;
  py_transpose : pyval -> result pyval;
  py_T : pyval -> result pyval;
  np_squeeze : pyval -> result pyval;
  (** [linear_operators.Kronecker(linear_operators.Identity(n), a)] *)
  Kronecker_Identity : nat -> pyval -> result pyval
}.

(** *** Methods *)

Section Methods.

Variable E : collaborators.

(** [Normal(mean=mean, cov=cov, random_state=rs)] *)
Definition Normal_call (mean cov : pyval) (rs : random_state) : M ref :=
  n <- lift (construct Normal mean cov) ;
  alloc (NormalObj n rs).

(** [Dirac(support=support, random_state=rs)] *)
Definition Dirac_call (support : pyval) (rs : random_state) : M ref :=
  alloc (DiracObj support rs).

Definition not_implemented (what a b : string) : exn :=
  NotImplementedError (Some (what ++ " not implemented for " ++ a ++ " and " ++ b ++ ".")).

(** [raise NotImplementedError("... for {} and {}.".format(
      self.__class__.__name__, other.__class__.__name__))] *)
Definition raise_self_other {A} (what : string) (self : ref) (other : operand) : M A :=
  a <- operand_class (Obj self) ;
  b <- operand_class other ;
  raise (not_implemented what a b).

(** The same with the operands named in the reflected order. *)
Definition raise_other_self {A} (what : string) (self : ref) (other : operand) : M A :=
  a <- operand_class other ;
  b <- operand_class (Obj self) ;
  raise (not_implemented what a b).

Definition Normal__add__ (self : ref) (other : operand) : M ref :=
  otherdist <- asdist E other ;
  o <- load otherdist ;
  match o with
  | DiracObj delta _ =>
      '(n, rs) <- load_normal self ;
      mean <- lift (py_add E (n_mean n) delta) ;
      Normal_call mean (n_cov n) rs
  | _ => raise_self_other "Addition" self other
  end.

Definition Normal__sub__ (self : ref) (other : operand) : M ref :=
  otherdist <- asdist E other ;
  o <- load otherdist ;
  match o with
  | DiracObj _ _ =>
      negated <- Dirac__neg__ E otherdist ;
      Normal__add__ self (Obj negated)
  | _ => raise_self_other "Subtraction" self other
  end.

Definition Normal__mul__ (self : ref) (other : operand) : M ref :=
  otherdist <- asdist E other ;
  o <- load otherdist ;
  match o with
  | DiracObj delta _ =>
      z <- lift (py_eq_zero delta) ;
      if z : bool then
        '(n, rs) <- load_normal self ;
        support <- lift (py_mul E (VScalar PyInt 0) (n_mean n)) ;
        Dirac_call support rs
      else
        '(n, rs) <- load_normal self ;
        mean <- lift (py_mul E (n_mean n) delta) ;
        delta2 <- lift (py_pow E delta (VScalar PyInt 2)) ;
        cov <- lift (py_mul E (n_cov n) delta2) ;
        Normal_call mean cov rs
  | _ => raise_self_other "Multiplication" self other
  end.

Definition Normal__truediv__ (self : ref) (other : operand) : M ref :=
  z <- lift (operand_eq_zero other) ;
  if z : bool then raise (ZeroDivisionError "Division by zero not supported.")
  else
    otherdist <- asdist E other ;
    o <- load otherdist ;
    match o with
    | DiracObj _ _ =>
        inverted <- Dirac__invert__ E otherdist ;
        Normal__mul__ self (Obj inverted)
    | _ => raise_self_other "Division" self other
    end.

Definition Normal__pow__ (self : ref) (power : operand) : M ref :=
  raise_self_other "Exponentiation" self power.

(** Unary operations *)

Definition Normal__neg__ (self : ref) : M ref :=
  try_except
    ('(n, rs) <- load_normal self ;
     mean <- lift (py_neg E (n_mean n)) ;
     Normal_call mean (n_cov n) rs)
    (a <- operand_class (Obj self) ;
     raise (NotImplementedError (Some ("Negation not implemented for " ++ a ++ ".")))).

Definition Normal__pos__ (self : ref) : M ref :=
  try_except
    ('(n, rs) <- load_normal self ;
     mean <- lift (py_pos E (n_mean n)) ;
     Normal_call mean (n_cov n) rs)
    (a <- operand_class (Obj self) ;
     raise (NotImplementedError (Some ("Negation not implemented for " ++ a ++ ".")))).

(** [Distribution(parameters={}, sample=lambda size: operator.abs(
      self.sample(size=size)), random_state=self.random_state)] *)
Definition Normal__abs__ (self : ref) : M ref :=
  try_except
    ('(_, rs) <- load_normal self ;
     alloc (DistributionObj "Distribution" (Some self) rs))
    (a <- operand_class (Obj self) ;
     raise (NotImplementedError (Some ("Absolute value not implemented for " ++ a ++ ".")))).

Definition Normal__invert__ (self : ref) : M ref :=
  try_except
    ('(_, rs) <- load_normal self ;
     alloc (DistributionObj "Distribution" (Some self) rs))
    (a <- operand_class (Obj self) ;
     raise (NotImplementedError (Some ("Inversion not implemented for " ++ a ++ ".")))).

(** Reflected operands *)

Definition Normal__radd__ (self : ref) (other : operand) : M ref :=
  otherdist <- asdist E other ;
  o <- load otherdist ;
  match o with
  | DiracObj _ _ => Normal__add__ self (Obj otherdist)
  | _ => raise_other_self "Addition" self other
  end.

Definition Normal__rsub__ (self : ref) (other : operand) : M ref :=
  otherdist <- asdist E other ;
  o <- load otherdist ;
  match o with
  | DiracObj _ _ =>
      negated <- Normal__neg__ self ;
      Normal__add__ negated (Obj otherdist)
  | _ => raise_other_self "Subtraction" self other
  end.

Definition Normal__rmul__ (self : ref) (other : operand) : M ref :=
  otherdist <- asdist E other ;
  o <- load otherdist ;
  match o with
  | DiracObj _ _ => Normal__mul__ self (Obj otherdist)
  | _ => raise_other_self "Multiplication" self other
  end.

Definition Normal__rmatmul__ (self : ref) (other : operand) : M ref :=
  otherdist <- asdist E other ;
  o <- load otherdist ;
  match o with
  | DiracObj delta _ =>
      '(n, rs) <- load_normal self ;
      mean <- lift (py_matmul E delta (n_mean n)) ;
      deltaT <- lift (py_transpose E delta) ;
      inner <- lift (py_matmul E (n_cov n) deltaT) ;
      cov <- lift (py_matmul E delta inner) ;
      Normal_call mean cov rs
  | _ => raise_other_self "Matrix multiplication" self other
  end.

Definition Normal__rtruediv__ (self : ref) (other : operand) : M ref :=
  otherdist <- asdist E other ;
  o <- load otherdist ;
  match o with
  | DiracObj _ _ =>
      inverted <- Normal__invert__ self ;
      Distribution__mul__ E inverted (Obj otherdist)
  | _ => raise_other_self "Division" self other
  end.

Definition Normal__rpow__ (self : ref) (power : operand) : M ref :=
  raise_other_self "Exponentiation" self power.

(** Augmented assignments *)

Definition Normal__iadd__ (self : ref) (other : operand) : M ref :=
  raise (NotImplementedError None).

Definition Normal__isub__ (self : ref) (other : operand) : M ref :=
  raise (NotImplementedError None).

Definition Normal__imul__ (self : ref) (other : operand) : M ref :=
  raise (NotImplementedError None).

Definition Normal__imatmul__ (self : ref) (other : operand) : M ref :=
  raise (NotImplementedError None).

Definition Normal__itruediv__ (self : ref) (other : operand) : M ref :=
  raise (NotImplementedError None).

Definition Normal__ipow__ (self : ref) (power : operand) : M ref :=
  raise (NotImplementedError None).

(** Matrix multiplication, one method per variant *)

Definition _UnivariateNormal__matmul__ (self : ref) (other : operand) : M ref :=
  otherdist <- asdist E other ;
  o <- load otherdist ;
  match o with
  | DiracObj delta _ =>
      '(n, rs) <- load_normal self ;
      product <- lift (py_matmul E (n_mean n) delta) ;
      mean <- lift (np_squeeze E product) ;
      deltaT <- lift (py_transpose E delta) ;
      inner <- lift (py_matmul E (n_cov n) deltaT) ;
      outer <- lift (py_matmul E delta inner) ;
      cov <- lift (np_squeeze E outer) ;
      Normal_call mean cov rs
  | _ => raise_self_other "Matrix multiplication" self other
  end.

Definition _MultivariateNormal__matmul__ (self : ref) (other : operand) : M ref :=
  otherdist <- asdist E other ;
  o <- load otherdist ;
  match o with
  | DiracObj delta _ =>
      '(n, rs) <- load_normal self ;
      mean <- lift (py_matmul E (n_mean n) delta) ;
      deltaT <- lift (py_T E delta) ;
      inner <- lift (py_matmul E (n_cov n) delta) ;
      cov <- lift (py_matmul E deltaT inner) ;
      Normal_call mean cov rs
  | _ => raise_self_other "Matrix multiplication" self other
  end.

Definition _MultivariateNormal__rmatmul__ (self : ref) (other : operand) : M ref :=
  otherdist <- asdist E other ;
  o <- load otherdist ;
  match o with
  | DiracObj delta _ =>
      '(n, rs) <- load_normal self ;
      mean <- lift (py_matmul E delta (n_mean n)) ;
      deltaT <- lift (py_T E delta) ;
      inner <- lift (py_matmul E (n_cov n) deltaT) ;
      cov <- lift (py_matmul E delta inner) ;
      Normal_call mean cov rs
  | _ => raise_other_self "Matrix multiplication" self other
  end.

Definition _MatrixvariateNormal__matmul__ (self : ref) (other : operand) : M ref :=
  otherdist <- asdist E other ;
  o <- load otherdist ;
  match o with
  | DiracObj _ _ => raise (NotImplementedError None)
  | _ => raise_self_other "Matrix multiplication" self other
  end.

Definition _OperatorvariateNormal__matmul__ (self : ref) (other : operand) : M ref :=
  otherdist <- asdist E other ;
  o <- load otherdist ;
  match o with
  | DiracObj othermean _ =>
      shape <- lift (attr_shape othermean) ;
      rows <- lift (tuple_get shape 0) ;
      delta <- lift (Kronecker_Identity E rows othermean) ;
      '(n, rs) <- load_normal self ;
      mean <- lift (py_matmul E (n_mean n) othermean) ;
      deltaT <- lift (py_T E delta) ;
      inner <- lift (py_matmul E (n_cov n) delta) ;
      cov <- lift (py_matmul E deltaT inner) ;
      Normal_call mean cov rs
  | _ => raise_self_other "Matrix multiplication" self other
  end.

(** [self @ other]: the method of the class of [self].  [Normal] itself
    defines none; the symmetric-Kronecker variant inherits its parent's. *)
Definition matmul (self : ref) (other : operand) : M ref :=
  '(n, _) <- load_normal self ;
  match n_class n with
  | Normal => raise (TypeError "unsupported operand type(s) for @")
  | _UnivariateNormal => _UnivariateNormal__matmul__ self other
  | _MultivariateNormal => _MultivariateNormal__matmul__ self other
  | _MatrixvariateNormal => _MatrixvariateNormal__matmul__ self other
  | _OperatorvariateNormal | _SymmetricKroneckerIdenticalFactorsNormal =>
      _OperatorvariateNormal__matmul__ self other
  end.

(** [other @ self]: only the multivariate variant overrides [Normal]'s. *)
Definition rmatmul (self : ref) (other : operand) : M ref :=
  '(n, _) <- load_normal self ;
  match n_class n with
  | _MultivariateNormal => _MultivariateNormal__rmatmul__ self other
  | _ => Normal__rmatmul__ self other
  end.

(** The binary operators, by name. *)
Inductive binop :=
| Add | Sub | Mul | TrueDiv | MatMul
| RAdd | RSub | RMul | RTrueDiv | RMatMul.

Definition binary (op : binop) : ref -> operand -> M ref :=
  match op with
  | Add => Normal__add__
  | Sub => Normal__sub__
  | Mul => Normal__mul__
  | TrueDiv => Normal__truediv__
  | MatMul => matmul
  | RAdd => Normal__radd__
  | RSub => Normal__rsub__
  | RMul => Normal__rmul__
  | RTrueDiv => Normal__rtruediv__
  | RMatMul => rmatmul
  end.

Inductive unop := Neg | Pos | Abs | Invert.

Definition unary (op : unop) : ref -> M ref :=
  match op with
  | Neg => Normal__neg__
  | Pos => Normal__pos__
  | Abs => Normal__abs__
  | Invert => Normal__invert__
  end.

(** The augmented assignments [+=], [-=], [*=], [@=], [/=], [**=]. *)
Inductive inplace := IAdd | ISub | IMul | IMatMul | ITrueDiv | IPow.

Definition augmented (op : inplace) : ref -> operand -> M ref :=
  match op with
  | IAdd => Normal__iadd__
  | ISub => Normal__isub__
  | IMul => Normal__imul__
  | IMatMul => Normal__imatmul__
  | ITrueDiv => Normal__itruediv__
  | IPow => Normal__ipow__
  end.

End Methods.

(** *** An instance of the collaborators

    Enough of the collaborators to run the methods on numbers and on dense
    arrays of one shape: arithmetic is entrywise and exact (the rounding of
    floats is not part of it), a power of a float beyond the range of floats
    raises OverflowError, [asdist] wraps a number or an array in a point mass
    and hands a distribution back as it is.  What lies outside (broadcasting,
    matrix products, the operators of other distributions) raises TypeError
    in this instance. *)

Definition number_type (t u : scalar_type) : scalar_type :=
  match t, u with
  | PyInt, PyInt => PyInt
  | _, _ => PyFloat
  end.

Fixpoint zip_with (f : Q -> Q -> Q) (xs ys : list Q) : list Q :=
  match xs, ys with
  | x :: xs', y :: ys' => f x y :: zip_with f xs' ys'
  | _, _ => []
  end.

Definition entrywise (f : Q -> Q -> Q) (a b : pyval) : result pyval :=
  match a, b with
  | VScalar t x, VScalar u y => Ok (VScalar (number_type t u) (Qred (f x y)))
  | VScalar _ x, VNdarray s d => Ok (VNdarray s (map (fun y => Qred (f x y)) d))
  | VNdarray s d, VScalar _ y => Ok (VNdarray s (map (fun x => Qred (f x y)) d))
  | VNdarray s d, VNdarray s' d' =>
      if shape_eqb s s'
      then Ok (VNdarray s (zip_with (fun x y => Qred (f x y)) d d'))
      else Raise (TypeError "shapes differ: outside the entrywise instance")
  | _, _ => Raise (TypeError "unsupported operand type(s)")
  end.

Definition entrywise1 (f : Q -> Q) (a : pyval) : result pyval :=
  match a with
  | VScalar t x => Ok (VScalar t (Qred (f x)))
  | VNdarray s d => Ok (VNdarray s (map (fun x => Qred (f x)) d))
  | _ => Raise (TypeError "bad operand type for a unary operator")
  end.

(** Every float is below [2 ^ 1024] in magnitude. *)
Definition beyond_floats (x : Q) : bool :=
  Qle_bool (Qmake (2 ^ 1024) 1) x || Qle_bool x (Qmake (- 2 ^ 1024) 1).

(** [a ** b] for an [int] exponent: a float whose power leaves the range of
    floats raises OverflowError. *)
Definition entrywise_pow (a b : pyval) : result pyval :=
  match b with
  | VScalar PyInt (Qmake k 1) =>
      match a with
      | VScalar PyFloat x =>
          if beyond_floats (Qpower x k)
          then Raise (OverflowError "(34, 'Numerical result out of range')")
          else entrywise1 (fun x => Qpower x k) a
      | _ => entrywise1 (fun x => Qpower x k) a
      end
  | _ => Raise (TypeError "exponent outside the entrywise instance")
  end.

Definition outside {A} : result A :=
  Raise (TypeError "outside the entrywise instance").

Definition asdist_wrap (x : operand) : M ref :=
  match x with
  | Obj r => _ <- load r ; ret r
  | Val (VScalar _ _ as v) | Val (VNdarray _ _ as v) | Val (VSparse _ _ _ as v) =>
      Dirac_call v None
  | Val v =>
      raise (ValueError ("Argument of type " ++ class_name v
                           ++ " cannot be converted to a distribution."))
  end.

Definition Dirac_negated (r : ref) : M ref :=
  o <- load r ;
  match o with
  | DiracObj support rs =>
      negated <- lift (entrywise1 Qopp support) ;
      Dirac_call negated rs
  | _ => raise (TypeError "descriptor requires a Dirac object")
  end.

Definition entrywise_collaborators : collaborators := {|
  asdist := asdist_wrap;
  Dirac__neg__ := Dirac_negated;
  Dirac__invert__ := fun _ => lift outside;
  Distribution__mul__ := fun _ _ => lift outside;
  py_add := entrywise Qplus;
  py_mul := entrywise Qmult;
  py_matmul := fun _ _ => outside;
  py_pow := entrywise_pow;
  py_neg := entrywise1 Qopp;
  py_pos := entrywise1 (fun x => x);
  py_transpose := fun _ => outside;
  py_T := fun _ => outside;
  np_squeeze := fun _ => outside;
  Kronecker_Identity := fun _ _ => outside
|}.

(** *** The vocabulary of the statements about arithmetic *)

(** A store that holds every object of another, under the same reference. *)
Definition extends (h h' : store) : Prop := exists t, h' = (h ++ t)%list.

(** A computation that leaves every object of the store as it was. *)
Definition allocates_only {A} (m : M A) : Prop :=
  forall h, extends h (snd (m h)).

(** A computation whose result, when it returns one, is an object it made. *)
Definition returns_new (m : M ref) : Prop :=
  forall h r h', m h = (Ok r, h') -> List.length h <= r < List.length h'.

(** The collaborators that work on the store leave its objects alone, and
    the product of a distribution is a distribution of its own. *)
Record frame_respecting (E : collaborators) : Prop := {
  asdist_frame : forall x, allocates_only (asdist E x);
  Dirac_neg_frame : forall r, allocates_only (Dirac__neg__ E r);
  Dirac_invert_frame : forall r, allocates_only (Dirac__invert__ E r);
  Distribution_mul_frame : forall r x, allocates_only (Distribution__mul__ E r x);
  Distribution_mul_new : forall r x, returns_new (Distribution__mul__ E r x)
}.

(** The name an operator has in the message of its NotImplementedError. *)
Definition operation_name (op : binop) : string :=
  match op with
  | Add | RAdd => "Addition"
  | Sub | RSub => "Subtraction"
  | Mul | RMul => "Multiplication"
  | TrueDiv | RTrueDiv => "Division"
  | MatMul | RMatMul => "Matrix multiplication"
  end.

Definition reflected (op : binop) : bool :=
  match op with
  | RAdd | RSub | RMul | RTrueDiv | RMatMul => true
  | _ => false
  end.

(** [N = Normal(0.5, 1.)] and the operand [z], an [int]. *)
Definition N_half_one : object :=
  NormalObj (MkNormal _UnivariateNormal
               (VScalar PyFloat (1 # 2)) (VScalar PyFloat 1)) None.

Definition int_ (z : Z) : operand := Val (VScalar PyInt (z # 1)).

End NormalArith.

(** ** normal.py: moments, densities and reshaping *)

Module NormalMethods.
Import Py NormalNew.

Open Scope list_scope.
Open Scope nat_scope.
Open Scope py_scope.

(** What these methods call and normal.py does not define: NumPy, SciPy, the
    linear operators, and what [Normal] inherits from [Distribution].  The
    samplers that are one call of SciPy are left out. *)
Record library := {
  (** [np.diag(a)], [linear_operators.Diagonal(Op=a)] *)
  np_diag : pyval -> result pyval;
  Diagonal : pyval -> result pyval;
  (** [a.ravel()], [a.reshape(shape=s)], [op.todense()] *)
  ravel : pyval -> result pyval;
  reshape_shape : pyval -> list nat -> result pyval;
  todense : linop -> result pyval;
  (** [scipy.stats.norm.pdf(x, loc=loc, scale=scale)] and its companions *)
  norm_pdf : pyval -> pyval -> pyval -> result pyval;
  norm_logpdf : pyval -> pyval -> pyval -> result pyval;
  norm_cdf : pyval -> pyval -> pyval -> result pyval;
  norm_logcdf : pyval -> pyval -> pyval -> result pyval;
  (** [scipy.stats.multivariate_normal.pdf(x, mean=mean, cov=cov)] and its
      companions *)
  multivariate_normal_pdf : pyval -> pyval -> pyval -> result pyval;
  multivariate_normal_logpdf : pyval -> pyval -> pyval -> result pyval;
  multivariate_normal_cdf : pyval -> pyval -> pyval -> result pyval;
  multivariate_normal_logcdf : pyval -> pyval -> pyval -> result pyval;
  (** [Distribution.std], which no class of normal.py overrides, and the
      methods of [Distribution] that [Normal] itself leaves as they are *)
  Distribution_std : normal -> result pyval;
  Distribution_pdf : normal -> pyval -> result pyval;
  Distribution_logpdf : normal -> pyval -> result pyval;
  Distribution_cdf : normal -> pyval -> result pyval;
  Distribution_logcdf : normal -> pyval -> result pyval;
  Distribution_reshape : normal -> list nat -> result normal
}.

Section Methods.

Variable L : library.

(** [Normal.mean], [Normal.cov]: the stored parameters. *)
Definition Normal_mean (self : normal) : pyval := n_mean self.

Definition Normal_cov (self : normal) : pyval := n_cov self.

Definition Normal_var (self : normal) : result pyval :=
  Raise (NotImplementedError None).

(** [_UnivariateNormal] *)

Definition _UnivariateNormal_var (self : normal) : result pyval :=
  Ok (Normal_cov self).

Definition _UnivariateNormal_pdf (self : normal) (x : pyval) : result pyval :=
  scale <- Distribution_std L self ;;
  norm_pdf L x (Normal_mean self) scale.

Definition _UnivariateNormal_logpdf (self : normal) (x : pyval) : result pyval :=
  scale <- Distribution_std L self ;;
  norm_logpdf L x (Normal_mean self) scale.

Definition _UnivariateNormal_cdf (self : normal) (x : pyval) : result pyval :=
  scale <- Distribution_std L self ;;
  norm_cdf L x (Normal_mean self) scale.

Definition _UnivariateNormal_logcdf (self : normal) (x : pyval) : result pyval :=
  scale <- Distribution_std L self ;;
  norm_logcdf L x (Normal_mean self) scale.

Definition _UnivariateNormal_reshape (self : normal) (shape : list nat)
  : result normal :=
  Raise (NotImplementedError None).

(** [_MultivariateNormal] *)

Definition _MultivariateNormal_var (self : normal) : result pyval :=
  np_diag L (Normal_cov self).

Definition _MultivariateNormal_pdf (self : normal) (x : pyval) : result pyval :=
  multivariate_normal_pdf L x (Normal_mean self) (Normal_cov self).

Definition _MultivariateNormal_logpdf (self : normal) (x : pyval) : result pyval :=
  multivariate_normal_logpdf L x (Normal_mean self) (Normal_cov self).

Definition _MultivariateNormal_cdf (self : normal) (x : pyval) : result pyval :=
  multivariate_normal_cdf L x (Normal_mean self) (Normal_cov self).

Definition _MultivariateNormal_logcdf (self : normal) (x : pyval) : result pyval :=
  multivariate_normal_logcdf L x (Normal_mean self) (Normal_cov self).

Definition _MultivariateNormal_reshape (self : normal) (shape : list nat)
  : result normal :=
  Raise (NotImplementedError None).

(** [_MatrixvariateNormal] *)

Definition _MatrixvariateNormal_var (self : normal) : result pyval :=
  np_diag L (Normal_cov self).

Definition _MatrixvariateNormal_pdf (self : normal) (x : pyval) : result pyval :=
  xr <- ravel L x ;;
  mr <- ravel L (Normal_mean self) ;;
  pdf_ravelled <- multivariate_normal_pdf L xr mr (Normal_cov self) ;;
  shape <- attr_shape (Normal_mean self) ;;
  reshape_shape L pdf_ravelled shape.

Definition _MatrixvariateNormal_logpdf (self : normal) (x : pyval) : result pyval :=
  Raise (NotImplementedError None).

Definition _MatrixvariateNormal_cdf (self : normal) (x : pyval) : result pyval :=
  Raise (NotImplementedError None).

Definition _MatrixvariateNormal_logcdf (self : normal) (x : pyval) : result pyval :=
  Raise (NotImplementedError None).

Definition _MatrixvariateNormal_reshape (self : normal) (shape : list nat)
  : result normal :=
  Raise (NotImplementedError None).

(** [_OperatorvariateNormal] *)

Definition _OperatorvariateNormal_var (self : normal) : result pyval :=
  Diagonal L (Normal_cov self).

(** [_params_todense]: mean and covariance as dense matrices. *)
Definition _OperatorvariateNormal_params_todense (self : normal)
  : result (pyval * pyval) :=
  mean <- match Normal_mean self with
          | VLinOp op => todense L op
          | m => Ok m
          end ;;
  cov <- match Normal_cov self with
         | VLinOp op => todense L op
         | c => Ok c
         end ;;
  Ok (mean, cov).

Definition _OperatorvariateNormal_pdf (self : normal) (x : pyval) : result pyval :=
  Raise (NotImplementedError None).

Definition _OperatorvariateNormal_logpdf (self : normal) (x : pyval) : result pyval :=
  Raise (NotImplementedError None).

Definition _OperatorvariateNormal_cdf (self : normal) (x : pyval) : result pyval :=
  Raise (NotImplementedError None).

Definition _OperatorvariateNormal_logcdf (self : normal) (x : pyval) : result pyval :=
  Raise (NotImplementedError None).

Definition _OperatorvariateNormal_reshape (self : normal) (shape : list nat)
  : result normal :=
  Raise (NotImplementedError None).

(** [self.var()], [self.pdf(x)], ..., [self.reshape(shape)]: the method of
    the class of [self].  The identical-factors variant defines none of them
    and inherits its parent's; [Normal] itself defines [var] alone. *)
Definition var (self : normal) : result pyval :=
  match n_class self with
  | Normal => Normal_var self
  | _UnivariateNormal => _UnivariateNormal_var self
  | _MultivariateNormal => _MultivariateNormal_var self
  | _MatrixvariateNormal => _MatrixvariateNormal_var self
  | _OperatorvariateNormal | _SymmetricKroneckerIdenticalFactorsNormal =>
      _OperatorvariateNormal_var self
  end.

Definition pdf (self : normal) (x : pyval) : result pyval :=
  match n_class self with
  | Normal => Distribution_pdf L self x
  | _UnivariateNormal => _UnivariateNormal_pdf self x
  | _MultivariateNormal => _MultivariateNormal_pdf self x
  | _MatrixvariateNormal => _MatrixvariateNormal_pdf self x
  | _OperatorvariateNormal | _SymmetricKroneckerIdenticalFactorsNormal =>
      _OperatorvariateNormal_pdf self x
  end.

Definition logpdf (self : normal) (x : pyval) : result pyval :=
  match n_class self with
  | Normal => Distribution_logpdf L self x
  | _UnivariateNormal => _UnivariateNormal_logpdf self x
  | _MultivariateNormal => _MultivariateNormal_logpdf self x
  | _MatrixvariateNormal => _MatrixvariateNormal_logpdf self x
  | _OperatorvariateNormal | _SymmetricKroneckerIdenticalFactorsNormal =>
      _OperatorvariateNormal_logpdf self x
  end.

Definition cdf (self : normal) (x : pyval) : result pyval :=
  match n_class self with
  | Normal => Distribution_cdf L self x
  | _UnivariateNormal => _UnivariateNormal_cdf self x
  | _MultivariateNormal => _MultivariateNormal_cdf self x
  | _MatrixvariateNormal => _MatrixvariateNormal_cdf self x
  | _OperatorvariateNormal | _SymmetricKroneckerIdenticalFactorsNormal =>
      _OperatorvariateNormal_cdf self x
  end.

Definition logcdf (self : normal) (x : pyval) : result pyval :=
  match n_class self with
  | Normal => Distribution_logcdf L self x
  | _UnivariateNormal => _UnivariateNormal_logcdf self x
  | _MultivariateNormal => _MultivariateNormal_logcdf self x
  | _MatrixvariateNormal => _MatrixvariateNormal_logcdf self x
  | _OperatorvariateNormal | _SymmetricKroneckerIdenticalFactorsNormal =>
      _OperatorvariateNormal_logcdf self x
  end.

Definition reshape (self : normal) (shape : list nat) : result normal :=
  match n_class self with
  | Normal => Distribution_reshape L self shape
  | _UnivariateNormal => _UnivariateNormal_reshape self shape
  | _MultivariateNormal => _MultivariateNormal_reshape self shape
  | _MatrixvariateNormal => _MatrixvariateNormal_reshape self shape
  | _OperatorvariateNormal | _SymmetricKroneckerIdenticalFactorsNormal =>
      _OperatorvariateNormal_reshape self shape
  end.

End Methods.

(** *** An instance of the library

    [np.diag] on dense arrays, as NumPy computes it: the diagonal of a 2-D
    array, the diagonal matrix of a 1-D array.  Everything else raises
    TypeError in this instance. *)

(** The entries [a[i, i]], [i < k], of a row-major array with [c] columns. *)
Definition diagonal (c k : nat) (data : list Q) : list Q :=
  map (fun i => nth (i * c + i) data 0%Q) (seq 0 k).

Definition diagonal_matrix (data : list Q) : list Q :=
  let n := List.length data in
  flat_map (fun i => map (fun j => if i =? j then nth i data 0%Q else 0%Q)
                         (seq 0 n))
           (seq 0 n).

Definition np_diag_dense (v : pyval) : result pyval :=
  match v with
  | VNdarray [_] data =>
      Ok (VNdarray [List.length data; List.length data] (diagonal_matrix data))
  | VNdarray [r; c] data =>
      Ok (VNdarray [Nat.min r c] (diagonal c (Nat.min r c) data))
  | VNdarray _ _ => Raise (ValueError "Input must be 1- or 2-d.")
  | _ => Raise (TypeError "outside the dense instance")
  end.

Definition outside_dense {A} : result A :=
  Raise (TypeError "outside the dense instance").

Definition dense_library : library := {|
  np_diag := np_diag_dense;
  Diagonal := fun _ => outside_dense;
  ravel := fun _ => outside_dense;
  reshape_shape := fun _ _ => outside_dense;
  todense := fun _ => outside_dense;
  norm_pdf := fun _ _ _ => outside_dense;
  norm_logpdf := fun _ _ _ => outside_dense;
  norm_cdf := fun _ _ _ => outside_dense;
  norm_logcdf := fun _ _ _ => outside_dense;
  multivariate_normal_pdf := fun _ _ _ => outside_dense;
  multivariate_normal_logpdf := fun _ _ _ => outside_dense;
  multivariate_normal_cdf := fun _ _ _ => outside_dense;
  multivariate_normal_logcdf := fun _ _ _ => outside_dense;
  Distribution_std := fun _ => outside_dense;
  Distribution_pdf := fun _ _ => outside_dense;
  Distribution_logpdf := fun _ _ => outside_dense;
  Distribution_cdf := fun _ _ => outside_dense;
  Distribution_logcdf := fun _ _ => outside_dense;
  Distribution_reshape := fun _ _ => outside_dense
|}.

End NormalMethods.

(** ** normal.py: sampling from the identical-factors variant *)

Module NormalSample.
Import Py NormalNew NormalArith NormalMethods.

Open Scope list_scope.
Open Scope nat_scope.
Open Scope string_scope.
Open Scope py_scope.

(** [size]: a number, or a sequence of numbers. *)
Inductive sample_size :=
| SizeScalar (k : nat)
| SizeTuple (s : list nat).

(** [[size]] for a scalar ([np.isscalar(size)]), [list(size)] otherwise. *)
Definition size_list (size : sample_size) : list nat :=
  match size with
  | SizeScalar k => [k]
  | SizeTuple s => s
  end.

(** What the sampler calls besides arithmetic and [todense]: the generator
    of SciPy, whose draw is an input of the model, the Cholesky factorisation
    and the operators it composes. *)
Record sampling := {
  (** [scipy.stats.norm.rvs(size=size, random_state=rs)] *)
  norm_rvs : list nat -> random_state -> result pyval;
  (** [np.eye(n)], [scipy.linalg.cholesky(a, lower=True)] *)
  np_eye : nat -> result pyval;
  cholesky_lower : pyval -> result pyval;
  (** [linear_operators.Symmetrize(dim=n)],
      [linear_operators.Kronecker(A=a, B=b)] *)
  Symmetrize : nat -> result pyval;
  Kronecker_AB : pyval -> pyval -> result pyval;
  (** [a[None, :, :]], [a.reshape(-1, n, n)] *)
  newaxis : pyval -> result pyval;
  reshape_stack : pyval -> nat -> result pyval
}.

Section Sample.

Variable E : collaborators.
Variable L : library.
Variable R : sampling.

(** [_SymmetricKroneckerIdenticalFactorsNormal.sample(self, size)], with
    [_n] the attribute [self._n] that [__init__] has set. *)
Definition _SymmetricKroneckerIdenticalFactorsNormal_sample
  (self : normal) (_n : nat) (rs : random_state) (size : sample_size)
  : result pyval :=
  let size := size_list size in
  let size_sample := (_n * _n) :: size in
  stdnormal_samples <- norm_rvs R size_sample rs ;;
  eps <- py_pow E (VScalar PyInt 10) (VScalar PyInt (-12)) ;;
  A <- attr_A (Normal_cov self) ;;
  dense <- todense L A ;;
  eye <- np_eye R _n ;;
  damping <- py_mul E eps eye ;;
  damped <- py_add E dense damping ;;
  cholA <- cholesky_lower R damped ;;
  mean <- match Normal_mean self with
          | VLinOp op => todense L op
          | m => Ok m
          end ;;
  symmetrize <- Symmetrize R _n ;;
  kronecker <- Kronecker_AB R cholA cholA ;;
  inner <- py_matmul E kronecker stdnormal_samples ;;
  samples_scaled <- py_matmul E symmetrize inner ;;
  lifted <- newaxis R mean ;;
  transposed <- py_T E samples_scaled ;;
  reshaped <- reshape_stack R transposed _n ;;
  py_add E lifted reshaped.

(** *** The recipe, step by step

    Following the description of the sampler: the lower Cholesky factor of
    the dense factor [cov.A], damped by [eps] times the identity,
    [eps = 10 ** -12]. *)
Definition damped_cholesky_factor (cov : pyval) (n : nat) : result pyval :=
  eps <- py_pow E (VScalar PyInt 10) (VScalar PyInt (-12)) ;;
  A <- attr_A cov ;;
  dense <- todense L A ;;
  eye <- np_eye R n ;;
  damping <- py_mul E eps eye ;;
  damped <- py_add E dense damping ;;
  cholesky_lower R damped.

(** Following the description of the sampler: the mean as a dense matrix. *)
Definition dense_mean (mean : pyval) : result pyval :=
  match mean with
  | VLinOp op => todense L op
  | m => Ok m
  end.

(** Following the description of the sampler: the mean plus the reshaped
    [Symmetrize(Kronecker(L, L) z)], for a factor [L] and a draw [z]; the
    samples of the draw follow one another along a new first axis. *)
Definition sample_from_draw (mean : pyval) (n : nat) (Lfac z : pyval)
  : result pyval :=
  kronecker <- Kronecker_AB R Lfac Lfac ;;
  applied <- py_matmul E kronecker z ;;
  symmetrize <- Symmetrize R n ;;
  symmetrized <- py_matmul E symmetrize applied ;;
  transposed <- py_T E symmetrized ;;
  reshaped <- reshape_stack R transposed n ;;
  lifted <- newaxis R mean ;;
  py_add E lifted reshaped.

End Sample.

(** *** An instance that records the calls

    Every call returns an object whose class name spells the call, so that
    the result of the sampler shows what was composed, and in which order. *)

Definition text (v : pyval) : string :=
  match v with
  | VScalar _ (Qmake k 1) => NilZero.string_of_int (Z.to_int k)
  | VScalar _ _ => "float"
  | VNdarray _ _ => "array"
  | VSparse cls _ _ => cls
  | VLinOp op => linop_class op
  | VObject cls _ => cls
  end.

Definition number (n : nat) : string := NilZero.string_of_uint (Nat.to_uint n).

Definition call1 (f : string) (a : pyval) : result pyval :=
  Ok (VObject (f ++ "(" ++ text a ++ ")") []).

Definition call2 (f : string) (a b : pyval) : result pyval :=
  Ok (VObject (f ++ "(" ++ text a ++ ", " ++ text b ++ ")") []).

Definition infix (op : string) (a b : pyval) : result pyval :=
  Ok (VObject ("(" ++ text a ++ " " ++ op ++ " " ++ text b ++ ")") []).

Definition recording_collaborators : collaborators := {|
  asdist := fun _ => lift outside;
  Dirac__neg__ := fun _ => lift outside;
  Dirac__invert__ := fun _ => lift outside;
  Distribution__mul__ := fun _ _ => lift outside;
  py_add := infix "+";
  py_mul := infix "*";
  py_matmul := infix "@";
  py_pow := infix "**";
  py_neg := call1 "-";
  py_pos := call1 "+";
  py_transpose := call1 "transpose";
  py_T := call1 "T";
  np_squeeze := call1 "squeeze";
  Kronecker_Identity := fun _ => call1 "Kronecker_Identity"
|}.

Definition recording_library : library := {|
  np_diag := call1 "diag";
  Diagonal := call1 "Diagonal";
  ravel := call1 "ravel";
  reshape_shape := fun a _ => call1 "reshape" a;
  todense := fun op => call1 "todense" (VLinOp op);
  norm_pdf := fun _ _ _ => outside_dense;
  norm_logpdf := fun _ _ _ => outside_dense;
  norm_cdf := fun _ _ _ => outside_dense;
  norm_logcdf := fun _ _ _ => outside_dense;
  multivariate_normal_pdf := fun _ _ _ => outside_dense;
  multivariate_normal_logpdf := fun _ _ _ => outside_dense;
  multivariate_normal_cdf := fun _ _ _ => outside_dense;
  multivariate_normal_logcdf := fun _ _ _ => outside_dense;
  Distribution_std := fun _ => outside_dense;
  Distribution_pdf := fun _ _ => outside_dense;
  Distribution_logpdf := fun _ _ => outside_dense;
  Distribution_cdf := fun _ _ => outside_dense;
  Distribution_logcdf := fun _ _ => outside_dense;
  Distribution_reshape := fun _ _ => outside_dense
|}.

Definition recording_sampling : sampling := {|
  norm_rvs := fun size _ =>
    Ok (VObject ("rvs(" ++ String.concat ", " (map number size) ++ ")") size);
  np_eye := fun n => Ok (VObject ("eye(" ++ number n ++ ")") [n; n]);
  cholesky_lower := call1 "cholesky";
  Symmetrize := fun n => Ok (VObject ("Symmetrize(" ++ number n ++ ")") []);
  Kronecker_AB := call2 "Kronecker";
  newaxis := call1 "newaxis";
  reshape_stack := fun a n =>
    Ok (VObject ("reshape(" ++ text a ++ ", -1, " ++ number n ++ ", "
                   ++ number n ++ ")") [])
|}.

(** A 2-by-2 mean with the symmetric Kronecker product of one factor [V]. *)
Definition mean_2x2 : pyval := VNdarray [2; 2] [0%Q; 0%Q; 0%Q; 0%Q].

Definition cov_VV : pyval :=
  VLinOp (SymmetricKronecker (4, 4) (LinearOperator "V" (2, 2))
            (LinearOperator "V" (2, 2)) true).

(** The distribution that [Normal(mean_2x2, cov_VV)] builds. *)
Definition N_VV : normal :=
  MkNormal _SymmetricKroneckerIdenticalFactorsNormal mean_2x2 cov_VV.

End NormalSample.

(** ** randomvariablelist.py *)

Module RandomVariableList.
Import Py.

Open Scope list_scope.
Open Scope nat_scope.
Open Scope py_scope.

(** A dense array: a number is the array of shape [()]. *)
Record ndarray := MkArray {
  shape : list nat;
  data : list Q
}.

(** An element of the list, as far as the list uses it: what [rv.mean()],
    [rv.cov()], [rv.distribution.var()] and [rv.distribution.std()] answer. *)
Record RandomVariable := MkRV {
  rv_mean : result ndarray;
  rv_cov : result ndarray;
  rv_distribution_var : result ndarray;
  rv_distribution_std : result ndarray
}.

(** [class _RandomVariableList(list)]: a list of random variables. *)
Definition _RandomVariableList := list RandomVariable.

(** [np.stack(arrays)]: at least one array, all of one shape; the result
    has a new first axis, along which the arrays follow one another. *)
Definition np_stack (arrays : list ndarray) : result ndarray :=
  match arrays with
  | [] => Raise (ValueError "need at least one array to stack")
  | a :: rest =>
      if forallb (fun b => shape_eqb (shape b) (shape a)) rest
      then Ok (MkArray (List.length arrays :: shape a)
                       (List.concat (map data arrays)))
      else Raise (ValueError "all input arrays must have the same shape")
  end.

(** [[f(rv) for rv in self]]: the elements in order, up to the first that
    raises. *)
Fixpoint comprehension {A B} (f : A -> result B) (self : list A) : result (list B) :=
  match self with
  | [] => Ok []
  | rv :: rest =>
      x <- f rv ;;
      xs <- comprehension f rest ;;
      Ok (x :: xs)
  end.

Definition mean (self : _RandomVariableList) : result ndarray :=
  arrays <- comprehension rv_mean self ;; np_stack arrays.

Definition cov (self : _RandomVariableList) : result ndarray :=
  arrays <- comprehension rv_cov self ;; np_stack arrays.

Definition var (self : _RandomVariableList) : result ndarray :=
  arrays <- comprehension rv_distribution_var self ;; np_stack arrays.

Definition std (self : _RandomVariableList) : result ndarray :=
  arrays <- comprehension rv_distribution_std self ;; np_stack arrays.

(** An index: a position [l[i]] or a slice [l[start:stop:step]]. *)
Inductive index :=
| Position (i : Z)
| Slice (start stop step : option Z).

Open Scope Z_scope.

(** A bound of a slice brought into the list, as [slice.indices] does. *)
Definition clamp (len step v : Z) : Z :=
  if v <? 0 then
    if v + len <? 0 then (if step <? 0 then -1 else 0) else v + len
  else if v >=? len then (if step <? 0 then len - 1 else len)
  else v.

Definition slice_start (len step : Z) (start : option Z) : Z :=
  match start with
  | Some v => clamp len step v
  | None => if step <? 0 then len - 1 else 0
  end.

Definition slice_stop (len step : Z) (stop : option Z) : Z :=
  match stop with
  | Some v => clamp len step v
  | None => if step <? 0 then -1 else len
  end.

Definition slice_length (start stop step : Z) : Z :=
  if step <? 0 then
    if stop <? start then (start - stop - 1) / (- step) + 1 else 0
  else
    if start <? stop then (stop - start - 1) / step + 1 else 0.

(** The elements at [start], [start + step], ...: [count] of them. *)
Definition take {A} (l : list A) (start step : Z) (count : nat) : list A :=
  flat_map
    (fun k => match nth_error l (Z.to_nat (start + Z.of_nat k * step)) with
              | Some x => [x]
              | None => []
              end)
    (seq 0 count).

(** [list.__getitem__(self, idx)]: an element for a position, a plain list
    for a slice.  A position is one that fits an index-sized integer; for an
    integer beyond, CPython raises IndexError with another message. *)
Definition list__getitem__ {A} (self : list A) (idx : index) : result (A + list A) :=
  let len := Z.of_nat (List.length self) in
  match idx with
  | Position i =>
      let i' := if i <? 0 then i + len else i in
      if (i' <? 0) || (i' >=? len)
      then Raise (IndexError "list index out of range")
      else match nth_error self (Z.to_nat i') with
           | Some x => Ok (inl x)
           | None => Raise (IndexError "list index out of range")
           end
  | Slice start stop step =>
      let step' := match step with Some s => s | None => 1 end in
      if step' =? 0 then Raise (ValueError "slice step cannot be zero")
      else
        let first := slice_start len step' start in
        let last := slice_stop len step' stop in
        Ok (inr (take self first step' (Z.to_nat (slice_length first last step'))))
  end.

(** What [_RandomVariableList.__getitem__] returns: an element of the list,
    or a new [_RandomVariableList]. *)
Inductive item :=
| Element (rv : RandomVariable)
| Wrapped (l : _RandomVariableList).

(** [_RandomVariableList.__getitem__]: a result that is a list is wrapped. *)
Definition __getitem__ (self : _RandomVariableList) (idx : index) : result item :=
  result <- list__getitem__ self idx ;;
  match result with
  | inr l => Ok (Wrapped l)
  | inl rv => Ok (Element rv)
  end.

(** *** The vocabulary of the statements about the list *)

Open Scope nat_scope.

(** The four accessors are one comprehension followed by [np.stack]. *)
Definition stacked_statistic (f : RandomVariable -> result ndarray)
  (self : _RandomVariableList) : result ndarray :=
  rbind (comprehension f self) np_stack.

(** An array holds as many entries as its shape says. *)
Definition well_formed (a : ndarray) : Prop :=
  List.length (data a) = np_prod (shape a).

(** The [i]-th entry of an array along its first axis. *)
Definition block (a : ndarray) (i : nat) : list Q :=
  let size := np_prod (tl (shape a)) in
  firstn size (skipn (i * size) (data a)).

(** Two random variables with 2-vectors as means. *)
Definition rv_of (m : ndarray) : RandomVariable :=
  MkRV (Ok m) (Ok m) (Ok m) (Ok m).

Definition two_rvs : _RandomVariableList :=
  [rv_of (MkArray [2] [1%Q; 2%Q]); rv_of (MkArray [2] [3%Q; 4%Q])].

End RandomVariableList.

(** ** test_linearsolvers.py: the posterior computed directly

    Matrices over a field [F]: the arithmetic of the test, taken exactly.
    [S] and [Y] hold the [k] search directions and observations as columns. *)

Module Posterior.
Import mathcomp.boot.boot mathcomp.algebra.algebra.
Import GRing.Theory.
Local Open Scope ring_scope.

Section Direct.

Variable F : fieldType.
Variables n k : nat.

(** [np.linalg.solve(a, b)]: the solution of [a x = b]; a singular [a]
    raises LinAlgError. *)
Definition np_linalg_solve {p q : nat} (a : 'M[F]_p) (b : 'M[F]_(p, q))
  : option 'M[F]_(p, q) :=
  if a \in unitmx then Some (invmx a *m b) else None.

(** [posterior_mean(A0, WA0, S, Y)] of
    [test_posterior_distribution_parameters]; [@] associates to the left. *)
Definition posterior_mean (A0 WA0 : 'M[F]_n) (S Y : 'M[F]_(n, k))
  : option 'M[F]_n :=
  let Delta := Y - A0 *m S in
  omap (fun U_T : 'M[F]_(k, n) =>
          let U := U_T^T in
          A0 + Delta *m U_T + U *m Delta^T - U *m S^T *m Delta *m U_T)
       (np_linalg_solve (S^T *m (WA0 *m S)) (WA0 *m S)^T).

(** [posterior_cov_kronfac(WA0, S)] of the same test *)
Definition posterior_cov_kronfac (WA0 : 'M[F]_n) (S : 'M[F]_(n, k))
  : option 'M[F]_n :=
  omap (fun U_AT : 'M[F]_(k, n) => WA0 *m (1%:M - S *m U_AT))
       (np_linalg_solve (S^T *m (WA0 *m S)) (WA0 *m S)^T).

End Direct.

Arguments np_linalg_solve {F p q} a b.
Arguments posterior_mean {F n k} A0 WA0 S Y.
Arguments posterior_cov_kronfac {F n k} WA0 S.

Section Solver.

Variable F : fieldType.
Variables n k : nat.

(** Modelled from the spec: the solver [problinsolve] is not among the
    sources; this is the belief over [A] it holds after the search
    directions [S] and the observations [Y], as the design of the
    iteration (step 5) gives it:
    [Delta = Y - A0 S], [U = (W S)(S^T W S)^-1],
    [A_post = A0 + Delta U^T + U Delta^T - U S^T Delta U^T]. *)
Definition Delta (A0 : 'M[F]_n) (S Y : 'M[F]_(n, k)) : 'M[F]_(n, k) :=
  Y - A0 *m S.

Definition U (W : 'M[F]_n) (S : 'M[F]_(n, k)) : 'M[F]_(n, k) :=
  (W *m S) *m invmx (S^T *m W *m S).

Definition A_post (A0 W : 'M[F]_n) (S Y : 'M[F]_(n, k)) : 'M[F]_n :=
  A0 + Delta A0 S Y *m (U W S)^T + U W S *m (Delta A0 S Y)^T
  - U W S *m S^T *m Delta A0 S Y *m (U W S)^T.

(** Modelled from the spec: the posterior covariance Kronecker factor of the
    same solver, [cov_fac_post = W (I - S U^T)]. *)
Definition cov_fac_post (W : 'M[F]_n) (S : 'M[F]_(n, k)) : 'M[F]_n :=
  W *m (1%:M - S *m (U W S)^T).

(** Modelled from the spec: the belief over the inverse of [A], the
    same formulas with the roles of [S] and [Y] swapped. *)
Definition Ainv_post (H0 W : 'M[F]_n) (S Y : 'M[F]_(n, k)) : 'M[F]_n :=
  A_post H0 W Y S.

Definition Ainv_cov_fac_post (W : 'M[F]_n) (S Y : 'M[F]_(n, k)) : 'M[F]_n :=
  cov_fac_post W Y.

End Solver.

Arguments Delta {F n k} A0 S Y.
Arguments U {F n k} W S.
Arguments A_post {F n k} A0 W S Y.
Arguments cov_fac_post {F n k} W S.
Arguments Ainv_post {F n k} H0 W S Y.
Arguments Ainv_cov_fac_post {F n k} W S Y.

(** *** A worked example

    Two dimensions and one search direction over the rationals: the
    direction [s = (1, 1)] with the observation [y = (2, 2)], as for
    [A = 2 I]; with the identity as prior mean the residual [y - A0 s] is
    [s], not zero. *)
Definition S_ones : 'M[rat]_(2, 1) := const_mx 1.
Definition Y_twos : 'M[rat]_(2, 1) := const_mx 2.

(** The 2-by-2 matrix of ones, [s s^T]. *)
Definition J_ones : 'M[rat]_2 := const_mx 1.

End Posterior.

(** * Theorems *)

(** ** Construction: the factory and the initialisers *)

Module NormalNewFacts.
Import Py NormalNew.

Open Scope list_scope.
Open Scope nat_scope.

Lemma shape_eqb_eq (s t : list nat) : shape_eqb s t = true <-> s = t.
Proof.
  revert t; induction s as [|a s IH]; intros [|b t]; simpl; split;
    try congruence; try reflexivity.
  - rewrite andb_true_iff, Nat.eqb_eq, IH. intros [-> ->]. reflexivity.
  - intros E. injection E as -> ->. rewrite Nat.eqb_refl.
    apply IH. reflexivity.
Qed.

Lemma shape_in_dim1shapes (s : list nat) :
  shape_in s dim1shapes = true <-> one_element_shape s.
Proof.
  unfold shape_in, dim1shapes, one_element_shape. simpl.
  rewrite !orb_true_iff, !shape_eqb_eq. intuition congruence.
Qed.

Lemma univariate_input_test (mean cov : pyval) :
  (np_isscalar mean && np_isscalar cov)
  || (shape_in (np_shape mean) dim1shapes && shape_in (np_shape cov) dim1shapes)
  = true <-> univariate_input mean cov.
Proof.
  unfold univariate_input.
  rewrite orb_true_iff, !andb_true_iff, !shape_in_dim1shapes. reflexivity.
Qed.

Lemma univariate_input_dec (mean cov : pyval) :
  {univariate_input mean cov} + {~ univariate_input mean cov}.
Proof.
  destruct ((np_isscalar mean && np_isscalar cov)
            || (shape_in (np_shape mean) dim1shapes
                && shape_in (np_shape cov) dim1shapes)) eqn:E.
  - left. apply univariate_input_test, E.
  - right. intros H. apply univariate_input_test in H. congruence.
Qed.

Ltac not_univariate H :=
  let E := fresh "E" in
  match goal with
  | |- context [Normal__new__ Normal ?m ?c] =>
      destruct ((np_isscalar m && np_isscalar c)
                || (shape_in (np_shape m) dim1shapes
                    && shape_in (np_shape c) dim1shapes)) eqn:E;
      [ exfalso; apply H, univariate_input_test, E | ]
  end.

Lemma new_univariate (mean cov : pyval) :
  univariate_input mean cov ->
  Normal__new__ Normal mean cov = Ok _UnivariateNormal.
Proof.
  intros H. apply univariate_input_test in H.
  unfold Normal__new__. rewrite H. reflexivity.
Qed.

Lemma new_dense (mean cov : pyval) :
  ~ univariate_input mean cov ->
  is_array mean = true -> is_array cov = true ->
  Normal__new__ Normal mean cov
  = Ok (if List.length (np_shape mean) =? 1
        then _MultivariateNormal else _MatrixvariateNormal).
Proof.
  intros H Hm Hc. not_univariate H.
  unfold Normal__new__. rewrite E, Hm, Hc. simpl.
  destruct (List.length (np_shape mean) =? 1); reflexivity.
Qed.

Lemma new_operator (mean cov : pyval) :
  ~ univariate_input mean cov ->
  is_array mean && is_array cov = false ->
  is_LinearOperator mean || is_LinearOperator cov = true ->
  Normal__new__ Normal mean cov
  = Ok (if is_SymmetricKronecker_ABequal cov
        then _SymmetricKroneckerIdenticalFactorsNormal
        else _OperatorvariateNormal).
Proof.
  intros H Ha Hl. not_univariate H.
  unfold Normal__new__. rewrite E, Ha, Hl.
  destruct (is_SymmetricKronecker_ABequal cov); reflexivity.
Qed.

Lemma new_other (mean cov : pyval) :
  ~ univariate_input mean cov ->
  is_array mean && is_array cov = false ->
  is_LinearOperator mean || is_LinearOperator cov = false ->
  Normal__new__ Normal mean cov = Raise (ValueError (cannot_instantiate mean cov)).
Proof.
  intros H Ha Hl. not_univariate H.
  unfold Normal__new__. rewrite E, Ha, Hl. reflexivity.
Qed.

Lemma tests_from_types (mean mean' : pyval) :
  type_of mean = type_of mean' -> np_shape mean = np_shape mean' ->
  np_isscalar mean = np_isscalar mean'
  /\ is_array mean = is_array mean'
  /\ is_LinearOperator mean = is_LinearOperator mean'
  /\ is_SymmetricKronecker_ABequal mean = is_SymmetricKronecker_ABequal mean'.
Proof.
  destruct mean, mean'; simpl; intros T S; try discriminate T;
    repeat split; try reflexivity.
  injection T as T. exact T.
Qed.

(** The factory reads nothing of its arguments but their types and shapes. *)
Lemma new_from_types (mean cov mean' cov' : pyval) :
  type_of mean = type_of mean' -> np_shape mean = np_shape mean' ->
  type_of cov = type_of cov' -> np_shape cov = np_shape cov' ->
  chosen (Normal__new__ Normal mean cov)
  = chosen (Normal__new__ Normal mean' cov').
Proof.
  intros Tm Sm Tc Sc.
  destruct (tests_from_types _ _ Tm Sm) as (Im & Am & Lm & _).
  destruct (tests_from_types _ _ Tc Sc) as (Ic & Ac & Lc & Kc).
  unfold Normal__new__. rewrite Im, Ic, Sm, Sc, Am, Ac, Lm, Lc, Kc.
  repeat match goal with |- context [if ?b then _ else _] => destruct b end;
    reflexivity.
Qed.

(** C1.  [Normal(mean, cov)] selects its variant from the types and shapes of
    [mean] and [cov] alone, the cases read in the order the factory tries
    them: two scalars, or two values of shape [()], [(1,)] or [(1, 1)], give
    the univariate variant; otherwise two dense or sparse arrays give the
    multivariate variant for a 1-D mean and the matrix-variate variant for a
    2-D mean; otherwise a LinearOperator as mean or cov gives the
    operator-variate variant, and the symmetric-Kronecker-identical-factors
    variant exactly when cov is a SymmetricKronecker with [_ABequal] set;
    every other pair raises a ValueError whose message names both classes. *)
Theorem C1_variant_dispatch (mean cov : pyval) :
  (univariate_input mean cov ->
   Normal__new__ Normal mean cov = Ok _UnivariateNormal)
  /\ (~ univariate_input mean cov ->
      is_array mean = true -> is_array cov = true ->
      (List.length (np_shape mean) = 1 ->
       Normal__new__ Normal mean cov = Ok _MultivariateNormal)
      /\ (List.length (np_shape mean) = 2 ->
          Normal__new__ Normal mean cov = Ok _MatrixvariateNormal))
  /\ (~ univariate_input mean cov ->
      ~ (is_array mean = true /\ is_array cov = true) ->
      is_LinearOperator mean = true \/ is_LinearOperator cov = true ->
      (Normal__new__ Normal mean cov = Ok _SymmetricKroneckerIdenticalFactorsNormal
       \/ Normal__new__ Normal mean cov = Ok _OperatorvariateNormal)
      /\ (Normal__new__ Normal mean cov = Ok _SymmetricKroneckerIdenticalFactorsNormal
          <-> exists s A B, cov = VLinOp (SymmetricKronecker s A B true)))
  /\ (~ univariate_input mean cov ->
      ~ (is_array mean = true /\ is_array cov = true) ->
      ~ (is_LinearOperator mean = true \/ is_LinearOperator cov = true) ->
      Normal__new__ Normal mean cov
      = Raise (ValueError
                 ("Cannot instantiate normal distributions with mean of type "
                    ++ class_name mean ++ " and covariance of type "
                    ++ class_name cov ++ ".")%string))
  /\ (forall mean' cov',
        type_of mean = type_of mean' -> np_shape mean = np_shape mean' ->
        type_of cov = type_of cov' -> np_shape cov = np_shape cov' ->
        chosen (Normal__new__ Normal mean cov)
        = chosen (Normal__new__ Normal mean' cov')).
Proof.
  repeat apply conj.
  - apply new_univariate.
  - intros H Hm Hc. rewrite (new_dense H Hm Hc). split; intros L; rewrite L; reflexivity.
  - intros H Ha Hl.
    assert (Ha' : is_array mean && is_array cov = false).
    { apply not_true_is_false. rewrite andb_true_iff. exact Ha. }
    assert (Hl' : is_LinearOperator mean || is_LinearOperator cov = true).
    { apply orb_true_iff. exact Hl. }
    rewrite (new_operator H Ha' Hl'). split.
    + destruct (is_SymmetricKronecker_ABequal cov); auto.
    + split.
      * destruct cov as [| | |[| |s A B []]|]; simpl; try discriminate.
        intros _. exists s, A, B. reflexivity.
      * intros (s & A & B & ->). reflexivity.
  - intros H Ha Hl. apply new_other; trivial.
    + apply not_true_is_false. rewrite andb_true_iff. exact Ha.
    + apply not_true_is_false. rewrite orb_true_iff. exact Hl.
  - intros mean' cov'. apply new_from_types.
Qed.

(** The factory on concrete pairs: [Normal(0.5, 1.)], a 3-vector with a
    3-by-3 matrix, a 2-by-2 matrix with a 4-by-4 matrix, a 2-by-2 matrix
    with a symmetric Kronecker product of identical and of other factors. *)
Example new_on_numbers :
  Normal__new__ Normal (VScalar PyFloat (1 # 2)) (VScalar PyFloat 1)
  = Ok _UnivariateNormal.
Proof. reflexivity. Qed.

Example new_on_vector :
  Normal__new__ Normal (VNdarray [3] []) (VNdarray [3; 3] [])
  = Ok _MultivariateNormal.
Proof. reflexivity. Qed.

Example new_on_matrix :
  Normal__new__ Normal (VNdarray [2; 2] []) (VNdarray [4; 4] [])
  = Ok _MatrixvariateNormal.
Proof. reflexivity. Qed.

Example new_on_identical_factors :
  Normal__new__ Normal (VNdarray [2; 2] [])
    (VLinOp (SymmetricKronecker (4, 4) (LinearOperator "Identity" (2, 2))
               (LinearOperator "Identity" (2, 2)) true))
  = Ok _SymmetricKroneckerIdenticalFactorsNormal.
Proof. reflexivity. Qed.

Example new_on_other_factors :
  Normal__new__ Normal (VNdarray [2; 2] [])
    (VLinOp (SymmetricKronecker (4, 4) (LinearOperator "Identity" (2, 2))
               (LinearOperator "MatrixMult" (2, 2)) false))
  = Ok _OperatorvariateNormal.
Proof. reflexivity. Qed.

(** A number with a matrix is no supported pair; two 1-by-1 operators are
    taken for numbers, by their shape. *)
Example new_on_number_and_matrix :
  Normal__new__ Normal (VScalar PyFloat (1 # 2)) (VNdarray [2; 2] [])
  = Raise (ValueError
      "Cannot instantiate normal distributions with mean of type float and covariance of type ndarray.").
Proof. reflexivity. Qed.

Example new_on_one_by_one_operators :
  Normal__new__ Normal (VLinOp (LinearOperator "Identity" (1, 1)))
    (VLinOp (LinearOperator "Identity" (1, 1)))
  = Ok _UnivariateNormal.
Proof. reflexivity. Qed.

(** *** Shape validation of dense parameters *)

(** The dense initialisers accept exactly a 2-D covariance whose two
    dimensions are the number of entries of the mean. *)
Lemma dense_init_spec (msg2d : string) (mean cov : pyval) (sm sc : list nat) :
  attr_shape mean = Ok sm -> attr_shape cov = Ok sc ->
  dense__init__ msg2d mean cov
  = if negb (List.length sc =? 2) then Raise (ValueError msg2d)
    else if (nth 0 sc 0 =? np_prod sm) && (nth 1 sc 0 =? np_prod sm)
         then Ok (mean, cov)
         else Raise (ValueError shape_mismatch).
Proof.
  intros Hm Hc. unfold dense__init__. rewrite Hm, Hc. simpl.
  destruct sc as [|c0 [|c1 [|c2 sc]]]; simpl; try reflexivity.
  rewrite (Nat.eqb_sym (np_prod sm) c0), (Nat.eqb_sym (np_prod sm) c1).
  destruct (c0 =? np_prod sm); simpl; [|reflexivity].
  destruct (c1 =? np_prod sm); reflexivity.
Qed.

Lemma dense_univariate_input (sm sc : list nat) (dm dc : list Q) :
  univariate_input (VNdarray sm dm) (VNdarray sc dc)
  <-> one_element_shape sm /\ one_element_shape sc.
Proof.
  unfold univariate_input. simpl. intuition discriminate.
Qed.

(** A dense pair outside the one-element shapes goes through a dense
    initialiser, whatever the number of dimensions of the mean. *)
Lemma construct_dense (sm sc : list nat) (dm dc : list Q) :
  ~ (one_element_shape sm /\ one_element_shape sc) ->
  construct Normal (VNdarray sm dm) (VNdarray sc dc)
  = if negb (List.length sc =? 2)
    then Raise (ValueError (if (List.length sm =? 1)%nat
                            then "Covariance must be a 2D matrix or linear operator."
                            else "Covariance must be a 2D matrix.")%string)
    else if (nth 0 sc 0 =? np_prod sm) && (nth 1 sc 0 =? np_prod sm)
         then Ok (MkNormal (if List.length sm =? 1
                            then _MultivariateNormal else _MatrixvariateNormal)
                           (VNdarray sm dm) (VNdarray sc dc))
         else Raise (ValueError shape_mismatch).
Proof.
  intros H. rewrite <- dense_univariate_input with (dm := dm) (dc := dc) in H.
  unfold construct. rewrite (new_dense H eq_refl eq_refl). simpl np_shape.
  destruct (List.length sm =? 1); simpl rbind; simpl init;
    [unfold _MultivariateNormal__init__ | unfold _MatrixvariateNormal__init__];
    rewrite (@dense_init_spec _ (VNdarray sm dm) (VNdarray sc dc) sm sc
               eq_refl eq_refl);
    destruct (negb (List.length sc =? 2)); try reflexivity;
    destruct ((nth 0 sc 0 =? np_prod sm) && (nth 1 sc 0 =? np_prod sm));
    reflexivity.
Qed.

Lemma construct_univariate (mean cov : pyval) :
  univariate_input mean cov ->
  construct Normal mean cov
  = rbind (py_float mean) (fun fmean =>
    rbind (py_float cov) (fun fcov =>
    Ok (MkNormal _UnivariateNormal fmean fcov))).
Proof.
  intros H. unfold construct. rewrite (new_univariate H). simpl.
  unfold _UnivariateNormal__init__, Normal__init__.
  destruct (py_float mean); simpl; [|reflexivity].
  destruct (py_float cov); reflexivity.
Qed.

Lemma py_float_no_ValueError (v : pyval) : is_ValueError (py_float v) = false.
Proof.
  destruct v as [ty x|s [|x [|y d]]|cls s d|op|cls s]; reflexivity.
Qed.

Lemma shape_is_pair (sc : list nat) (p : nat) :
  List.length sc = 2 -> nth 0 sc 0 = p -> nth 1 sc 0 = p -> sc = [p; p].
Proof.
  destruct sc as [|c0 [|c1 [|c2 sc]]]; simpl; try discriminate.
  intros _ -> ->. reflexivity.
Qed.

(** C3, as the claim states it, fails: a dense 1-D mean of shape [(1,)] with
    a dense covariance of shape [(1,)], which is not 2-dimensional, is
    accepted; the factory sends the pair to the univariate variant. *)
Lemma C3_one_element_covariance_accepted :
  List.length (np_shape (VNdarray [1] [(1 # 2)%Q])) = 1
  /\ List.length (np_shape (VNdarray [1] [(2 # 1)%Q])) <> 2
  /\ construct Normal (VNdarray [1] [(1 # 2)%Q]) (VNdarray [1] [(2 # 1)%Q])
     = Ok (MkNormal _UnivariateNormal
             (VScalar PyFloat (1 # 2)) (VScalar PyFloat (2 # 1))).
Proof.
  repeat split. simpl. discriminate.
Qed.

(** C3, amended.  For a dense mean (1-D, 2-D or of any other dimension) and a
    dense covariance:
    - unless both have one of the shapes [()], [(1,)], [(1, 1)], construction
      raises a ValueError with one of the three messages of the dense
      initialisers whenever cov is not 2-dimensional or its row or column
      count differs from the number of entries of mean, and succeeds, keeping
      both parameters, when cov is that square;
    - when both have one of these shapes the univariate variant is built
      from [float(mean)] and [float(cov)] and no ValueError is raised;
    - so construction succeeds only when both dimensions of cov equal the
      flattened size of mean, or mean has one entry and cov has shape [()]
      or [(1,)]. *)
Theorem C3_dense_shape_validation (sm sc : list nat) (dm dc : list Q) :
  (~ (one_element_shape sm /\ one_element_shape sc) ->
   (List.length sc <> 2 \/ nth 0 sc 0 <> np_prod sm \/ nth 1 sc 0 <> np_prod sm ->
    exists msg,
      construct Normal (VNdarray sm dm) (VNdarray sc dc) = Raise (ValueError msg)
      /\ (msg = "Covariance must be a 2D matrix or linear operator."%string
          \/ msg = "Covariance must be a 2D matrix."%string
          \/ msg = shape_mismatch))
   /\ (sc = [np_prod sm; np_prod sm] ->
       construct Normal (VNdarray sm dm) (VNdarray sc dc)
       = Ok (MkNormal (if List.length sm =? 1
                       then _MultivariateNormal else _MatrixvariateNormal)
                      (VNdarray sm dm) (VNdarray sc dc))))
  /\ (one_element_shape sm /\ one_element_shape sc ->
      construct Normal (VNdarray sm dm) (VNdarray sc dc)
      = rbind (py_float (VNdarray sm dm)) (fun fmean =>
        rbind (py_float (VNdarray sc dc)) (fun fcov =>
        Ok (MkNormal _UnivariateNormal fmean fcov)))
      /\ is_ValueError (construct Normal (VNdarray sm dm) (VNdarray sc dc)) = false)
  /\ (forall n,
        construct Normal (VNdarray sm dm) (VNdarray sc dc) = Ok n ->
        sc = [np_prod sm; np_prod sm]
        \/ (np_prod sm = 1 /\ (sc = [] \/ sc = [1]))).
Proof.
  split; [|split].
  - intros H. rewrite (construct_dense dm dc H). split.
    + intros D.
      destruct (List.length sc =? 2) eqn:L; simpl.
      * apply Nat.eqb_eq in L.
        destruct ((nth 0 sc 0 =? np_prod sm) && (nth 1 sc 0 =? np_prod sm)) eqn:T.
        { apply andb_true_iff in T. rewrite !Nat.eqb_eq in T. tauto. }
        { eexists. split; [reflexivity|]. auto. }
      * eexists. split; [reflexivity|].
        destruct (List.length sm =? 1); auto.
    + intros ->. simpl. rewrite Nat.eqb_refl. reflexivity.
  - intros H. apply dense_univariate_input with (dm := dm) (dc := dc) in H.
    rewrite (construct_univariate H). split; [reflexivity|].
    pose proof (py_float_no_ValueError (VNdarray sm dm)) as Fm.
    pose proof (py_float_no_ValueError (VNdarray sc dc)) as Fc.
    set (rm := py_float (VNdarray sm dm)) in *.
    set (rc := py_float (VNdarray sc dc)) in *.
    clearbody rm rc.
    destruct rm as [fm|e]; [destruct rc as [fc|e]|]; simpl in *; auto.
  - intros n Hn.
    destruct (univariate_input_dec (VNdarray sm dm) (VNdarray sc dc)) as [U|U].
    + apply dense_univariate_input in U. destruct U as [Um Uc].
      assert (P : np_prod sm = 1)
        by (destruct Um as [->|[->| ->]]; reflexivity).
      rewrite P. destruct Uc as [->|[->| ->]]; auto.
    + rewrite dense_univariate_input in U.
      rewrite (construct_dense dm dc U) in Hn.
      destruct (List.length sc =? 2) eqn:L; simpl in Hn; [|discriminate].
      destruct ((nth 0 sc 0 =? np_prod sm) && (nth 1 sc 0 =? np_prod sm)) eqn:T;
        [|discriminate].
      apply andb_true_iff in T. destruct T as [T0 T1].
      apply Nat.eqb_eq in T0, T1, L.
      left. apply shape_is_pair; assumption.
Qed.

(** *** Shape validation of Kronecker-structured covariances *)

(** A Kronecker covariance is accepted exactly when its factors are
    [(m, m)] and [(n, n)] for a mean of shape [(m, n)]. *)
Lemma operator_init_Kronecker (mean : pyval) (s : nat * nat) (A B : linop) (m n : nat) :
  attr_shape mean = Ok [m; n] ->
  _OperatorvariateNormal__init__ mean (VLinOp (Kronecker s A B))
  = if (m =? fst (linop_shape A)) && (m =? snd (linop_shape A))
       && (n =? fst (linop_shape B)) && (n =? snd (linop_shape B))
    then Ok (mean, VLinOp (Kronecker s A B))
    else Raise (ValueError kronecker_mismatch).
Proof.
  intros Hm. unfold _OperatorvariateNormal__init__. rewrite Hm. simpl.
  destruct (m =? fst (linop_shape A)), (m =? snd (linop_shape A)),
    (n =? fst (linop_shape B)), (n =? snd (linop_shape B)); reflexivity.
Qed.

(** A symmetric Kronecker covariance is accepted exactly when the mean is
    square, [A] has as many rows and [B] as many columns as the mean: the
    columns of [A] and the rows of [B] are not looked at. *)
Lemma operator_init_SymmetricKronecker
  (mean : pyval) (s : nat * nat) (A B : linop) (eq : bool) (m n : nat) :
  attr_shape mean = Ok [m; n] ->
  _OperatorvariateNormal__init__ mean (VLinOp (SymmetricKronecker s A B eq))
  = if (m =? n) && (n =? fst (linop_shape A)) && (n =? snd (linop_shape B))
    then Ok (mean, VLinOp (SymmetricKronecker s A B eq))
    else Raise (ValueError symmetric_kronecker_mismatch).
Proof.
  intros Hm. unfold _OperatorvariateNormal__init__. rewrite Hm. simpl.
  destruct (m =? n), (n =? fst (linop_shape A)), (n =? snd (linop_shape B));
    reflexivity.
Qed.

(** The initialiser of the identical-factors variant makes the same test
    before it hands on to its parent, which makes it again. *)
Lemma identical_factors_init
  (mean : pyval) (s : nat * nat) (A B : linop) (eq : bool) (m n : nat) :
  attr_shape mean = Ok [m; n] ->
  _SymmetricKroneckerIdenticalFactorsNormal__init__ mean
    (VLinOp (SymmetricKronecker s A B eq))
  = if (m =? n) && (n =? fst (linop_shape A)) && (n =? snd (linop_shape B))
    then Ok (mean, VLinOp (SymmetricKronecker s A B eq))
    else Raise (ValueError symmetric_kronecker_mismatch).
Proof.
  intros Hm. unfold _SymmetricKroneckerIdenticalFactorsNormal__init__.
  rewrite Hm. simpl.
  destruct (m =? n) eqn:E1; simpl; [|reflexivity].
  destruct (n =? fst (linop_shape A)) eqn:E2; simpl; [|reflexivity].
  destruct (n =? snd (linop_shape B)) eqn:E3; simpl; [|reflexivity].
  rewrite (operator_init_SymmetricKronecker mean s A B eq Hm), E1, E2, E3.
  reflexivity.
Qed.

Lemma pair_eqb (a b c d : nat) :
  (a =? c) && (b =? d) = true <-> (c, d) = (a, b).
Proof.
  rewrite andb_true_iff, !Nat.eqb_eq. split.
  - intros [-> ->]. reflexivity.
  - intros H. injection H as -> ->. split; reflexivity.
Qed.

(** The test on a symmetric Kronecker covariance, for factors of one shape:
    it holds exactly when the mean is square and both factors are as large
    as the mean. *)
Lemma symmetric_test (A B : linop) (m n : nat) :
  linop_shape A = linop_shape B ->
  (m =? n) && (n =? fst (linop_shape A)) && (n =? snd (linop_shape B)) = true
  <-> m = n /\ linop_shape A = (n, n) /\ linop_shape B = (n, n).
Proof.
  intros Hs. rewrite <- Hs. destruct (linop_shape A) as [r c]. simpl.
  rewrite !andb_true_iff, !Nat.eqb_eq. split.
  - intros [[-> <-] <-]. auto.
  - intros (-> & H & _). injection H as -> ->. auto.
Qed.

(** Read without that condition, the test looks at the rows of [A] and the
    columns of [B] alone: a 2-by-2 mean with factors of shapes [(2, 3)] and
    [(3, 2)] is let through. *)
Example factors_of_two_shapes_pass :
  construct Normal
    (VNdarray [2; 2] [0%Q; 0%Q; 0%Q; 0%Q])
    (VLinOp (SymmetricKronecker (4, 4)
               (LinearOperator "MatrixMult" (2, 3))
               (LinearOperator "MatrixMult" (3, 2)) false))
  = Ok (MkNormal _OperatorvariateNormal
          (VNdarray [2; 2] [0%Q; 0%Q; 0%Q; 0%Q])
          (VLinOp (SymmetricKronecker (4, 4)
                     (LinearOperator "MatrixMult" (2, 3))
                     (LinearOperator "MatrixMult" (3, 2)) false))).
Proof. reflexivity. Qed.

(** C4.  For a mean of shape [(m, n)]:
    - with a Kronecker covariance the operator-variate initialiser raises
      ValueError unless [cov.A] has shape [(m, m)] and [cov.B] shape
      [(n, n)], and accepts the pair when they have;
    - with a symmetric Kronecker covariance (its factors of one shape) the
      initialisers of the operator-variate variant and of the
      identical-factors variant raise ValueError unless the mean is square,
      [m = n], and both factors are [n]-by-[n], and accept the pair when
      they are. *)
Theorem C4_kronecker_factor_shapes (mean : pyval) (m n : nat) :
  attr_shape mean = Ok [m; n] ->
  (forall s A B,
     (linop_shape A = (m, m) /\ linop_shape B = (n, n) ->
      init _OperatorvariateNormal mean (VLinOp (Kronecker s A B))
      = Ok (mean, VLinOp (Kronecker s A B)))
     /\ (~ (linop_shape A = (m, m) /\ linop_shape B = (n, n)) ->
         init _OperatorvariateNormal mean (VLinOp (Kronecker s A B))
         = Raise (ValueError kronecker_mismatch)))
  /\ (forall s A B eq c,
        factors_of_one_shape (SymmetricKronecker s A B eq) ->
        c = _OperatorvariateNormal
        \/ c = _SymmetricKroneckerIdenticalFactorsNormal ->
        (m = n /\ linop_shape A = (n, n) /\ linop_shape B = (n, n) ->
         init c mean (VLinOp (SymmetricKronecker s A B eq))
         = Ok (mean, VLinOp (SymmetricKronecker s A B eq)))
        /\ (~ (m = n /\ linop_shape A = (n, n) /\ linop_shape B = (n, n)) ->
            init c mean (VLinOp (SymmetricKronecker s A B eq))
            = Raise (ValueError symmetric_kronecker_mismatch))).
Proof.
  intros Hm. split.
  - intros s A B. simpl init.
    rewrite (operator_init_Kronecker mean s A B Hm).
    destruct ((m =? fst (linop_shape A)) && (m =? snd (linop_shape A))
              && (n =? fst (linop_shape B)) && (n =? snd (linop_shape B))) eqn:T.
    + split; [reflexivity|]. intros H. exfalso. apply H.
      rewrite <- andb_assoc in T. apply andb_true_iff in T. destruct T as [TA TB].
      apply pair_eqb in TA. apply pair_eqb in TB.
      rewrite <- surjective_pairing in TA, TB. auto.
    + split; [|reflexivity]. intros [HA HB]. rewrite HA, HB in T. simpl in T.
      rewrite !Nat.eqb_refl in T. discriminate T.
  - intros s A B eq c Hwf Hc. simpl in Hwf.
    assert (Hinit : init c mean (VLinOp (SymmetricKronecker s A B eq))
                    = if (m =? n) && (n =? fst (linop_shape A))
                         && (n =? snd (linop_shape B))
                      then Ok (mean, VLinOp (SymmetricKronecker s A B eq))
                      else Raise (ValueError symmetric_kronecker_mismatch)).
    { destruct Hc as [-> | ->]; simpl init.
      - apply (operator_init_SymmetricKronecker mean s A B eq Hm).
      - apply (identical_factors_init mean s A B eq Hm). }
    rewrite Hinit. pose proof (symmetric_test A B m n Hwf) as T.
    destruct ((m =? n) && (n =? fst (linop_shape A))
              && (n =? snd (linop_shape B))).
    + split; [reflexivity|]. intros H. exfalso. apply H, T. reflexivity.
    + split; [|reflexivity]. intros H. apply T in H. discriminate H.
Qed.

(** A 2-by-2 mean. *)
Lemma C4_kronecker_factor_shapes_witness :
  init _OperatorvariateNormal (VNdarray [2; 2] [0%Q; 0%Q; 0%Q; 0%Q])
    (VLinOp (Kronecker (4, 4) (LinearOperator "Identity" (2, 2))
               (LinearOperator "Identity" (2, 2))))
  = Ok (VNdarray [2; 2] [0%Q; 0%Q; 0%Q; 0%Q],
        VLinOp (Kronecker (4, 4) (LinearOperator "Identity" (2, 2))
                  (LinearOperator "Identity" (2, 2))))
  /\ init _SymmetricKroneckerIdenticalFactorsNormal
       (VNdarray [2; 2] [0%Q; 0%Q; 0%Q; 0%Q])
       (VLinOp (SymmetricKronecker (4, 4) (LinearOperator "MatrixMult" (3, 3))
                  (LinearOperator "MatrixMult" (3, 3)) true))
     = Raise (ValueError symmetric_kronecker_mismatch).
Proof.
  destruct (@C4_kronecker_factor_shapes
              (VNdarray [2; 2] [0%Q; 0%Q; 0%Q; 0%Q]) 2 2 eq_refl)
    as [HK HS].
  split.
  - apply (proj1 (HK (4, 4) (LinearOperator "Identity" (2, 2))
                    (LinearOperator "Identity" (2, 2)))).
    split; reflexivity.
  - apply (proj2 (HS (4, 4) (LinearOperator "MatrixMult" (3, 3))
                    (LinearOperator "MatrixMult" (3, 3)) true
                    _SymmetricKroneckerIdenticalFactorsNormal
                    eq_refl (or_intror eq_refl))).
    intros (_ & H & _). discriminate H.
Defined.

(** *** What a constructed Normal keeps *)

Lemma construct_inv (mean cov : pyval) (n : normal) :
  construct Normal mean cov = Ok n ->
  Normal__new__ Normal mean cov = Ok (n_class n)
  /\ init (n_class n) mean cov = Ok (n_mean n, n_cov n).
Proof.
  unfold construct. destruct (Normal__new__ Normal mean cov) as [c|e]; simpl;
    [|discriminate].
  destruct (init c mean cov) as [[m k]|e] eqn:Hi; simpl; [|discriminate].
  intros H. injection H as <-. simpl. split; [reflexivity|exact Hi].
Qed.

Lemma attr_shape_from_type (m m' : pyval) (s : list nat) :
  type_of m' = type_of m -> np_shape m' = np_shape m ->
  attr_shape m = Ok s -> attr_shape m' = Ok s.
Proof.
  destruct m, m'; simpl; try discriminate; intros _ Hs H;
    injection H as <-; unfold attr_shape; simpl; rewrite Hs; reflexivity.
Qed.

Ltac split_matches :=
  repeat (simpl;
          match goal with
          | |- context [match ?x with _ => _ end] => destruct x
          end).

(** Every initialiser but the univariate one keeps [mean] and [cov] as they
    are, and reads of [mean] its attribute [shape] alone. *)
Lemma init_keeps (c : pyclass) (m m' cov : pyval) (p : pyval * pyval) :
  c <> _UnivariateNormal ->
  (forall s, attr_shape m = Ok s -> attr_shape m' = Ok s) ->
  init c m cov = Ok p ->
  p = (m, cov) /\ init c m' cov = Ok (m', cov).
Proof.
  intros Hc Hs.
  destruct c; try congruence; simpl;
    unfold _MultivariateNormal__init__, _MatrixvariateNormal__init__,
      dense__init__, _SymmetricKroneckerIdenticalFactorsNormal__init__,
      _OperatorvariateNormal__init__, Normal__init__.
  all: try (intros H; injection H as <-; split; reflexivity).
  all: destruct (attr_shape m) as [s|e]; simpl; [|discriminate];
    rewrite (Hs s eq_refl); unfold rbind; split_matches;
    intros H; first [discriminate H | injection H as <-; split; reflexivity].
Qed.

Lemma construct_stores (mean cov : pyval) (n : normal) :
  construct Normal mean cov = Ok n ->
  (n_mean n = mean /\ n_cov n = cov)
  \/ (py_float mean = Ok (n_mean n) /\ py_float cov = Ok (n_cov n)).
Proof.
  intros H. apply construct_inv in H. destruct H as [_ H].
  destruct (n_class n) eqn:Ec.
  2: { right. simpl in H. unfold _UnivariateNormal__init__, Normal__init__ in H.
       destruct (py_float mean) as [fm|]; simpl in H; [|discriminate].
       destruct (py_float cov) as [fc|]; simpl in H; [|discriminate].
       injection H as -> ->. split; reflexivity. }
  all: left; apply (@init_keeps _ mean mean cov) in H;
    [ destruct H as [H _]; injection H as -> ->; split; reflexivity
    | congruence | trivial ].
Qed.

(** A constructed Normal whose mean is replaced by a value of the same type
    and shape is accepted again, as the same variant and with the same cov. *)
Lemma construct_shifted_mean (n : normal) (m' : pyval) :
  construct Normal (n_mean n) (n_cov n) = Ok n ->
  type_of m' = type_of (n_mean n) -> np_shape m' = np_shape (n_mean n) ->
  exists n',
    construct Normal m' (n_cov n) = Ok n'
    /\ n_class n' = n_class n
    /\ (n_mean n' = m' \/ py_float m' = Ok (n_mean n'))
    /\ n_cov n' = n_cov n.
Proof.
  intros Hn Ht Hs. apply construct_inv in Hn. destruct Hn as [Hnew Hinit].
  assert (Hnew' : Normal__new__ Normal m' (n_cov n) = Ok (n_class n)).
  { pose proof (@new_from_types m' (n_cov n) (n_mean n) (n_cov n)
                  Ht Hs eq_refl eq_refl) as Hch.
    rewrite Hnew in Hch.
    destruct (Normal__new__ Normal m' (n_cov n)); simpl in Hch; congruence. }
  unfold construct. rewrite Hnew'. simpl.
  destruct (n_class n) eqn:Ec.
  2: { cbn [init] in *. unfold _UnivariateNormal__init__, Normal__init__ in *.
       destruct (py_float (n_mean n)) as [fm|] eqn:Fm; cbn [rbind] in Hinit;
         [|discriminate].
       destruct (py_float (n_cov n)) as [fc|] eqn:Fc; cbn [rbind] in Hinit;
         [|discriminate].
       injection Hinit as -> ->.
       assert (Hsc : type_of (n_mean n) = TScalar).
       { destruct (n_mean n) as [ty x|s [|x [|y d]]|cls s d|op|cls s];
           simpl in Fm; try discriminate; reflexivity. }
       rewrite Hsc in Ht. destruct m' as [ty x| | | |]; try discriminate Ht.
       simpl. eexists. split; [reflexivity|]. simpl. auto. }
  all: apply (@init_keeps _ (n_mean n) m' (n_cov n)) in Hinit;
    [ destruct Hinit as [_ Hinit]; rewrite Hinit; simpl;
      eexists; split; [reflexivity|]; simpl; auto
    | congruence
    | intros s; apply attr_shape_from_type; assumption ].
Qed.

(** An initialiser reads of a covariance that is not Kronecker-structured
    its attribute [shape] alone. *)
Lemma init_same_layout (c : pyclass) (m m' cov cov' : pyval) (p : pyval * pyval) :
  c <> _UnivariateNormal ->
  (forall s, attr_shape m = Ok s -> attr_shape m' = Ok s) ->
  (forall s, attr_shape cov = Ok s -> attr_shape cov' = Ok s) ->
  kronecker_structured cov = false -> kronecker_structured cov' = false ->
  init c m cov = Ok p -> init c m' cov' = Ok (m', cov').
Proof.
  intros Hc Hm Hk Kc Kc'.
  assert (HA : forall A, attr_A cov <> Ok A).
  { destruct cov as [| | |[| |]|]; simpl in *; congruence. }
  assert (Hgen : forall v, kronecker_structured v = false ->
            _OperatorvariateNormal__init__ m v
            = rbind (attr_shape m) (fun smean =>
              rbind (attr_shape v) (fun scov =>
              rbind (tuple_get scov 0) (fun c0 =>
              if negb (np_prod smean =? c0)
              then Raise (ValueError "Shape mismatch of mean and covariance.")
              else rbind (tuple_get scov 1) (fun c1 =>
                   if negb (np_prod smean =? c1)
                   then Raise (ValueError "Shape mismatch of mean and covariance.")
                   else Ok (m, v)))))).
  { intros v Kv. unfold _OperatorvariateNormal__init__, Normal__init__.
    destruct v as [| | |[| |]|]; simpl in *; try discriminate Kv; reflexivity. }
  assert (Hgen' : forall v, kronecker_structured v = false ->
            _OperatorvariateNormal__init__ m' v
            = rbind (attr_shape m') (fun smean =>
              rbind (attr_shape v) (fun scov =>
              rbind (tuple_get scov 0) (fun c0 =>
              if negb (np_prod smean =? c0)
              then Raise (ValueError "Shape mismatch of mean and covariance.")
              else rbind (tuple_get scov 1) (fun c1 =>
                   if negb (np_prod smean =? c1)
                   then Raise (ValueError "Shape mismatch of mean and covariance.")
                   else Ok (m', v)))))).
  { intros v Kv. unfold _OperatorvariateNormal__init__, Normal__init__.
    destruct v as [| | |[| |]|]; simpl in *; try discriminate Kv; reflexivity. }
  destruct c; try congruence; simpl init.
  - intros _. reflexivity.
  - unfold _MultivariateNormal__init__, dense__init__, Normal__init__.
    destruct (attr_shape m) as [s|e]; simpl; [|discriminate].
    rewrite (Hm s eq_refl). simpl.
    destruct (attr_shape cov) as [sc|e]; simpl; [|discriminate].
    rewrite (Hk sc eq_refl). unfold rbind. split_matches;
      intros H; first [discriminate H | reflexivity].
  - unfold _MatrixvariateNormal__init__, dense__init__, Normal__init__.
    destruct (attr_shape m) as [s|e]; simpl; [|discriminate].
    rewrite (Hm s eq_refl). simpl.
    destruct (attr_shape cov) as [sc|e]; simpl; [|discriminate].
    rewrite (Hk sc eq_refl). unfold rbind. split_matches;
      intros H; first [discriminate H | reflexivity].
  - rewrite (Hgen cov Kc), (Hgen' cov' Kc').
    destruct (attr_shape m) as [s|e]; simpl; [|discriminate].
    rewrite (Hm s eq_refl). simpl.
    destruct (attr_shape cov) as [sc|e]; simpl; [|discriminate].
    rewrite (Hk sc eq_refl). unfold rbind. split_matches;
      intros H; first [discriminate H | reflexivity].
  - unfold _SymmetricKroneckerIdenticalFactorsNormal__init__.
    destruct (attr_shape m) as [s|e]; simpl; [|discriminate].
    destruct (unpack2 s) as [[a b]|e]; simpl; [|discriminate].
    destruct (negb (a =? b)); [discriminate|].
    destruct (attr_A cov) as [A|e] eqn:EA; simpl; [|discriminate].
    exfalso. apply (HA A). reflexivity.
Qed.

(** A constructed Normal whose covariance is not Kronecker-structured is
    accepted again, as the same variant, when mean and covariance are
    replaced by values of their types and shapes. *)
Lemma construct_same_layout (n : normal) (m' cov' : pyval) :
  construct Normal (n_mean n) (n_cov n) = Ok n ->
  kronecker_structured (n_cov n) = false ->
  kronecker_structured cov' = false ->
  type_of m' = type_of (n_mean n) -> np_shape m' = np_shape (n_mean n) ->
  type_of cov' = type_of (n_cov n) -> np_shape cov' = np_shape (n_cov n) ->
  exists n', construct Normal m' cov' = Ok n' /\ n_class n' = n_class n.
Proof.
  intros Hn Kc Kc' Tm Sm Tc Sc.
  apply construct_inv in Hn. destruct Hn as [Hnew Hinit].
  assert (Hnew' : Normal__new__ Normal m' cov' = Ok (n_class n)).
  { pose proof (@new_from_types m' cov' (n_mean n) (n_cov n) Tm Sm Tc Sc) as Hch.
    rewrite Hnew in Hch.
    destruct (Normal__new__ Normal m' cov'); simpl in Hch; congruence. }
  unfold construct. rewrite Hnew'. simpl.
  destruct (n_class n) eqn:Ec.
  2: { cbn [init] in *. unfold _UnivariateNormal__init__, Normal__init__ in *.
       destruct (py_float (n_mean n)) as [fm|] eqn:Fm; cbn [rbind] in Hinit;
         [|discriminate].
       destruct (py_float (n_cov n)) as [fc|] eqn:Fc; cbn [rbind] in Hinit;
         [|discriminate].
       injection Hinit as -> ->.
       assert (Hsm : type_of (n_mean n) = TScalar).
       { destruct (n_mean n) as [ty x|s [|x [|y d]]|cls s d|op|cls s];
           simpl in Fm; try discriminate; reflexivity. }
       assert (Hsc : type_of (n_cov n) = TScalar).
       { destruct (n_cov n) as [ty x|s [|x [|y d]]|cls s d|op|cls s];
           simpl in Fc; try discriminate; reflexivity. }
       rewrite Hsm in Tm. rewrite Hsc in Tc.
       destruct m' as [ty x| | | |]; try discriminate Tm.
       destruct cov' as [ty' x'| | | |]; try discriminate Tc.
       simpl. eexists. split; reflexivity. }
  all: apply (@init_same_layout _ (n_mean n) m' (n_cov n) cov') in Hinit;
    [ rewrite Hinit; simpl; eexists; split; reflexivity
    | congruence
    | intros s; apply attr_shape_from_type; assumption
    | intros s; apply attr_shape_from_type; assumption
    | assumption | assumption ].
Qed.

End NormalNewFacts.

(** ** Arithmetic: the store is only ever extended *)

Module NormalArithFacts.
Import Py NormalNew NormalArith NormalNewFacts.

Open Scope list_scope.
Open Scope nat_scope.

Local Unset Implicit Arguments.

(** *** The monad *)

Lemma bind_Ok {A B} {m : M A} (k : A -> M B) {h h1 : store} {a : A} :
  m h = (Ok a, h1) -> bind m k h = k a h1.
Proof. intros H. unfold bind. rewrite H. reflexivity. Qed.

Lemma bind_Raise {A B} {m : M A} (k : A -> M B) {h h1 : store} {e : exn} :
  m h = (Raise e, h1) -> bind m k h = (Raise e, h1).
Proof. intros H. unfold bind. rewrite H. reflexivity. Qed.

Lemma load_Some {h : store} {r : ref} {o : object} :
  nth_error h r = Some o -> load r h = (Ok o, h).
Proof. intros H. unfold load. rewrite H. reflexivity. Qed.

Lemma load_normal_Some {h : store} {self : ref} {n : normal} {rs : random_state} :
  nth_error h self = Some (NormalObj n rs) ->
  load_normal self h = (Ok (n, rs), h).
Proof.
  intros H. unfold load_normal. rewrite (bind_Ok _ (load_Some H)). reflexivity.
Qed.

Lemma Normal_call_Ok {mean cov : pyval} (rs : random_state) {n : normal} (h : store) :
  construct Normal mean cov = Ok n ->
  Normal_call mean cov rs h = (Ok (List.length h), h ++ [NormalObj n rs]).
Proof. intros H. unfold Normal_call, bind, lift. rewrite H. reflexivity. Qed.

(** *** Stores that only grow *)

Lemma extends_refl (h : store) : extends h h.
Proof. exists []. symmetry. apply app_nil_r. Qed.

Lemma extends_trans {h1 h2 h3 : store} :
  extends h1 h2 -> extends h2 h3 -> extends h1 h3.
Proof.
  intros [t ->] [u ->]. exists (t ++ u). symmetry. apply app_assoc.
Qed.

Lemma extends_app (h t : store) : extends h (h ++ t).
Proof. exists t. reflexivity. Qed.

Lemma extends_length {h h' : store} :
  extends h h' -> List.length h <= List.length h'.
Proof. intros [t ->]. rewrite length_app. lia. Qed.

(** What a reference names in a store it still names in every extension. *)
Lemma extends_nth {h h' : store} {r : ref} {o : object} :
  extends h h' -> nth_error h r = Some o -> nth_error h' r = Some o.
Proof.
  intros [t ->] H. rewrite nth_error_app1; [exact H|].
  apply nth_error_Some. congruence.
Qed.

Lemma allocates_ret {A} (a : A) : allocates_only (ret a).
Proof. intros h. apply extends_refl. Qed.

Lemma allocates_raise {A} (e : exn) : allocates_only (@raise A e).
Proof. intros h. apply extends_refl. Qed.

Lemma allocates_lift {A} (r : result A) : allocates_only (lift r).
Proof. intros h. apply extends_refl. Qed.

Lemma allocates_load (r : ref) : allocates_only (load r).
Proof.
  intros h. unfold load. destruct (nth_error h r); apply extends_refl.
Qed.

Lemma allocates_alloc (o : object) : allocates_only (alloc o).
Proof. intros h. apply extends_app. Qed.

Lemma allocates_bind {A B} (m : M A) (k : A -> M B) :
  allocates_only m -> (forall a, allocates_only (k a)) ->
  allocates_only (bind m k).
Proof.
  intros Hm Hk h. unfold bind. specialize (Hm h).
  destruct (m h) as [[a|e] h1]; simpl in *; [|exact Hm].
  apply (extends_trans Hm). apply Hk.
Qed.

Lemma allocates_try {A} (m handler : M A) :
  allocates_only m -> allocates_only handler ->
  allocates_only (try_except m handler).
Proof.
  intros Hm Hh h. unfold try_except. specialize (Hm h).
  destruct (m h) as [[a|e] h1]; simpl in *; [exact Hm|].
  apply (extends_trans Hm). apply Hh.
Qed.

Lemma new_raise (e : exn) : returns_new (raise e).
Proof. intros h r h' H. discriminate H. Qed.

Lemma new_alloc (o : object) : returns_new (alloc o).
Proof.
  intros h r h' H. unfold alloc in H. injection H as <- <-.
  rewrite length_app. simpl. lia.
Qed.

Lemma new_bind {A} (m : M A) (k : A -> M ref) :
  allocates_only m -> (forall a, returns_new (k a)) ->
  returns_new (bind m k).
Proof.
  intros Hm Hk h r h' H. unfold bind in H. specialize (Hm h).
  destruct (m h) as [[a|e] h1]; simpl in *; [|discriminate H].
  apply extends_length in Hm. apply Hk in H. lia.
Qed.

Lemma new_try (m handler : M ref) :
  allocates_only m -> returns_new m -> returns_new handler ->
  returns_new (try_except m handler).
Proof.
  intros Am Hm Hh h r h' H. unfold try_except in H. specialize (Am h).
  destruct (m h) as [[a|e] h1] eqn:Em; simpl in *.
  - injection H as <- <-. apply (Hm _ _ _ Em).
  - apply extends_length in Am. apply Hh in H. lia.
Qed.

Create HintDb frame.
#[local] Hint Resolve allocates_ret allocates_raise allocates_lift
  allocates_load allocates_alloc new_raise new_alloc : frame.
#[local] Hint Resolve asdist_frame Dirac_neg_frame Dirac_invert_frame
  Distribution_mul_frame Distribution_mul_new : frame.

(** One step through the text of a method: a bind, a handler, a branch. *)
Ltac frame_step :=
  lazymatch goal with
  | |- allocates_only (bind _ _) => apply allocates_bind; [|intros ?]
  | |- returns_new (bind _ _) => apply new_bind; [|intros ?]
  | |- allocates_only (try_except _ _) => apply allocates_try
  | |- returns_new (try_except _ _) => apply new_try
  | |- allocates_only (match ?x with _ => _ end) => destruct x
  | |- returns_new (match ?x with _ => _ end) => destruct x
  | |- allocates_only (if ?b then _ else _) => destruct b
  | |- returns_new (if ?b then _ else _) => destruct b
  end.

Ltac frame := repeat (cbv beta; first [solve [eauto with frame] | frame_step]).

Ltac unfold_methods :=
  unfold Normal__sub__, Normal__truediv__, matmul, Normal__radd__,
    Normal__rsub__, Normal__rmul__, Normal__rtruediv__, rmatmul,
    Normal__rmatmul__, _UnivariateNormal__matmul__,
    _MultivariateNormal__matmul__, _MultivariateNormal__rmatmul__,
    _MatrixvariateNormal__matmul__, _OperatorvariateNormal__matmul__.

Ltac unfold_methods_in H :=
  unfold Normal__sub__, Normal__truediv__, matmul, Normal__radd__,
    Normal__rsub__, Normal__rmul__, Normal__rtruediv__, rmatmul,
    Normal__rmatmul__, _UnivariateNormal__matmul__,
    _MultivariateNormal__matmul__, _MultivariateNormal__rmatmul__,
    _MatrixvariateNormal__matmul__, _OperatorvariateNormal__matmul__ in H.

Section Frame.

Variable E : collaborators.
Hypothesis HE : frame_respecting E.

Lemma allocates_operand_class (x : operand) : allocates_only (operand_class x).
Proof. destruct x; unfold operand_class; frame. Qed.
Hint Resolve allocates_operand_class : frame.

Lemma allocates_load_normal (self : ref) : allocates_only (load_normal self).
Proof. unfold load_normal; frame. Qed.
Hint Resolve allocates_load_normal : frame.

Lemma allocates_Normal_call (mean cov : pyval) (rs : random_state) :
  allocates_only (Normal_call mean cov rs).
Proof. unfold Normal_call; frame. Qed.

Lemma new_Normal_call (mean cov : pyval) (rs : random_state) :
  returns_new (Normal_call mean cov rs).
Proof. unfold Normal_call; frame. Qed.

Lemma allocates_Dirac_call (support : pyval) (rs : random_state) :
  allocates_only (Dirac_call support rs).
Proof. unfold Dirac_call; frame. Qed.

Lemma new_Dirac_call (support : pyval) (rs : random_state) :
  returns_new (Dirac_call support rs).
Proof. unfold Dirac_call; frame. Qed.
Hint Resolve allocates_Normal_call new_Normal_call allocates_Dirac_call
  new_Dirac_call : frame.

Lemma allocates_raise_self_other {A} (what : string) (self : ref) (other : operand) :
  allocates_only (@raise_self_other A what self other).
Proof. unfold raise_self_other; frame. Qed.

Lemma allocates_raise_other_self {A} (what : string) (self : ref) (other : operand) :
  allocates_only (@raise_other_self A what self other).
Proof. unfold raise_other_self; frame. Qed.

Lemma new_raise_self_other (what : string) (self : ref) (other : operand) :
  returns_new (raise_self_other what self other).
Proof. unfold raise_self_other; frame. Qed.

Lemma new_raise_other_self (what : string) (self : ref) (other : operand) :
  returns_new (raise_other_self what self other).
Proof. unfold raise_other_self; frame. Qed.
Hint Resolve allocates_raise_self_other allocates_raise_other_self
  new_raise_self_other new_raise_other_self : frame.

Lemma allocates_add (self : ref) (other : operand) :
  allocates_only (Normal__add__ E self other).
Proof. unfold Normal__add__; frame. Qed.

Lemma new_add (self : ref) (other : operand) :
  returns_new (Normal__add__ E self other).
Proof. unfold Normal__add__; frame. Qed.

Lemma allocates_mul (self : ref) (other : operand) :
  allocates_only (Normal__mul__ E self other).
Proof. unfold Normal__mul__; frame. Qed.

Lemma new_mul (self : ref) (other : operand) :
  returns_new (Normal__mul__ E self other).
Proof. unfold Normal__mul__; frame. Qed.
Hint Resolve allocates_add new_add allocates_mul new_mul : frame.

Lemma allocates_unary (op : unop) (self : ref) :
  allocates_only (unary E op self).
Proof.
  destruct op; simpl;
    unfold Normal__neg__, Normal__pos__, Normal__abs__, Normal__invert__; frame.
Qed.

Lemma new_unary (op : unop) (self : ref) : returns_new (unary E op self).
Proof.
  destruct op; simpl;
    unfold Normal__neg__, Normal__pos__, Normal__abs__, Normal__invert__; frame.
Qed.

Lemma allocates_neg (self : ref) : allocates_only (Normal__neg__ E self).
Proof. exact (allocates_unary Neg self). Qed.

Lemma allocates_invert (self : ref) : allocates_only (Normal__invert__ self).
Proof. exact (allocates_unary Invert self). Qed.
Hint Resolve allocates_neg allocates_invert : frame.

Lemma allocates_binary (op : binop) (self : ref) (other : operand) :
  allocates_only (binary E op self other).
Proof. destruct op; simpl; unfold_methods; frame. Qed.

Lemma new_binary (op : binop) (self : ref) (other : operand) :
  returns_new (binary E op self other).
Proof. destruct op; simpl; unfold_methods; frame. Qed.

End Frame.

Lemma frame_respecting_entrywise : frame_respecting entrywise_collaborators.
Proof.
  split; simpl.
  - intros [v|r]; unfold asdist_wrap, Dirac_call; [destruct v|]; frame.
  - intros r. unfold Dirac_negated, Dirac_call. frame.
  - intros r. frame.
  - intros r x. frame.
  - intros r x h a h' H. discriminate H.
Qed.

(** C7.  A Normal is never changed by its operators.  With collaborators
    that leave the objects of the store alone and whose product is a new
    object:
    - each augmented assignment ([+=], [-=], [*=], [@=], [/=], [**=]) raises
      NotImplementedError, whatever the operands, and leaves the store as it
      was;
    - each binary and unary operator that returns, returns a reference that
      did not exist before the call: an object the call has made;
    - whatever an operator does, the object [self] names afterwards is the
      object it named before: the same class, mean and covariance. *)
Theorem C7_never_mutated (E : collaborators) (h : store) (self : ref) (other : operand) :
  frame_respecting E ->
  (forall op, augmented op self other h = (Raise (NotImplementedError None), h))
  /\ (forall op r h',
        binary E op self other h = (Ok r, h') ->
        List.length h <= r < List.length h')
  /\ (forall op r h',
        unary E op self h = (Ok r, h') -> List.length h <= r < List.length h')
  /\ (forall n rs,
        nth_error h self = Some (NormalObj n rs) ->
        (forall op,
           nth_error (snd (binary E op self other h)) self = Some (NormalObj n rs))
        /\ (forall op,
              nth_error (snd (unary E op self h)) self = Some (NormalObj n rs))).
Proof.
  intros HE. repeat apply conj.
  - intros []; reflexivity.
  - intros op r h' H. exact (new_binary E HE op self other h r h' H).
  - intros op r h' H. exact (new_unary E op self h r h' H).
  - intros n rs H. split; intros op.
    + apply (extends_nth (allocates_binary E HE op self other h) H).
    + apply (extends_nth (allocates_unary E op self h) H).
Qed.

(** *** Only point masses are supported *)

Lemma bind_load_inv {A} (d : ref) (k : object -> M A) (h h' : store) (a : A) :
  bind (load d) k h = (Ok a, h') ->
  exists o, nth_error h d = Some o /\ k o h = (Ok a, h').
Proof.
  unfold bind, load. destruct (nth_error h d) as [o|]; [|discriminate].
  intros H. exists o. split; [reflexivity|exact H].
Qed.

Lemma bind_load_normal_inv {A} (self : ref) (k : normal * random_state -> M A)
  (h h' : store) (a : A) :
  bind (load_normal self) k h = (Ok a, h') ->
  exists n rs, nth_error h self = Some (NormalObj n rs) /\ k (n, rs) h = (Ok a, h').
Proof.
  unfold load_normal, bind, load.
  destruct (nth_error h self) as [[n rs|s rs|c f rs]|]; try discriminate.
  intros H. exists n, rs. split; [reflexivity|exact H].
Qed.

Lemma raise_self_other_fails {A} (what : string) (self : ref) (other : operand)
  (h h' : store) (a : A) :
  raise_self_other what self other h <> (Ok a, h').
Proof.
  unfold raise_self_other, operand_class, bind, load, ret, raise.
  destruct (nth_error h self); [|discriminate].
  destruct other as [v|r]; [discriminate|].
  destruct (nth_error h r); discriminate.
Qed.

Lemma raise_other_self_fails {A} (what : string) (self : ref) (other : operand)
  (h h' : store) (a : A) :
  raise_other_self what self other h <> (Ok a, h').
Proof.
  unfold raise_other_self, operand_class, bind, load, ret, raise.
  destruct other as [v|r].
  - destruct (nth_error h self); discriminate.
  - destruct (nth_error h r); [|discriminate].
    destruct (nth_error h self); discriminate.
Qed.

Lemma raise_self_other_eq {A} (what : string) (self : ref) (other : operand)
  (h : store) (n : normal) (rs : random_state) (b : string) :
  nth_error h self = Some (NormalObj n rs) ->
  operand_class other h = (Ok b, h) ->
  @raise_self_other A what self other h
  = (Raise (not_implemented what (pyclass_name (n_class n)) b), h).
Proof.
  intros Hs Ho. unfold raise_self_other.
  assert (Hc : operand_class (Obj self) h = (Ok (pyclass_name (n_class n)), h)).
  { unfold operand_class. rewrite (bind_Ok _ (load_Some Hs)). reflexivity. }
  rewrite (bind_Ok _ Hc), (bind_Ok _ Ho). reflexivity.
Qed.

Lemma raise_other_self_eq {A} (what : string) (self : ref) (other : operand)
  (h : store) (n : normal) (rs : random_state) (b : string) :
  nth_error h self = Some (NormalObj n rs) ->
  operand_class other h = (Ok b, h) ->
  @raise_other_self A what self other h
  = (Raise (not_implemented what b (pyclass_name (n_class n))), h).
Proof.
  intros Hs Ho. unfold raise_other_self.
  assert (Hc : operand_class (Obj self) h = (Ok (pyclass_name (n_class n)), h)).
  { unfold operand_class. rewrite (bind_Ok _ (load_Some Hs)). reflexivity. }
  rewrite (bind_Ok _ Ho), (bind_Ok _ Hc). reflexivity.
Qed.

(** Every binary method opens with the same gate: [asdist(other)], then
    [isinstance(otherdist, Dirac)]. *)
Ltac through_gate H :=
  lazymatch type of H with
  | bind (asdist ?E ?x) _ ?h = (Ok _, _) =>
      let d := fresh "d" in
      let h1 := fresh "h1" in
      let Ha := fresh "Ha" in
      let o := fresh "o" in
      let Hd := fresh "Hd" in
      destruct (asdist E x h) as [[d|?] h1] eqn:Ha;
      [ rewrite (bind_Ok _ Ha) in H
      | rewrite (bind_Raise _ Ha) in H; discriminate H ];
      apply bind_load_inv in H; destruct H as (o & Hd & H);
      destruct o as [? ?|delta rsd|? ? ?];
      [ exfalso; first [ exact (raise_self_other_fails _ _ _ _ _ _ H)
                       | exact (raise_other_self_fails _ _ _ _ _ _ H) ]
      | exists d, h1, delta, rsd; split; [reflexivity|exact Hd]
      | exfalso; first [ exact (raise_self_other_fails _ _ _ _ _ _ H)
                       | exact (raise_other_self_fails _ _ _ _ _ _ H) ] ]
  end.

Ltac pass_gate Ha Hd :=
  rewrite (bind_Ok _ Ha); cbv beta;
  rewrite (bind_Ok _ (load_Some Hd)); cbv beta.

(** C6, amended.  Addition, subtraction, multiplication, division and matrix
    multiplication of a Normal, in either operand order:
    - return only when [asdist(other)] is a point mass (a Dirac);
    - when [asdist(other)] is a distribution that is no Dirac, raise
      NotImplementedError with the message
      ["<Operation> not implemented for <class> and <class>."], which names
      the classes of the two operands in the order they were written;
    - when [asdist(other)] itself raises, because the operand is nothing it
      converts, raise that exception: the call is under no handler.
    (Division first evaluates [other == 0]; the second and third part speak
    of the operands for which this is false, as it is for every distribution
    object.) *)
Theorem C6_point_masses_only
  (E : collaborators) (op : binop) (h : store) (self : ref) (other : operand) :
  (forall r h',
     binary E op self other h = (Ok r, h') ->
     exists d h1 delta rsd,
       asdist E other h = (Ok d, h1)
       /\ nth_error h1 d = Some (DiracObj delta rsd))
  /\ (forall n rs d h1 o b,
        nth_error h self = Some (NormalObj n rs) ->
        n_class n <> Normal ->
        (op = TrueDiv -> operand_eq_zero other = Ok false) ->
        asdist E other h = (Ok d, h1) ->
        extends h h1 ->
        nth_error h1 d = Some o ->
        is_Dirac o = false ->
        operand_class other h1 = (Ok b, h1) ->
        binary E op self other h
        = (Raise (NotImplementedError (Some
             (operation_name op ++ " not implemented for "
                ++ (if reflected op then b else pyclass_name (n_class n))
                ++ " and "
                ++ (if reflected op then pyclass_name (n_class n) else b)
                ++ ".")%string)), h1))
  /\ (forall n rs e h1,
        nth_error h self = Some (NormalObj n rs) ->
        n_class n <> Normal ->
        (op = TrueDiv -> operand_eq_zero other = Ok false) ->
        asdist E other h = (Raise e, h1) ->
        binary E op self other h = (Raise e, h1)).
Proof.
  split; [|split].
  - intros r h' H.
    destruct op; simpl in H;
      unfold Normal__add__, Normal__mul__ in H; unfold_methods_in H.
    + through_gate H.
    + through_gate H.
    + through_gate H.
    + unfold bind at 1, lift in H.
      destruct (operand_eq_zero other) as [[|]|]; try discriminate H.
      through_gate H.
    + apply bind_load_normal_inv in H. destruct H as (n & rs & _ & H).
      destruct (n_class n); try discriminate H; unfold_methods_in H;
        through_gate H.
    + through_gate H.
    + through_gate H.
    + through_gate H.
    + through_gate H.
    + apply bind_load_normal_inv in H. destruct H as (n & rs & _ & H).
      destruct (n_class n); unfold_methods_in H; through_gate H.
  - intros n rs d h1 o b Hs Hc Hz Ha Hext Hd Ho Hb.
    pose proof (extends_nth Hext Hs) as Hs1.
    destruct op; simpl binary; simpl operation_name; simpl reflected; cbv iota;
      unfold Normal__add__, Normal__mul__; unfold_methods.
    + pass_gate Ha Hd. destruct o; try discriminate Ho;
        apply (raise_self_other_eq _ _ _ _ _ _ _ Hs1 Hb).
    + pass_gate Ha Hd. destruct o; try discriminate Ho;
        apply (raise_self_other_eq _ _ _ _ _ _ _ Hs1 Hb).
    + pass_gate Ha Hd. destruct o; try discriminate Ho;
        apply (raise_self_other_eq _ _ _ _ _ _ _ Hs1 Hb).
    + unfold bind at 1, lift. rewrite (Hz eq_refl).
      pass_gate Ha Hd. destruct o; try discriminate Ho;
        apply (raise_self_other_eq _ _ _ _ _ _ _ Hs1 Hb).
    + rewrite (bind_Ok _ (load_normal_Some Hs)). cbv beta iota.
      destruct (n_class n) eqn:Hcls; try congruence; unfold_methods;
        pass_gate Ha Hd; destruct o; try discriminate Ho;
        rewrite <- Hcls;
        apply (raise_self_other_eq _ _ _ _ _ _ _ Hs1 Hb).
    + pass_gate Ha Hd. destruct o; try discriminate Ho;
        apply (raise_other_self_eq _ _ _ _ _ _ _ Hs1 Hb).
    + pass_gate Ha Hd. destruct o; try discriminate Ho;
        apply (raise_other_self_eq _ _ _ _ _ _ _ Hs1 Hb).
    + pass_gate Ha Hd. destruct o; try discriminate Ho;
        apply (raise_other_self_eq _ _ _ _ _ _ _ Hs1 Hb).
    + pass_gate Ha Hd. destruct o; try discriminate Ho;
        apply (raise_other_self_eq _ _ _ _ _ _ _ Hs1 Hb).
    + rewrite (bind_Ok _ (load_normal_Some Hs)). cbv beta iota.
      destruct (n_class n) eqn:Hcls; unfold_methods;
        pass_gate Ha Hd; destruct o; try discriminate Ho;
        rewrite <- Hcls;
        apply (raise_other_self_eq _ _ _ _ _ _ _ Hs1 Hb).
  - intros n rs e h1 Hs Hc Hz Ha.
    destruct op; simpl binary;
      unfold Normal__add__, Normal__mul__; unfold_methods;
      try (rewrite (bind_Raise _ Ha); reflexivity).
    + unfold bind at 1, lift. rewrite (Hz eq_refl).
      rewrite (bind_Raise _ Ha). reflexivity.
    + rewrite (bind_Ok _ (load_normal_Some Hs)). cbv beta iota.
      destruct (n_class n); try congruence; unfold_methods;
        rewrite (bind_Raise _ Ha); reflexivity.
    + rewrite (bind_Ok _ (load_normal_Some Hs)). cbv beta iota.
      destruct (n_class n); unfold_methods;
        rewrite (bind_Raise _ Ha); reflexivity.
Qed.

(** *** Shifting and scaling by a point mass *)

Lemma bind_lift {A B} (r : result A) (k : A -> M B) (h : store) :
  bind (lift r) k h
  = match r with Ok a => k a h | Raise e => (Raise e, h) end.
Proof. unfold bind, lift. destruct r; reflexivity. Qed.

(** [N + d] for a point mass [d] that leaves type and shape of the mean as
    they are. *)
Lemma add_point_mass (E : collaborators) (h : store) (self : ref) (n : normal)
  (rs : random_state) (other : operand) (d : ref) (h1 : store)
  (delta : pyval) (rsd : random_state) (shifted : pyval) :
  nth_error h1 self = Some (NormalObj n rs) ->
  construct Normal (n_mean n) (n_cov n) = Ok n ->
  asdist E other h = (Ok d, h1) ->
  nth_error h1 d = Some (DiracObj delta rsd) ->
  py_add E (n_mean n) delta = Ok shifted ->
  type_of shifted = type_of (n_mean n) ->
  np_shape shifted = np_shape (n_mean n) ->
  exists n',
    Normal__add__ E self other h
    = (Ok (List.length h1), h1 ++ [NormalObj n' rs])
    /\ n_class n' = n_class n
    /\ (n_mean n' = shifted \/ py_float shifted = Ok (n_mean n'))
    /\ n_cov n' = n_cov n
    /\ nth_error (h1 ++ [NormalObj n' rs]) self = Some (NormalObj n rs).
Proof.
  intros Hs Hwf Ha Hd Hadd Ht Hsh.
  destruct (@construct_shifted_mean n shifted Hwf Ht Hsh)
    as (n' & Hn' & Hc & Hm & Hk).
  exists n'. split; [|repeat split; try assumption].
  - unfold Normal__add__. pass_gate Ha Hd.
    rewrite (bind_Ok _ (load_normal_Some Hs)). cbv beta iota.
    rewrite bind_lift, Hadd. apply (Normal_call_Ok rs h1 Hn').
  - apply (extends_nth (extends_app h1 _) Hs).
Qed.

(** C8, amended.  Let [N] be a constructed Normal and [d] a point mass whose
    sum with the mean has the type and shape of the mean.  Then [N + d] returns a
    new object, a Normal of the class of [N] whose mean is [N.mean() + d]
    (through [float()] in the univariate variant) and whose covariance is
    that of [N]; the object [N] is as it was.  [N - d] does the same with
    the support of [-d], the negated point mass, in the place of [d]. *)
Theorem C8_shift_keeps_covariance
  (E : collaborators) (h : store) (self : ref) (n : normal) (rs : random_state) :
  nth_error h self = Some (NormalObj n rs) ->
  construct Normal (n_mean n) (n_cov n) = Ok n ->
  (forall other d h1 delta rsd shifted,
     asdist E other h = (Ok d, h1) ->
     extends h h1 ->
     nth_error h1 d = Some (DiracObj delta rsd) ->
     py_add E (n_mean n) delta = Ok shifted ->
     type_of shifted = type_of (n_mean n) ->
     np_shape shifted = np_shape (n_mean n) ->
     exists n',
       Normal__add__ E self other h
       = (Ok (List.length h1), h1 ++ [NormalObj n' rs])
       /\ n_class n' = n_class n
       /\ (n_mean n' = shifted \/ py_float shifted = Ok (n_mean n'))
       /\ n_cov n' = n_cov n
       /\ nth_error (h1 ++ [NormalObj n' rs]) self = Some (NormalObj n rs))
  /\ (forall other d h1 delta rsd d' h2 negated rsn shifted,
        asdist E other h = (Ok d, h1) ->
        extends h h1 ->
        nth_error h1 d = Some (DiracObj delta rsd) ->
        Dirac__neg__ E d h1 = (Ok d', h2) ->
        extends h1 h2 ->
        nth_error h2 d' = Some (DiracObj negated rsn) ->
        py_neg E delta = Ok negated ->
        asdist E (Obj d') h2 = (Ok d', h2) ->
        py_add E (n_mean n) negated = Ok shifted ->
        type_of shifted = type_of (n_mean n) ->
        np_shape shifted = np_shape (n_mean n) ->
        exists n',
          Normal__sub__ E self other h
          = (Ok (List.length h2), h2 ++ [NormalObj n' rs])
          /\ n_class n' = n_class n
          /\ (n_mean n' = shifted \/ py_float shifted = Ok (n_mean n'))
          /\ n_cov n' = n_cov n
          /\ nth_error (h2 ++ [NormalObj n' rs]) self = Some (NormalObj n rs)).
Proof.
  intros Hs Hwf. split.
  - intros other d h1 delta rsd shifted Ha Hext Hd Hadd Ht Hsh.
    apply (add_point_mass E h self n rs other d h1 delta rsd shifted);
      try assumption.
    apply (extends_nth Hext Hs).
  - intros other d h1 delta rsd d' h2 negated rsn shifted
      Ha Hext Hd Hneg Hext2 Hd' _ Ha' Hadd Ht Hsh.
    pose proof (extends_nth Hext2 (extends_nth Hext Hs)) as Hs2.
    destruct (add_point_mass E h2 self n rs (Obj d') d' h2 negated rsn shifted
                Hs2 Hwf Ha' Hd' Hadd Ht Hsh) as (n' & Hrun & Hrest).
    exists n'. split; [|exact Hrest].
    unfold Normal__sub__. pass_gate Ha Hd.
    rewrite (bind_Ok _ Hneg). exact Hrun.
Qed.


(** *** The operators on concrete operands

    [N = Normal(0.5, 1.)] alone in the store, with the entrywise
    collaborators. *)

(** The example of the docstring of [Normal]: [2 * N - 1] has mean [0.0]
    and covariance [4.0]. *)
Example docstring_example :
  bind (Normal_call (VScalar PyFloat (1 # 2)) (VScalar PyFloat 1) None)
    (fun N => bind (binary entrywise_collaborators RMul N (int_ 2))
    (fun N2 => bind (binary entrywise_collaborators Sub N2 (int_ 1))
    (fun N1 => load N1))) []
  = (Ok (NormalObj (MkNormal _UnivariateNormal
                      (VScalar PyFloat 0) (VScalar PyFloat 4)) None),
     [N_half_one;
      DiracObj (VScalar PyInt 2) None;
      NormalObj (MkNormal _UnivariateNormal
                   (VScalar PyFloat 1) (VScalar PyFloat 4)) None;
      DiracObj (VScalar PyInt 1) None;
      DiracObj (VScalar PyInt (-1)) None;
      NormalObj (MkNormal _UnivariateNormal
                   (VScalar PyFloat 0) (VScalar PyFloat 4)) None]).
Proof. reflexivity. Qed.

(** C8, as the claim states it, fails: [np.array([1., 2.])] converts to a
    point mass, and yet [N + np.array([1., 2.])] returns no Normal.  The sum
    of the mean [0.5] and the array is an array of shape [(2,)], which the
    constructor refuses next to the covariance [1.0]. *)
Lemma C8_shape_changing_shift_rejected :
  asdist entrywise_collaborators (Val (VNdarray [2] [1%Q; 2%Q])) [N_half_one]
  = (Ok 1, [N_half_one; DiracObj (VNdarray [2] [1%Q; 2%Q]) None])
  /\ Normal__add__ entrywise_collaborators 0
       (Val (VNdarray [2] [1%Q; 2%Q])) [N_half_one]
     = (Raise (ValueError
          "Cannot instantiate normal distributions with mean of type ndarray and covariance of type float."),
        [N_half_one; DiracObj (VNdarray [2] [1%Q; 2%Q]) None]).
Proof. split; reflexivity. Qed.

(** C6, as the claim states it, fails: [None] is no point mass, and
    [N + None] raises no NotImplementedError.  [asdist], which refuses what
    is neither a number, an array nor a distribution, raises ValueError, and
    [__add__] lets it through. *)
Lemma C6_unconvertible_operand :
  asdist entrywise_collaborators (Val (VObject "NoneType" [])) [N_half_one]
  = (Raise (ValueError
       "Argument of type NoneType cannot be converted to a distribution."),
     [N_half_one])
  /\ binary entrywise_collaborators Add 0 (Val (VObject "NoneType" []))
       [N_half_one]
     = (Raise (ValueError
          "Argument of type NoneType cannot be converted to a distribution."),
        [N_half_one]).
Proof. split; reflexivity. Qed.


(** [N + 1] returns, and [1] converts to a point mass; [N + N] raises
    NotImplementedError; [N * None] raises what [asdist] raises. *)
Lemma C6_point_masses_only_witness :
  (exists d h1 delta rsd,
     asdist entrywise_collaborators (int_ 1) [N_half_one] = (Ok d, h1)
     /\ nth_error h1 d = Some (DiracObj delta rsd))
  /\ binary entrywise_collaborators Add 0 (Obj 0) [N_half_one]
     = (Raise (NotImplementedError (Some
          "Addition not implemented for _UnivariateNormal and _UnivariateNormal.")),
        [N_half_one])
  /\ binary entrywise_collaborators Mul 0 (Val (VObject "NoneType" []))
       [N_half_one]
     = (Raise (ValueError
          "Argument of type NoneType cannot be converted to a distribution."),
        [N_half_one]).
Proof.
  split; [|split].
  - apply (proj1 (C6_point_masses_only entrywise_collaborators Add
                    [N_half_one] 0 (int_ 1))
             2 [N_half_one; DiracObj (VScalar PyInt 1) None;
                NormalObj (MkNormal _UnivariateNormal
                             (VScalar PyFloat (3 # 2)) (VScalar PyFloat 1)) None]).
    reflexivity.
  - apply (proj1 (proj2 (C6_point_masses_only entrywise_collaborators Add
                           [N_half_one] 0 (Obj 0)))
             (MkNormal _UnivariateNormal
                (VScalar PyFloat (1 # 2)) (VScalar PyFloat 1)) None
             0 [N_half_one] N_half_one "_UnivariateNormal"%string).
    + reflexivity.
    + discriminate.
    + discriminate.
    + reflexivity.
    + apply extends_refl.
    + reflexivity.
    + reflexivity.
    + reflexivity.
  - apply (proj2 (proj2 (C6_point_masses_only entrywise_collaborators Mul
                           [N_half_one] 0 (Val (VObject "NoneType" []))))
             (MkNormal _UnivariateNormal
                (VScalar PyFloat (1 # 2)) (VScalar PyFloat 1)) None).
    + reflexivity.
    + discriminate.
    + discriminate.
    + reflexivity.
Defined.

Lemma C7_never_mutated_witness :
  nth_error (snd (binary entrywise_collaborators Mul 0 (int_ 2) [N_half_one])) 0
  = Some N_half_one
  /\ augmented IMul 0 (int_ 2) [N_half_one]
     = (Raise (NotImplementedError None), [N_half_one]).
Proof.
  destruct (C7_never_mutated entrywise_collaborators [N_half_one] 0 (int_ 2)
              frame_respecting_entrywise) as (Haug & _ & _ & Hself).
  split.
  - apply (proj1 (Hself _ None eq_refl) Mul).
  - apply (Haug IMul).
Defined.

Lemma C8_shift_keeps_covariance_witness :
  (exists n',
     Normal__add__ entrywise_collaborators 0 (int_ 1) [N_half_one]
     = (Ok 2, [N_half_one; DiracObj (VScalar PyInt 1) None]
                ++ [NormalObj n' None])
     /\ n_class n' = _UnivariateNormal
     /\ (n_mean n' = VScalar PyFloat (3 # 2)
         \/ py_float (VScalar PyFloat (3 # 2)) = Ok (n_mean n'))
     /\ n_cov n' = VScalar PyFloat 1
     /\ nth_error ([N_half_one; DiracObj (VScalar PyInt 1) None]
                     ++ [NormalObj n' None]) 0 = Some N_half_one)
  /\ (exists n',
        Normal__sub__ entrywise_collaborators 0 (int_ 1) [N_half_one]
        = (Ok 3, [N_half_one; DiracObj (VScalar PyInt 1) None;
                  DiracObj (VScalar PyInt (-1)) None]
                   ++ [NormalObj n' None])
        /\ n_class n' = _UnivariateNormal
        /\ (n_mean n' = VScalar PyFloat (-1 # 2)
            \/ py_float (VScalar PyFloat (-1 # 2)) = Ok (n_mean n'))
        /\ n_cov n' = VScalar PyFloat 1
        /\ nth_error ([N_half_one; DiracObj (VScalar PyInt 1) None;
                       DiracObj (VScalar PyInt (-1)) None]
                        ++ [NormalObj n' None]) 0 = Some N_half_one).
Proof.
  destruct (C8_shift_keeps_covariance entrywise_collaborators [N_half_one] 0
              (MkNormal _UnivariateNormal
                 (VScalar PyFloat (1 # 2)) (VScalar PyFloat 1)) None
              eq_refl eq_refl) as [Hadd Hsub].
  split.
  - apply (Hadd (int_ 1) 1 [N_half_one; DiracObj (VScalar PyInt 1) None]
             (VScalar PyInt 1) None (VScalar PyFloat (3 # 2)));
      try reflexivity.
    exists [DiracObj (VScalar PyInt 1) None]. reflexivity.
  - apply (Hsub (int_ 1) 1 [N_half_one; DiracObj (VScalar PyInt 1) None]
             (VScalar PyInt 1) None 2
             [N_half_one; DiracObj (VScalar PyInt 1) None;
              DiracObj (VScalar PyInt (-1)) None]
             (VScalar PyInt (-1)) None (VScalar PyFloat (-1 # 2)));
      try reflexivity.
    + exists [DiracObj (VScalar PyInt 1) None]. reflexivity.
    + exists [DiracObj (VScalar PyInt (-1)) None]. reflexivity.
Defined.


End NormalArithFacts.

(** ** Sampling from the identical-factors variant *)

Module NormalSampleFacts.
Import Py NormalNew NormalArith NormalMethods NormalSample NormalNewFacts.

Open Scope list_scope.
Open Scope nat_scope.

Local Unset Implicit Arguments.

(** What the initialiser of the identical-factors variant has checked: the
    mean is square, and the factor [cov.A] has as many rows. *)
Lemma identical_factors_built (mean cov : pyval) (self : normal) (m _n : nat) :
  construct Normal mean cov = Ok self ->
  n_class self = _SymmetricKroneckerIdenticalFactorsNormal ->
  attr_shape mean = Ok [m; _n] ->
  n_mean self = mean /\ n_cov self = cov
  /\ m = _n
  /\ exists A, attr_A cov = Ok A /\ fst (linop_shape A) = _n.
Proof.
  intros H Hc Hm. pose proof (@construct_inv _ _ _ H) as [_ Hinit].
  rewrite Hc in Hinit.
  destruct (@init_keeps _SymmetricKroneckerIdenticalFactorsNormal mean mean cov _
              ltac:(discriminate) (fun s Hs => Hs) Hinit)
    as [Hp _].
  injection Hp as Hmean Hcov.
  simpl in Hinit. unfold _SymmetricKroneckerIdenticalFactorsNormal__init__ in Hinit.
  rewrite Hm in Hinit. simpl in Hinit.
  destruct (m =? _n) eqn:E1; simpl in Hinit; [|discriminate].
  destruct (attr_A cov) as [A|e] eqn:EA; simpl in Hinit; [|discriminate].
  destruct (_n =? fst (linop_shape A)) eqn:E2; simpl in Hinit; [|discriminate].
  apply Nat.eqb_eq in E1, E2.
  repeat split; try assumption. exists A. split; [reflexivity|]. congruence.
Qed.

(** Name the result of every step of a run that has returned. *)
Ltac run_in H :=
  repeat match type of H with
         | rbind ?x _ = Ok _ =>
             let E := fresh "E" in
             destruct x eqn:E; cbn [rbind] in H; [|discriminate H]
         end.

(** Replay the steps whose results are known. *)
Ltac replay :=
  cbn [rbind];
  repeat (match goal with
          | H : ?x = Ok _ |- context [rbind ?x _] => rewrite H
          end; cbn [rbind]).

(** C2. Let [self] be built by [Normal(mean, cov)] as the variant with a
    symmetric Kronecker covariance of identical factors, the mean of shape
    [(m, _n)].  Then [m = _n], the mean is [_n]-by-[_n] and [cov.A] has
    [_n] rows; and [self.sample(size)] returns [r] exactly when, for the draw
    [z] of [_n * _n] standard-normal entries per sample, the lower Cholesky
    factor [Lfac] of the dense [cov.A] plus [10 ** -12] times the identity and
    the dense mean, [r] is the mean plus the reshaped
    [Symmetrize(Kronecker(Lfac, Lfac) z)].  A draw that raises, and a
    factorisation that raises, make [sample] raise the same exception. *)
Theorem C2_identical_factors_sample
  (E : collaborators) (L : library) (R : sampling)
  (mean cov : pyval) (self : normal) (m _n : nat)
  (rs : random_state) (size : sample_size) :
  construct Normal mean cov = Ok self ->
  n_class self = _SymmetricKroneckerIdenticalFactorsNormal ->
  attr_shape mean = Ok [m; _n] ->
  (m = _n
   /\ np_shape (n_mean self) = [_n; _n]
   /\ exists A, attr_A (n_cov self) = Ok A /\ fst (linop_shape A) = _n)
  /\ (forall r,
        _SymmetricKroneckerIdenticalFactorsNormal_sample E L R self _n rs size
        = Ok r
        <-> exists z Lfac dense,
              norm_rvs R (_n * _n :: size_list size) rs = Ok z
              /\ damped_cholesky_factor E L R (n_cov self) _n = Ok Lfac
              /\ dense_mean L (n_mean self) = Ok dense
              /\ sample_from_draw E R dense _n Lfac z = Ok r)
  /\ (forall e,
        norm_rvs R (_n * _n :: size_list size) rs = Raise e ->
        _SymmetricKroneckerIdenticalFactorsNormal_sample E L R self _n rs size
        = Raise e)
  /\ (forall z e,
        norm_rvs R (_n * _n :: size_list size) rs = Ok z ->
        damped_cholesky_factor E L R (n_cov self) _n = Raise e ->
        _SymmetricKroneckerIdenticalFactorsNormal_sample E L R self _n rs size
        = Raise e).
Proof.
  intros H Hc Hm.
  destruct (identical_factors_built mean cov self m _n H Hc Hm)
    as (Hmean & Hcov & Hsq & A & HA & HAn).
  split; [|split; [|split]].
  - split; [exact Hsq|]. split.
    + rewrite Hmean.
      assert (Hs : np_shape mean = [m; _n]).
      { unfold attr_shape in Hm.
        destruct mean; try discriminate Hm; congruence. }
      rewrite Hs, Hsq. reflexivity.
    + exists A. rewrite Hcov. auto.
  - intros r.
    unfold _SymmetricKroneckerIdenticalFactorsNormal_sample,
      damped_cholesky_factor, dense_mean, sample_from_draw,
      Normal_cov, Normal_mean.
    cbv zeta. split.
    + intros Hrun. run_in Hrun.
      match goal with
      | Hz : norm_rvs R _ rs = Ok ?z, HL : cholesky_lower R _ = Ok ?Lfac,
        Hd : match n_mean self with _ => _ end = Ok ?d |- _ =>
          exists z, Lfac, d
      end.
      repeat split; replay;
        first [reflexivity | assumption | destruct (n_mean self); assumption].
    + intros (z & Lfac & dense & Hz & HL & Hd & Hr).
      assert (Hd' : match n_mean self with
                    | VLinOp op => todense L op
                    | m => Ok m
                    end = Ok dense)
        by (destruct (n_mean self); exact Hd).
      rewrite Hz. run_in HL. run_in Hr. replay. assumption.
  - intros e Hz. unfold _SymmetricKroneckerIdenticalFactorsNormal_sample.
    cbv zeta. rewrite Hz. reflexivity.
  - intros z e Hz HL.
    unfold _SymmetricKroneckerIdenticalFactorsNormal_sample, Normal_cov.
    cbv zeta. rewrite Hz. cbn [rbind].
    unfold damped_cholesky_factor in HL.
    repeat match type of HL with
           | rbind ?x _ = Raise _ =>
               let E := fresh "E" in
               cbn [rbind];
               destruct x eqn:E; cbn [rbind] in HL;
               [|injection HL as <-; reflexivity]
           end.
    cbn [rbind]. rewrite HL. reflexivity.
Qed.

(** Three samples of the 2-by-2 variant with factor [V], every call
    recorded: the draw has shape [(4, 3)], and the result spells the recipe. *)
Lemma C2_identical_factors_sample_witness :
  construct Normal mean_2x2 cov_VV = Ok N_VV
  /\ np_shape (n_mean N_VV) = [2; 2]
  /\ _SymmetricKroneckerIdenticalFactorsNormal_sample
       recording_collaborators recording_library recording_sampling
       N_VV 2 None (SizeTuple [3])
     = Ok (VObject
             ("(newaxis(array) + reshape(T((Symmetrize(2) @ (Kronecker("
              ++ "cholesky((todense(V) + ((10 ** -12) * eye(2)))), "
              ++ "cholesky((todense(V) + ((10 ** -12) * eye(2))))) @ "
              ++ "rvs(4, 3)))), -1, 2, 2))") []).
Proof.
  pose proof (C2_identical_factors_sample
                recording_collaborators recording_library recording_sampling
                mean_2x2 cov_VV N_VV 2 2 None (SizeTuple [3])
                eq_refl eq_refl eq_refl) as (Hshape & Hrun & _).
  split; [reflexivity|]. split; [apply Hshape|].
  apply Hrun.
  exists (VObject "rvs(4, 3)" [4; 3]),
    (VObject "cholesky((todense(V) + ((10 ** -12) * eye(2))))" []),
    mean_2x2.
  repeat split.
Defined.

End NormalSampleFacts.

(** ** The list of random variables *)

Module RandomVariableListFacts.
Import Py RandomVariableList.

Open Scope list_scope.
Open Scope nat_scope.

Local Unset Implicit Arguments.

Lemma comprehension_Forall2 {A B} (f : A -> result B) (l : list A) (xs : list B) :
  Forall2 (fun a x => f a = Ok x) l xs -> comprehension f l = Ok xs.
Proof.
  induction 1 as [|a x l xs Ha _ IH]; simpl; [reflexivity|].
  rewrite Ha. simpl. rewrite IH. reflexivity.
Qed.

Lemma Forall2_comprehension {A B} (f : A -> result B) (l : list A) (xs : list B) :
  comprehension f l = Ok xs -> Forall2 (fun a x => f a = Ok x) l xs.
Proof.
  revert xs. induction l as [|a l IH]; simpl; intros xs H.
  - injection H as <-. constructor.
  - destruct (f a) as [x|e] eqn:Ha; simpl in H; [|discriminate].
    destruct (comprehension f l) as [ys|e]; simpl in H; [|discriminate].
    injection H as <-. constructor; [exact Ha|]. apply IH. reflexivity.
Qed.

Lemma shape_eqb_refl (s : list nat) : shape_eqb s s = true.
Proof. induction s as [|a s IH]; simpl; [|rewrite Nat.eqb_refl]; auto. Qed.

Lemma shape_eqb_true (s t : list nat) : shape_eqb s t = true -> s = t.
Proof.
  revert t. induction s as [|a s IH]; intros [|b t]; simpl; try discriminate.
  - reflexivity.
  - intros H. apply andb_prop in H. destruct H as [Hab Hst].
    apply Nat.eqb_eq in Hab. rewrite (IH t Hst). congruence.
Qed.

Lemma np_stack_same_shape (arrays : list ndarray) (s : list nat) :
  arrays <> [] ->
  Forall (fun a => shape a = s) arrays ->
  np_stack arrays
  = Ok (MkArray (List.length arrays :: s) (List.concat (map data arrays))).
Proof.
  destruct arrays as [|a rest]; [congruence|]. intros _ H.
  inversion H as [|? ? Ha Hrest]; subst. unfold np_stack.
  replace (forallb (fun b => shape_eqb (shape b) (shape a)) rest) with true.
  - reflexivity.
  - symmetry. apply forallb_forall. intros b Hb.
    rewrite Forall_forall in Hrest. rewrite (Hrest b Hb).
    apply shape_eqb_refl.
Qed.

(** Arrays of two shapes are not stacked. *)
Lemma np_stack_two_shapes (a : ndarray) (rest : list ndarray) :
  Exists (fun b => shape b <> shape a) rest ->
  np_stack (a :: rest)
  = Raise (ValueError "all input arrays must have the same shape").
Proof.
  intros H. unfold np_stack.
  destruct (forallb (fun b => shape_eqb (shape b) (shape a)) rest) eqn:E;
    [|reflexivity].
  exfalso. apply Exists_exists in H. destruct H as (b & Hb & Hne).
  apply Hne. apply shape_eqb_true.
  exact (proj1 (forallb_forall _ rest) E b Hb).
Qed.

(** The arrays lie in the stack in the order of the list. *)
Lemma block_of_concat (arrays : list ndarray) (k i : nat) (a : ndarray) :
  Forall (fun b => List.length (data b) = k) arrays ->
  nth_error arrays i = Some a ->
  firstn k (skipn (i * k) (List.concat (map data arrays))) = data a.
Proof.
  revert i. induction arrays as [|b rest IH]; intros i H Hi.
  - destruct i; discriminate Hi.
  - inversion H as [|? ? Hb Hrest]; subst. destruct i as [|i]; simpl in *.
    + injection Hi as ->. rewrite firstn_app, Nat.sub_diag, firstn_all.
      simpl. apply app_nil_r.
    + rewrite skipn_app.
      replace (skipn (List.length (data b) + i * List.length (data b)) (data b))
        with (@nil Q) by (symmetry; apply skipn_all2; lia).
      replace (List.length (data b) + i * List.length (data b)
               - List.length (data b)) with (i * List.length (data b)) by lia.
      simpl. apply IH; assumption.
Qed.

Lemma stacked_in_order (f : RandomVariable -> result ndarray)
  (self : _RandomVariableList) (arrays : list ndarray) (s : list nat) :
  Forall2 (fun rv a => f rv = Ok a) self arrays ->
  self <> [] ->
  Forall (fun a => shape a = s /\ well_formed a) arrays ->
  exists out,
    stacked_statistic f self = Ok out
    /\ shape out = List.length self :: s
    /\ (forall i a, nth_error arrays i = Some a -> block out i = data a).
Proof.
  intros Hf Hne Hs.
  assert (Hlen : List.length self = List.length arrays)
    by (apply (Forall2_length Hf)).
  assert (Hne' : arrays <> [])
    by (destruct arrays; [destruct self; [congruence|discriminate]|discriminate]).
  unfold stacked_statistic. rewrite (comprehension_Forall2 _ _ _ Hf). simpl.
  rewrite (np_stack_same_shape arrays s Hne').
  2: { eapply Forall_impl; [|exact Hs]. simpl. tauto. }
  eexists. split; [reflexivity|]. simpl. split; [congruence|].
  intros i a Hi. unfold block. simpl.
  apply block_of_concat; [|exact Hi].
  eapply Forall_impl; [|exact Hs]. intros b [Hb Hw].
  unfold well_formed in Hw. congruence.
Qed.

Lemma getitem_position (self : _RandomVariableList) (i : nat) (rv : RandomVariable) :
  nth_error self i = Some rv ->
  __getitem__ self (Position (Z.of_nat i)) = Ok (Element rv)
  /\ __getitem__ self (Position (Z.of_nat i - Z.of_nat (List.length self)))
     = Ok (Element rv).
Proof.
  intros H.
  assert (Hi : i < List.length self) by (apply nth_error_Some; congruence).
  assert (E1 : (Z.of_nat i <? 0)%Z = false) by (apply Z.ltb_ge; lia).
  assert (E2 : (Z.of_nat i >=? Z.of_nat (List.length self))%Z = false)
    by (rewrite Z.geb_leb; apply Z.leb_gt; lia).
  assert (E3 : (Z.of_nat i - Z.of_nat (List.length self) <? 0)%Z = true)
    by (apply Z.ltb_lt; lia).
  assert (E4 : (Z.of_nat i - Z.of_nat (List.length self)
                + Z.of_nat (List.length self))%Z = Z.of_nat i) by lia.
  unfold __getitem__, list__getitem__. cbv zeta. split.
  - rewrite E1. cbv iota. rewrite E1, E2. simpl.
    rewrite Nat2Z.id, H. reflexivity.
  - rewrite E3. cbv iota. rewrite E4, E1, E2. simpl.
    rewrite Nat2Z.id, H. reflexivity.
Qed.

Lemma getitem_slice (self : _RandomVariableList) (start stop step : option Z) :
  step <> Some 0%Z ->
  exists l,
    list__getitem__ self (Slice start stop step) = Ok (inr l)
    /\ __getitem__ self (Slice start stop step) = Ok (Wrapped l).
Proof.
  intros Hstep. unfold __getitem__, list__getitem__.
  destruct ((match step with Some s => s | None => 1%Z end) =? 0)%Z eqn:E.
  - exfalso. apply Z.eqb_eq in E. destruct step as [s|]; [|discriminate E].
    apply Hstep. congruence.
  - eexists. split; reflexivity.
Qed.

(** C10, as the claim states it, fails for two lists of random variables:
    the empty list, whose accessors have nothing to stack, and a list whose
    means are a 2-vector and a number, which are not stacked either.  In both
    cases [mean] raises ValueError and returns no array. *)
Lemma C10_nothing_to_stack :
  mean [] = Raise (ValueError "need at least one array to stack")
  /\ mean [rv_of (MkArray [2] [1%Q; 2%Q]); rv_of (MkArray [] [3%Q])]
     = Raise (ValueError "all input arrays must have the same shape").
Proof. split; reflexivity. Qed.

(** C10, amended.  For a [_RandomVariableList]:
    - a slice of a step other than 0 gives a [_RandomVariableList] again: the
      list the slice selects, wrapped; a slice of step 0 raises ValueError,
      as for every list;
    - a position inside the list, counted from the front or from the back,
      gives the element at that position itself;
    - [mean], [cov], [var] and [std] stack what [rv.mean()], [rv.cov()],
      [rv.distribution.var()] and [rv.distribution.std()] return for the
      elements: for a list that is not empty and statistics of one shape [s]
      the result has shape [(len(self),) + s] and its [i]-th entry is the
      statistic of the [i]-th element;
    - for the empty list, and for a list with a statistic of another shape
      than the first, the four accessors raise ValueError. *)
Theorem C10_list_of_random_variables (self : _RandomVariableList) :
  (forall start stop step,
     step <> Some 0%Z ->
     exists l,
       list__getitem__ self (Slice start stop step) = Ok (inr l)
       /\ __getitem__ self (Slice start stop step) = Ok (Wrapped l))
  /\ (forall i rv,
        nth_error self i = Some rv ->
        __getitem__ self (Position (Z.of_nat i)) = Ok (Element rv)
        /\ __getitem__ self (Position (Z.of_nat i - Z.of_nat (List.length self)))
           = Ok (Element rv))
  /\ (forall accessor f,
        In (accessor, f)
           [(mean, rv_mean); (cov, rv_cov);
            (var, rv_distribution_var); (std, rv_distribution_std)] ->
        forall arrays s,
          Forall2 (fun rv a => f rv = Ok a) self arrays ->
          self <> [] ->
          Forall (fun a => shape a = s /\ well_formed a) arrays ->
          exists out,
            accessor self = Ok out
            /\ shape out = List.length self :: s
            /\ (forall i a, nth_error arrays i = Some a -> block out i = data a))
  /\ (forall start stop,
        __getitem__ self (Slice start stop (Some 0%Z))
        = Raise (ValueError "slice step cannot be zero"))
  /\ (forall accessor f,
        In (accessor, f)
           [(mean, rv_mean); (cov, rv_cov);
            (var, rv_distribution_var); (std, rv_distribution_std)] ->
        accessor [] = Raise (ValueError "need at least one array to stack")
        /\ (forall a rest,
              Forall2 (fun rv a => f rv = Ok a) self (a :: rest) ->
              Exists (fun b => shape b <> shape a) rest ->
              accessor self
              = Raise (ValueError "all input arrays must have the same shape"))).
Proof.
  assert (Hacc : forall accessor f,
            In (accessor, f)
               [(mean, rv_mean); (cov, rv_cov);
                (var, rv_distribution_var); (std, rv_distribution_std)] ->
            forall l, accessor l = stacked_statistic f l).
  { intros accessor f Hin l. simpl in Hin.
    destruct Hin as [H|[H|[H|[H|[]]]]]; injection H as <- <-; reflexivity. }
  split; [|split; [|split; [|split]]].
  - apply getitem_slice.
  - apply getitem_position.
  - intros accessor f Hin arrays s Hf Hne Hs.
    rewrite (Hacc accessor f Hin).
    apply (stacked_in_order f self arrays s Hf Hne Hs).
  - intros start stop. reflexivity.
  - intros accessor f Hin. rewrite !(Hacc accessor f Hin). split.
    + reflexivity.
    + intros a rest Hf Hex. unfold stacked_statistic.
      rewrite (comprehension_Forall2 _ _ _ Hf). simpl.
      apply (np_stack_two_shapes a rest Hex).
Qed.

Lemma C10_list_of_random_variables_witness :
  (exists l, list__getitem__ two_rvs (Slice (Some 1%Z) None None) = Ok (inr l)
             /\ __getitem__ two_rvs (Slice (Some 1%Z) None None) = Ok (Wrapped l))
  /\ __getitem__ two_rvs (Position (-1)) = Ok (Element (rv_of (MkArray [2] [3%Q; 4%Q])))
  /\ (exists out,
        mean two_rvs = Ok out
        /\ shape out = [2; 2]
        /\ (forall i a,
              nth_error [MkArray [2] [1%Q; 2%Q]; MkArray [2] [3%Q; 4%Q]] i = Some a ->
              block out i = data a)).
Proof.
  destruct (C10_list_of_random_variables two_rvs) as (Hslice & Hpos & Hstat & _).
  split; [|split].
  - apply Hslice. discriminate.
  - apply (proj2 (Hpos 1 _ eq_refl)).
  - apply (Hstat mean rv_mean (or_introl eq_refl)
             [MkArray [2] [1%Q; 2%Q]; MkArray [2] [3%Q; 4%Q]] [2]).
    + repeat constructor.
    + discriminate.
    + repeat constructor.
Defined.

End RandomVariableListFacts.

(** ** The posterior of the solver and its direct computation *)

Module PosteriorFacts.
Import mathcomp.boot.boot mathcomp.algebra.algebra.
Import GRing.Theory.
Import Posterior.
Local Open Scope ring_scope.

Section ClosedForm.

Variable F : fieldType.
Variables n k : nat.

(** What the test solves for is the transpose of [U], for a symmetric
    factor [W]. *)
Lemma solve_gives_U_transposed (W : 'M[F]_n) (S : 'M[F]_(n, k)) :
  W^T = W ->
  invmx (S^T *m (W *m S)) *m (W *m S)^T = (U W S)^T.
Proof.
move=> symW.
by rewrite /U !trmx_mul trmx_inv !trmx_mul trmxK symW !mulmxA.
Qed.

Lemma posterior_mean_closed_form (A0 W : 'M[F]_n) (S Y : 'M[F]_(n, k)) :
  W^T = W -> S^T *m (W *m S) \in unitmx ->
  posterior_mean A0 W S Y = Some (A_post A0 W S Y).
Proof.
move=> symW unitG.
rewrite /posterior_mean /np_linalg_solve unitG /= /A_post /Delta.
by rewrite solve_gives_U_transposed // trmxK.
Qed.

Lemma posterior_cov_closed_form (W : 'M[F]_n) (S : 'M[F]_(n, k)) :
  W^T = W -> S^T *m (W *m S) \in unitmx ->
  posterior_cov_kronfac W S = Some (cov_fac_post W S).
Proof.
move=> symW unitG.
rewrite /posterior_cov_kronfac /np_linalg_solve unitG /= /cov_fac_post.
by rewrite solve_gives_U_transposed.
Qed.

(** Without observations that determine it the direct computation fails:
    [np.linalg.solve] has no solution for a singular [S^T W S]. *)
Lemma posterior_mean_singular (A0 W : 'M[F]_n) (S Y : 'M[F]_(n, k)) :
  S^T *m (W *m S) \notin unitmx -> posterior_mean A0 W S Y = None.
Proof.
by move=> /negbTE singG; rewrite /posterior_mean /np_linalg_solve singG.
Qed.

End ClosedForm.


(** *** The worked example, computed *)

Lemma gram_ones : S_ones^T *m S_ones = 2%:M.
Proof.
apply/matrixP=> i j; rewrite !mxE !ord1 /=.
by rewrite big_ord_recl big_ord1 !mxE mulr1 mulr1n.
Qed.

Lemma outer_ones : S_ones *m S_ones^T = J_ones.
Proof. by apply/matrixP=> i j; rewrite !mxE big_ord1 !mxE mulr1. Qed.

Lemma J_ones_squared : J_ones *m J_ones = 2 *: J_ones.
Proof.
apply/matrixP=> i j; rewrite !mxE.
by rewrite big_ord_recl big_ord1 !mxE !mulr1.
Qed.

Lemma gram_ones_unit : S_ones^T *m (1%:M *m S_ones) \in unitmx.
Proof. by rewrite mul1mx gram_ones unitmxE det_scalar1 unitfE. Qed.

Lemma gram_twos_unit : Y_twos^T *m (1%:M *m Y_twos) \in unitmx.
Proof.
have -> : Y_twos^T *m (1%:M *m Y_twos) = (2 * 2 + 2 * 2)%:M.
  rewrite mul1mx; apply/matrixP=> i j; rewrite !mxE !ord1 /=.
  by rewrite big_ord_recl big_ord1 !mxE mulr1n.
by rewrite unitmxE det_scalar1 unitfE.
Qed.

(** A 1-by-1 matrix is symmetric. *)
Lemma trmx_one_by_one (M : 'M[rat]_1) : M^T = M.
Proof. by apply/matrixP=> i j; rewrite mxE !ord1. Qed.

(** The residual of the example is the direction itself. *)
Lemma residual_ones : Y_twos - 1%:M *m S_ones = S_ones.
Proof.
rewrite mul1mx; apply/matrixP=> i j; rewrite !mxE.
by rewrite -[2]/(1 + 1) addrK.
Qed.

Lemma solve_ones :
  invmx (S_ones^T *m (1%:M *m S_ones)) *m (1%:M *m S_ones)^T
  = 2^-1 *: S_ones^T.
Proof. by rewrite mul1mx gram_ones invmx_scalar mul_scalar_mx. Qed.

(** The direct computation on the example: the mean [I + J / 2], which is
    not the prior mean, and the factor [I - J / 2], which is not zero. *)
Lemma posterior_mean_example :
  posterior_mean 1%:M 1%:M S_ones Y_twos = Some (1%:M + 2^-1 *: J_ones).
Proof.
rewrite /posterior_mean /np_linalg_solve gram_ones_unit /=.
congr Some.
rewrite residual_ones solve_ones.
have -> : (2^-1 *: S_ones^T)^T = 2^-1 *: S_ones by rewrite linearZ /= trmxK.
rewrite -!scalemxAl -!scalemxAr outer_ones -mulmxA outer_ones J_ones_squared.
by rewrite [2^-1 *: (2 *: _)]scalerA mulVf // scale1r addrK.
Qed.

Lemma posterior_cov_example :
  posterior_cov_kronfac 1%:M S_ones = Some (1%:M - 2^-1 *: J_ones).
Proof.
rewrite /posterior_cov_kronfac /np_linalg_solve gram_ones_unit /=.
congr Some.
by rewrite solve_ones mul1mx -scalemxAr outer_ones.
Qed.

Lemma ones_are_not_twos : 1%:M *m S_ones != Y_twos.
Proof.
rewrite mul1mx; apply/eqP=> /matrixP /(_ ord0 ord0).
by rewrite !mxE.
Qed.


End PosteriorFacts.

(** * Further properties *)

(** ** Construction: invariants, round trip, escaping exceptions *)

Module ConstructionLaws.
Import Py NormalNew NormalNewFacts.

Open Scope list_scope.
Open Scope nat_scope.

Local Unset Implicit Arguments.

Lemma py_float_is_float (v w : pyval) :
  py_float v = Ok w -> exists x, w = VScalar PyFloat x.
Proof.
  destruct v as [ty x|s [|x [|y d]]|cls s d|op|cls s]; simpl;
    intros H; try discriminate H; injection H as <-; eauto.
Qed.

Lemma pyclass_eq_dec (c c' : pyclass) : {c = c'} + {c <> c'}.
Proof. decide equality. Qed.

(** The class the factory picked tells which case of the factory applied. *)
Lemma new_class_cases (mean cov : pyval) (c : pyclass) :
  Normal__new__ Normal mean cov = Ok c ->
  (c = _UnivariateNormal /\ univariate_input mean cov)
  \/ (~ univariate_input mean cov
      /\ is_array mean = true /\ is_array cov = true
      /\ (c = _MultivariateNormal \/ c = _MatrixvariateNormal))
  \/ (~ univariate_input mean cov
      /\ is_array mean && is_array cov = false
      /\ is_LinearOperator mean || is_LinearOperator cov = true
      /\ (c = _OperatorvariateNormal
          \/ c = _SymmetricKroneckerIdenticalFactorsNormal)).
Proof.
  destruct (univariate_input_dec mean cov) as [U|U].
  - rewrite (new_univariate U). intros H. injection H as <-. auto.
  - destruct (is_array mean && is_array cov) eqn:Ea.
    + apply andb_true_iff in Ea. destruct Ea as [Em Ec].
      rewrite (new_dense U Em Ec). intros H. injection H as <-.
      right. left. repeat split; try assumption.
      destruct (List.length (np_shape mean) =? 1); auto.
    + destruct (is_LinearOperator mean || is_LinearOperator cov) eqn:El.
      * rewrite (new_operator U Ea El). intros H. injection H as <-.
        right. right. repeat split; try assumption.
        destruct (is_SymmetricKronecker_ABequal cov); auto.
      * rewrite (new_other U Ea El). discriminate.
Qed.

(** X1.  What holds of every Normal the factory has built:
    - its class is one of the five variants, never [Normal] itself;
    - it is univariate exactly when the inputs were two scalars or two values
      of one-element shape;
    - a univariate Normal holds two Python floats, [float(mean)] and
      [float(cov)], whatever numbers or one-entry arrays were given;
    - every other variant holds [mean] and [cov] as they were given. *)
Theorem factory_built_invariants (mean cov : pyval) (n : normal) :
  construct Normal mean cov = Ok n ->
  n_class n <> Normal
  /\ (n_class n = _UnivariateNormal <-> univariate_input mean cov)
  /\ (n_class n = _UnivariateNormal ->
      exists x y,
        n_mean n = VScalar PyFloat x /\ n_cov n = VScalar PyFloat y
        /\ py_float mean = Ok (n_mean n) /\ py_float cov = Ok (n_cov n))
  /\ (n_class n <> _UnivariateNormal -> n_mean n = mean /\ n_cov n = cov).
Proof.
  intros H. pose proof (@construct_inv _ _ _ H) as [Hnew Hinit].
  pose proof (new_class_cases _ _ _ Hnew) as Hcases.
  split; [|split; [|split]].
  - destruct Hcases as [[Hc _]|[(_ & _ & _ & [Hc|Hc])|(_ & _ & _ & [Hc|Hc])]];
      rewrite Hc; discriminate.
  - split.
    + intros Hc.
      destruct Hcases as [[_ U]|[(_ & _ & _ & [Hc'|Hc'])|(_ & _ & _ & [Hc'|Hc'])]];
        [exact U| | | |]; rewrite Hc in Hc'; discriminate Hc'.
    + intros U. rewrite (new_univariate U) in Hnew. injection Hnew as <-.
      reflexivity.
  - intros Hc. rewrite Hc in Hinit. simpl in Hinit.
    unfold _UnivariateNormal__init__, Normal__init__ in Hinit.
    destruct (py_float mean) as [fm|] eqn:Fm; simpl in Hinit; [|discriminate].
    destruct (py_float cov) as [fc|] eqn:Fc; simpl in Hinit; [|discriminate].
    injection Hinit as <- <-.
    destruct (py_float_is_float _ _ Fm) as [x ->].
    destruct (py_float_is_float _ _ Fc) as [y ->].
    exists x, y. auto.
  - intros Hc. destruct (@init_keeps (n_class n) mean mean cov _ Hc
                           (fun s Hs => Hs) Hinit) as [Hp _].
    injection Hp as -> ->. auto.
Qed.

Lemma factory_built_invariants_witness :
  _UnivariateNormal <> Normal
  /\ (_UnivariateNormal = _UnivariateNormal
      <-> univariate_input (VNdarray [1; 1] [(1 # 2)%Q]) (VScalar PyInt 2))
  /\ (_UnivariateNormal = _UnivariateNormal ->
      exists x y,
        VScalar PyFloat (1 # 2) = VScalar PyFloat x
        /\ VScalar PyFloat 2 = VScalar PyFloat y
        /\ py_float (VNdarray [1; 1] [(1 # 2)%Q]) = Ok (VScalar PyFloat (1 # 2))
        /\ py_float (VScalar PyInt 2) = Ok (VScalar PyFloat 2))
  /\ (_UnivariateNormal <> _UnivariateNormal ->
      VScalar PyFloat (1 # 2) = VNdarray [1; 1] [(1 # 2)%Q]
      /\ VScalar PyFloat 2 = VScalar PyInt 2).
Proof.
  apply (factory_built_invariants (VNdarray [1; 1] [(1 # 2)%Q]) (VScalar PyInt 2)
           (MkNormal _UnivariateNormal (VScalar PyFloat (1 # 2)) (VScalar PyFloat 2))).
  reflexivity.
Defined.

(** X2.  Round trip: the parameters a built Normal holds are accepted by the
    factory again, and build the same variant with the same parameters. *)
Theorem rebuilt_from_parameters (mean cov : pyval) (n : normal) :
  construct Normal mean cov = Ok n ->
  construct Normal (n_mean n) (n_cov n) = Ok n.
Proof.
  intros H. pose proof (@construct_inv _ _ _ H) as [_ Hinit].
  destruct n as [c m k]. simpl in *.
  destruct (pyclass_eq_dec c _UnivariateNormal) as [->|Hc].
  - simpl in Hinit. unfold _UnivariateNormal__init__, Normal__init__ in Hinit.
    destruct (py_float mean) as [fm|] eqn:Fm; simpl in Hinit; [|discriminate].
    destruct (py_float cov) as [fc|] eqn:Fc; simpl in Hinit; [|discriminate].
    injection Hinit as <- <-.
    destruct (py_float_is_float _ _ Fm) as [x ->].
    destruct (py_float_is_float _ _ Fc) as [y ->]. reflexivity.
  - destruct (@init_keeps c mean mean cov _ Hc (fun s Hs => Hs) Hinit) as [Hp _].
    injection Hp as -> ->. exact H.
Qed.

Lemma rebuilt_from_parameters_witness :
  construct Normal (VScalar PyFloat (1 # 2)) (VScalar PyFloat 2)
  = Ok (MkNormal _UnivariateNormal (VScalar PyFloat (1 # 2)) (VScalar PyFloat 2)).
Proof.
  apply (rebuilt_from_parameters (VNdarray [1; 1] [(1 # 2)%Q]) (VScalar PyInt 2)
           (MkNormal _UnivariateNormal (VScalar PyFloat (1 # 2)) (VScalar PyFloat 2))).
  reflexivity.
Defined.

(** *** The general case of the operator-variate initialiser *)

(** X3.  The general case of the operator-variate initialiser.  When mean or
    cov is a linear operator, cov has a 2-D shape [(r, c)] and no Kronecker
    structure, the pair is not taken for a univariate one, and the mean has
    fewer than [2 ^ 63] entries, so that the 64-bit product [np.prod] computes
    is their number: the factory builds an operator-variate Normal that keeps
    both parameters exactly when [r] and [c] are the number of entries of
    the mean, and raises ValueError "Shape mismatch of mean and covariance."
    otherwise. *)
Theorem operator_shape_validation
  (mean cov : pyval) (s : list nat) (r c : nat) :
  ~ univariate_input mean cov ->
  is_LinearOperator mean = true \/ is_LinearOperator cov = true ->
  kronecker_structured cov = false ->
  attr_shape mean = Ok s ->
  (Z.of_nat (np_prod s) < 2 ^ 63)%Z ->
  attr_shape cov = Ok [r; c] ->
  construct Normal mean cov
  = if (np_prod s =? r) && (np_prod s =? c)
    then Ok (MkNormal _OperatorvariateNormal mean cov)
    else Raise (ValueError "Shape mismatch of mean and covariance.").
Proof.
  intros U Hl Hk Hm _ Hc.
  assert (Ha : is_array mean && is_array cov = false).
  { destruct Hl as [Hl|Hl]; [destruct mean | destruct cov]; try discriminate Hl.
    - reflexivity.
    - apply andb_false_r. }
  assert (Hl' : is_LinearOperator mean || is_LinearOperator cov = true)
    by (apply orb_true_iff; exact Hl).
  assert (Hab : is_SymmetricKronecker_ABequal cov = false).
  { destruct cov as [| | |[| |]|]; simpl in *; try reflexivity; discriminate Hk. }
  unfold construct. rewrite (new_operator U Ha Hl'), Hab. simpl rbind.
  simpl init. unfold _OperatorvariateNormal__init__, Normal__init__.
  rewrite Hm. simpl rbind.
  destruct cov as [| | |[| |]|]; simpl in Hk; try discriminate Hk;
    rewrite Hc; simpl;
    destruct (np_prod s =? r); simpl; try reflexivity;
    destruct (np_prod s =? c); reflexivity.
Qed.

Lemma operator_shape_validation_witness :
  construct Normal (VNdarray [2; 2] [0%Q; 0%Q; 0%Q; 0%Q])
    (VLinOp (LinearOperator "Identity" (4, 4)))
  = Ok (MkNormal _OperatorvariateNormal (VNdarray [2; 2] [0%Q; 0%Q; 0%Q; 0%Q])
          (VLinOp (LinearOperator "Identity" (4, 4))))
  /\ construct Normal (VNdarray [2; 2] [0%Q; 0%Q; 0%Q; 0%Q])
       (VLinOp (LinearOperator "Identity" (2, 2)))
     = Raise (ValueError "Shape mismatch of mean and covariance.").
Proof.
  split.
  - apply (operator_shape_validation (VNdarray [2; 2] [0%Q; 0%Q; 0%Q; 0%Q])
             (VLinOp (LinearOperator "Identity" (4, 4))) [2; 2] 4 4);
      try reflexivity; [|right; reflexivity].
    intros [[H _]|[H _]]; [discriminate H|].
    destruct H as [H|[H|H]]; discriminate H.
  - apply (operator_shape_validation (VNdarray [2; 2] [0%Q; 0%Q; 0%Q; 0%Q])
             (VLinOp (LinearOperator "Identity" (2, 2))) [2; 2] 2 2);
      try reflexivity; [|right; reflexivity].
    intros [[H _]|[H _]]; [discriminate H|].
    destruct H as [H|[H|H]]; discriminate H.
Defined.

(** *** A number next to an operator *)

(** X4.  A number next to a linear operator, in either role, is never
    refused with the ValueError of the factory: the operator-variate
    initialiser asks the number for its attribute [shape] and AttributeError
    escapes; when the operator is 1-by-1 the pair counts as univariate and
    [float()] of the operator raises TypeError. *)
Theorem number_with_operator (ty : scalar_type) (x : Q) (op : linop) :
  (linop_shape op <> (1, 1) ->
   (exists msg,
      construct Normal (VScalar ty x) (VLinOp op) = Raise (AttributeError msg))
   /\ (exists msg,
         construct Normal (VLinOp op) (VScalar ty x) = Raise (AttributeError msg)))
  /\ (linop_shape op = (1, 1) ->
      (exists msg,
         construct Normal (VScalar ty x) (VLinOp op) = Raise (TypeError msg))
      /\ (exists msg,
            construct Normal (VLinOp op) (VScalar ty x) = Raise (TypeError msg))).
Proof.
  split.
  - intros Hs.
    assert (U1 : ~ univariate_input (VScalar ty x) (VLinOp op)).
    { intros [[_ H]|[_ H]]; [discriminate H|]. simpl in H. apply Hs.
      destruct (linop_shape op) as [r c]. simpl in H.
      destruct H as [H|[H|H]]; try discriminate H. injection H as -> ->.
      reflexivity. }
    assert (U2 : ~ univariate_input (VLinOp op) (VScalar ty x)).
    { intros [[H _]|[H _]]; [discriminate H|]. simpl in H. apply Hs.
      destruct (linop_shape op) as [r c]. simpl in H.
      destruct H as [H|[H|H]]; try discriminate H. injection H as -> ->.
      reflexivity. }
    split.
    + unfold construct. rewrite (new_operator U1 eq_refl eq_refl).
      destruct (is_SymmetricKronecker_ABequal (VLinOp op)); simpl;
        eexists; reflexivity.
    + unfold construct. rewrite (new_operator U2 eq_refl eq_refl). simpl.
      eexists. reflexivity.
  - intros Hs.
    assert (Sh : one_element_shape (np_shape (VLinOp op))).
    { simpl. rewrite Hs. left. reflexivity. }
    assert (U1 : univariate_input (VScalar ty x) (VLinOp op)).
    { right. split; [right; right; reflexivity|exact Sh]. }
    assert (U2 : univariate_input (VLinOp op) (VScalar ty x)).
    { right. split; [exact Sh|right; right; reflexivity]. }
    split.
    + rewrite (construct_univariate U1). simpl. eexists. reflexivity.
    + rewrite (construct_univariate U2). simpl. eexists. reflexivity.
Qed.

End ConstructionLaws.

(** ** Arithmetic: tests, sign changes, what is kept *)

Module ArithmeticLaws.
Import Py NormalNew NormalArith NormalNewFacts NormalArithFacts.

Open Scope list_scope.
Open Scope nat_scope.

Local Unset Implicit Arguments.

(** *** Division tests for zero first *)

(** X5.  [N / other] evaluates [other == 0] before anything else, whatever
    the store and the collaborators: a number equal to zero raises
    ZeroDivisionError, and a dense array of more than one entry, which has
    no truth value, raises ValueError; the store is as it was and [asdist]
    is not called. *)
Theorem division_tests_zero_first (E : collaborators) (self : ref) (h : store) :
  (forall ty x,
     (x == 0)%Q ->
     Normal__truediv__ E self (Val (VScalar ty x)) h
     = (Raise (ZeroDivisionError "Division by zero not supported."), h))
  /\ (forall s x y d,
        Normal__truediv__ E self (Val (VNdarray s (x :: y :: d))) h
        = (Raise (ValueError
             "The truth value of an array with more than one element is ambiguous. Use a.any() or a.all()"),
           h)).
Proof.
  split.
  - intros ty x Hx. unfold Normal__truediv__. rewrite bind_lift. simpl.
    apply Qeq_bool_iff in Hx. rewrite Hx. reflexivity.
  - intros s x y d. reflexivity.
Qed.

(** *** Reflected sum and product *)

(** X6.  When [asdist] hands a point mass back as it is, the reflected sum
    and product are the sum and product: [other + N] runs as [N + other] and
    [other * N] as [N * other], to the same result and store. *)
Theorem reflected_sum_and_product
  (E : collaborators) (h : store) (self : ref) (other : operand)
  (d : ref) (h1 : store) (delta : pyval) (rsd : random_state) :
  asdist E other h = (Ok d, h1) ->
  nth_error h1 d = Some (DiracObj delta rsd) ->
  asdist E (Obj d) h1 = (Ok d, h1) ->
  Normal__radd__ E self other h = Normal__add__ E self other h
  /\ Normal__rmul__ E self other h = Normal__mul__ E self other h.
Proof.
  intros Ha Hd Ha'. split.
  - unfold Normal__radd__. pass_gate Ha Hd.
    unfold Normal__add__. pass_gate Ha' Hd. pass_gate Ha Hd. reflexivity.
  - unfold Normal__rmul__. pass_gate Ha Hd.
    unfold Normal__mul__. pass_gate Ha' Hd. pass_gate Ha Hd. reflexivity.
Qed.

Lemma reflected_sum_and_product_witness :
  Normal__radd__ entrywise_collaborators 0 (int_ 1) [N_half_one]
  = Normal__add__ entrywise_collaborators 0 (int_ 1) [N_half_one]
  /\ Normal__rmul__ entrywise_collaborators 0 (int_ 1) [N_half_one]
     = Normal__mul__ entrywise_collaborators 0 (int_ 1) [N_half_one].
Proof.
  apply (reflected_sum_and_product entrywise_collaborators [N_half_one] 0 (int_ 1)
           1 [N_half_one; DiracObj (VScalar PyInt 1) None] (VScalar PyInt 1) None);
    reflexivity.
Defined.

(** *** Sign changes *)

Lemma Normal_call_run (mean cov : pyval) (rs : random_state) (h : store) :
  Normal_call mean cov rs h
  = match construct Normal mean cov with
    | Ok n' => (Ok (List.length h), h ++ [NormalObj n' rs])
    | Raise e => (Raise e, h)
    end.
Proof.
  unfold Normal_call. rewrite bind_lift.
  destruct (construct Normal mean cov); reflexivity.
Qed.

(** The body of [__neg__] and [__pos__], for [u] the operation on the mean. *)
Lemma sign_change_body (u : pyval -> result pyval) (h : store) (self : ref)
  (n : normal) (rs : random_state) :
  nth_error h self = Some (NormalObj n rs) ->
  bind (load_normal self)
    (fun x => match x with
              | (n, rs) => bind (lift (u (n_mean n)))
                             (fun mean => Normal_call mean (n_cov n) rs)
              end) h
  = match rbind (u (n_mean n)) (fun mean => construct Normal mean (n_cov n)) with
    | Ok n' => (Ok (List.length h), h ++ [NormalObj n' rs])
    | Raise e => (Raise e, h)
    end.
Proof.
  intros Hs. rewrite (bind_Ok _ (load_normal_Some Hs)). cbv beta iota.
  rewrite bind_lift. destruct (u (n_mean n)) as [mean|e]; simpl; [|reflexivity].
  apply Normal_call_run.
Qed.

Lemma class_of_self (h : store) (self : ref) (n : normal) (rs : random_state) :
  nth_error h self = Some (NormalObj n rs) ->
  operand_class (Obj self) h = (Ok (pyclass_name (n_class n)), h).
Proof.
  intros Hs. unfold operand_class. rewrite (bind_Ok _ (load_Some Hs)). reflexivity.
Qed.

(** X7.  [-N] and [+N] raise nothing but NotImplementedError: whatever the
    negation of the mean or the constructor raises is replaced, the store is
    as it was, and the message is ["Negation not implemented for <class>."]
    for [-N] and for [+N] alike. *)
Theorem sign_change_raises_not_implemented
  (E : collaborators) (h : store) (self : ref) (n : normal) (rs : random_state) :
  nth_error h self = Some (NormalObj n rs) ->
  (forall e h',
     Normal__neg__ E self h = (Raise e, h') ->
     e = NotImplementedError
           (Some ("Negation not implemented for "
                    ++ pyclass_name (n_class n) ++ ".")%string)
     /\ h' = h)
  /\ (forall e h',
        Normal__pos__ E self h = (Raise e, h') ->
        e = NotImplementedError
              (Some ("Negation not implemented for "
                       ++ pyclass_name (n_class n) ++ ".")%string)
        /\ h' = h).
Proof.
  intros Hs. split; intros e h'.
  - unfold Normal__neg__, try_except.
    rewrite (sign_change_body (py_neg E) h self n rs Hs).
    destruct (rbind (py_neg E (n_mean n)) _) as [n'|e0]; [discriminate|].
    rewrite (bind_Ok _ (class_of_self h self n rs Hs)). unfold raise.
    intros H. injection H as <- <-. auto.
  - unfold Normal__pos__, try_except.
    rewrite (sign_change_body (py_pos E) h self n rs Hs).
    destruct (rbind (py_pos E (n_mean n)) _) as [n'|e0]; [discriminate|].
    rewrite (bind_Ok _ (class_of_self h self n rs Hs)). unfold raise.
    intros H. injection H as <- <-. auto.
Qed.

(** An operator-variate Normal, whose mean the entrywise collaborators do
    not negate. *)
Lemma sign_change_raises_not_implemented_witness :
  Normal__pos__ entrywise_collaborators 0
    [NormalObj (MkNormal _OperatorvariateNormal
                  (VLinOp (LinearOperator "Identity" (2, 2)))
                  (VLinOp (LinearOperator "Identity" (4, 4)))) None]
  = (Raise (NotImplementedError
              (Some "Negation not implemented for _OperatorvariateNormal.")),
     [NormalObj (MkNormal _OperatorvariateNormal
                   (VLinOp (LinearOperator "Identity" (2, 2)))
                   (VLinOp (LinearOperator "Identity" (4, 4)))) None]).
Proof.
  destruct (sign_change_raises_not_implemented entrywise_collaborators
              [NormalObj (MkNormal _OperatorvariateNormal
                            (VLinOp (LinearOperator "Identity" (2, 2)))
                            (VLinOp (LinearOperator "Identity" (4, 4)))) None]
              0 _ None eq_refl) as [_ Hpos].
  destruct (Normal__pos__ entrywise_collaborators 0 _) as [[r|e] h'] eqn:Hrun.
  - discriminate Hrun.
  - destruct (Hpos e h' eq_refl) as [-> ->]. reflexivity.
Defined.

(** *** What shifts and sign changes keep *)

Lemma Normal_call_inv (mean cov : pyval) (rs : random_state) (h h' : store) (r : ref) :
  Normal_call mean cov rs h = (Ok r, h') ->
  exists n',
    construct Normal mean cov = Ok n'
    /\ nth_error h' r = Some (NormalObj n' rs).
Proof.
  rewrite Normal_call_run. destruct (construct Normal mean cov) as [n'|e];
    [|discriminate].
  intros H. injection H as <- <-. exists n'. split; [reflexivity|].
  rewrite nth_error_app2, Nat.sub_diag by lia. reflexivity.
Qed.

Lemma stored_covariance (mean cov : pyval) (n' : normal) :
  construct Normal mean cov = Ok n' ->
  n_cov n' = cov \/ py_float cov = Ok (n_cov n').
Proof.
  intros H. destruct (@construct_stores _ _ _ H) as [[_ Hc]|[_ Hc]]; auto.
Qed.

Lemma py_float_twice (v w u : pyval) :
  py_float v = Ok w -> py_float w = Ok u -> u = w.
Proof.
  destruct v as [ty x|s [|x [|y d]]|cls s d|op|cls s]; simpl;
    intros H; try discriminate H; injection H as <-; simpl;
    intros H; injection H as <-; reflexivity.
Qed.

Lemma kept_twice (c c1 c2 : pyval) :
  c1 = c \/ py_float c = Ok c1 ->
  c2 = c1 \/ py_float c1 = Ok c2 ->
  c2 = c \/ py_float c = Ok c2.
Proof.
  intros [->|H1] [->|H2]; auto.
  right. rewrite (py_float_twice _ _ _ H1 H2). exact H1.
Qed.

Section Kept.

Variable E : collaborators.
Hypothesis HE : frame_respecting E.

Lemma asdist_extends (other : operand) (h h1 : store) (d : ref) :
  asdist E other h = (Ok d, h1) -> extends h h1.
Proof.
  intros H. pose proof (asdist_frame HE other h) as Hx.
  rewrite H in Hx. exact Hx.
Qed.

Lemma add_keeps (h : store) (self : ref) (other : operand)
  (n : normal) (rs : random_state) (r : ref) (h' : store) :
  nth_error h self = Some (NormalObj n rs) ->
  Normal__add__ E self other h = (Ok r, h') ->
  exists n',
    nth_error h' r = Some (NormalObj n' rs)
    /\ (n_cov n' = n_cov n \/ py_float (n_cov n) = Ok (n_cov n')).
Proof.
  intros Hs H. unfold Normal__add__ in H.
  destruct (asdist E other h) as [[d|e] h1] eqn:Ha;
    [rewrite (bind_Ok _ Ha) in H | rewrite (bind_Raise _ Ha) in H; discriminate H].
  pose proof (extends_nth (asdist_extends _ _ _ _ Ha) Hs) as Hs1.
  apply bind_load_inv in H. destruct H as (o & Hd & H).
  destruct o as [? ?|delta rsd|? ? ?];
    try (exfalso; exact (raise_self_other_fails _ _ _ _ _ _ H)).
  rewrite (bind_Ok _ (load_normal_Some Hs1)) in H. cbv beta iota in H.
  rewrite bind_lift in H.
  destruct (py_add E (n_mean n) delta) as [mean|e]; [|discriminate H].
  apply Normal_call_inv in H. destruct H as (n' & Hn' & Hr).
  exists n'. split; [exact Hr|]. apply (stored_covariance _ _ _ Hn').
Qed.

Lemma sign_change_keeps (u : pyval -> result pyval) (h : store) (self : ref)
  (n : normal) (rs : random_state) (handler : M ref) (r : ref) (h' : store) :
  nth_error h self = Some (NormalObj n rs) ->
  (forall h0 r0 h0', handler h0 <> (Ok r0, h0')) ->
  try_except
    (bind (load_normal self)
       (fun x => match x with
                 | (n, rs) => bind (lift (u (n_mean n)))
                                (fun mean => Normal_call mean (n_cov n) rs)
                 end)) handler h = (Ok r, h') ->
  exists n',
    nth_error h' r = Some (NormalObj n' rs)
    /\ (n_cov n' = n_cov n \/ py_float (n_cov n) = Ok (n_cov n'))
    /\ extends h h'.
Proof.
  intros Hs Hh. unfold try_except. rewrite (sign_change_body u h self n rs Hs).
  destruct (u (n_mean n)) as [mean|e]; cbn [rbind].
  - destruct (construct Normal mean (n_cov n)) as [n'|e] eqn:Hn'.
    + intros H. injection H as <- <-. exists n'. split; [|split].
      * rewrite nth_error_app2, Nat.sub_diag by lia. reflexivity.
      * apply (stored_covariance _ _ _ Hn').
      * apply extends_app.
    + intros H. exfalso. exact (Hh _ _ _ H).
  - intros H. exfalso. exact (Hh _ _ _ H).
Qed.

Lemma sign_handler_fails (what : string) (self : ref) (h0 : store) (r0 : ref)
  (h0' : store) :
  bind (operand_class (Obj self))
    (fun a => raise (NotImplementedError (Some (what ++ a ++ ".")%string))) h0
  <> (Ok r0, h0').
Proof.
  unfold operand_class, bind, load, ret, raise.
  destruct (nth_error h0 self); discriminate.
Qed.

Lemma neg_keeps (h : store) (self : ref) (n : normal) (rs : random_state)
  (r : ref) (h' : store) :
  nth_error h self = Some (NormalObj n rs) ->
  Normal__neg__ E self h = (Ok r, h') ->
  exists n',
    nth_error h' r = Some (NormalObj n' rs)
    /\ (n_cov n' = n_cov n \/ py_float (n_cov n) = Ok (n_cov n'))
    /\ extends h h'.
Proof.
  intros Hs. apply (sign_change_keeps (py_neg E) h self n rs _ r h' Hs).
  intros h0 r0 h0'. apply sign_handler_fails.
Qed.

Lemma pos_keeps (h : store) (self : ref) (n : normal) (rs : random_state)
  (r : ref) (h' : store) :
  nth_error h self = Some (NormalObj n rs) ->
  Normal__pos__ E self h = (Ok r, h') ->
  exists n',
    nth_error h' r = Some (NormalObj n' rs)
    /\ (n_cov n' = n_cov n \/ py_float (n_cov n) = Ok (n_cov n'))
    /\ extends h h'.
Proof.
  intros Hs. apply (sign_change_keeps (py_pos E) h self n rs _ r h' Hs).
  intros h0 r0 h0'. apply sign_handler_fails.
Qed.

End Kept.

(** X8.  With collaborators that leave the objects of the store alone, every
    result of [N + d], [N - d], [d + N], [d - N], [-N] and [+N] is a Normal
    that carries the random state of [N] and the covariance of [N], as it is
    or through [float()]. *)
Theorem covariance_and_random_state_kept
  (E : collaborators) (h : store) (self : ref) (other : operand)
  (n : normal) (rs : random_state) :
  frame_respecting E ->
  nth_error h self = Some (NormalObj n rs) ->
  (forall op r h',
     In op [Add; Sub; RAdd; RSub] ->
     binary E op self other h = (Ok r, h') ->
     exists n',
       nth_error h' r = Some (NormalObj n' rs)
       /\ (n_cov n' = n_cov n \/ py_float (n_cov n) = Ok (n_cov n')))
  /\ (forall op r h',
        In op [Neg; Pos] ->
        unary E op self h = (Ok r, h') ->
        exists n',
          nth_error h' r = Some (NormalObj n' rs)
          /\ (n_cov n' = n_cov n \/ py_float (n_cov n) = Ok (n_cov n'))).
Proof.
  intros HE Hs. split.
  - intros op r h' Hop H. simpl in Hop.
    destruct Hop as [<-|[<-|[<-|[<-|[]]]]]; simpl in H.
    + exact (add_keeps E HE h self other n rs r h' Hs H).
    + unfold Normal__sub__ in H.
      destruct (asdist E other h) as [[d|e] h1] eqn:Ha;
        [rewrite (bind_Ok _ Ha) in H
        | rewrite (bind_Raise _ Ha) in H; discriminate H].
      pose proof (extends_nth (asdist_extends E HE _ _ _ _ Ha) Hs) as Hs1.
      apply bind_load_inv in H. destruct H as (o & Hd & H).
      destruct o as [? ?|delta rsd|? ? ?];
        try (exfalso; exact (raise_self_other_fails _ _ _ _ _ _ H)).
      destruct (Dirac__neg__ E d h1) as [[d'|e] h2] eqn:Hn;
        [rewrite (bind_Ok _ Hn) in H
        | rewrite (bind_Raise _ Hn) in H; discriminate H].
      assert (Hext : extends h1 h2).
      { pose proof (Dirac_neg_frame HE d h1) as Hx. rewrite Hn in Hx. exact Hx. }
      exact (add_keeps E HE h2 self (Obj d') n rs r h' (extends_nth Hext Hs1) H).
    + unfold Normal__radd__ in H.
      destruct (asdist E other h) as [[d|e] h1] eqn:Ha;
        [rewrite (bind_Ok _ Ha) in H
        | rewrite (bind_Raise _ Ha) in H; discriminate H].
      pose proof (extends_nth (asdist_extends E HE _ _ _ _ Ha) Hs) as Hs1.
      apply bind_load_inv in H. destruct H as (o & Hd & H).
      destruct o as [? ?|delta rsd|? ? ?];
        try (exfalso; exact (raise_other_self_fails _ _ _ _ _ _ H)).
      exact (add_keeps E HE h1 self (Obj d) n rs r h' Hs1 H).
    + unfold Normal__rsub__ in H.
      destruct (asdist E other h) as [[d|e] h1] eqn:Ha;
        [rewrite (bind_Ok _ Ha) in H
        | rewrite (bind_Raise _ Ha) in H; discriminate H].
      pose proof (extends_nth (asdist_extends E HE _ _ _ _ Ha) Hs) as Hs1.
      apply bind_load_inv in H. destruct H as (o & Hd & H).
      destruct o as [? ?|delta rsd|? ? ?];
        try (exfalso; exact (raise_other_self_fails _ _ _ _ _ _ H)).
      destruct (Normal__neg__ E self h1) as [[r1|e] h2] eqn:Hn;
        [rewrite (bind_Ok _ Hn) in H
        | rewrite (bind_Raise _ Hn) in H; discriminate H].
      destruct (neg_keeps E h1 self n rs r1 h2 Hs1 Hn) as (nneg & Hr1 & Hc1 & _).
      destruct (add_keeps E HE h2 r1 (Obj d) nneg rs r h' Hr1 H)
        as (n' & Hr & Hc).
      exists n'. split; [exact Hr|]. exact (kept_twice _ _ _ Hc1 Hc).
  - intros op r h' Hop H. simpl in Hop.
    destruct Hop as [<-|[<-|[]]]; simpl in H.
    + destruct (neg_keeps E h self n rs r h' Hs H) as (n' & Hr & Hc & _). eauto.
    + destruct (pos_keeps E h self n rs r h' Hs H) as (n' & Hr & Hc & _). eauto.
Qed.

Lemma covariance_and_random_state_kept_witness :
  exists n',
    nth_error [N_half_one;
               DiracObj (VScalar PyInt 1) None;
               NormalObj (MkNormal _UnivariateNormal
                            (VScalar PyFloat (-1 # 2)) (VScalar PyFloat 1)) None;
               NormalObj (MkNormal _UnivariateNormal
                            (VScalar PyFloat (1 # 2)) (VScalar PyFloat 1)) None] 3
    = Some (NormalObj n' None)
    /\ (n_cov n' = VScalar PyFloat 1
        \/ py_float (VScalar PyFloat 1) = Ok (n_cov n')).
Proof.
  destruct (covariance_and_random_state_kept entrywise_collaborators
              [N_half_one] 0 (int_ 1) _ None
              frame_respecting_entrywise eq_refl) as [Hbin _].
  apply (Hbin RSub 3).
  - simpl. auto.
  - reflexivity.
Defined.

(** *** What is not implemented *)

Lemma exponentiation_raises (h : store) (self : ref) (power : operand)
  (n : normal) (rs : random_state) (b : string) :
  nth_error h self = Some (NormalObj n rs) ->
  operand_class power h = (Ok b, h) ->
  Normal__pow__ self power h
  = (Raise (NotImplementedError (Some
       ("Exponentiation not implemented for " ++ pyclass_name (n_class n)
          ++ " and " ++ b ++ ".")%string)), h)
  /\ Normal__rpow__ self power h
     = (Raise (NotImplementedError (Some
          ("Exponentiation not implemented for " ++ b ++ " and "
             ++ pyclass_name (n_class n) ++ ".")%string)), h).
Proof.
  intros Hs Hb. split.
  - exact (raise_self_other_eq "Exponentiation" self power h n rs b Hs Hb).
  - exact (raise_other_self_eq "Exponentiation" self power h n rs b Hs Hb).
Qed.

Lemma matrixvariate_matmul (E : collaborators) (h : store) (self : ref)
  (other : operand) (n : normal) (rs : random_state) :
  nth_error h self = Some (NormalObj n rs) ->
  n_class n = _MatrixvariateNormal ->
  (forall r h', binary E MatMul self other h <> (Ok r, h'))
  /\ (forall d h1 delta rsd,
        asdist E other h = (Ok d, h1) ->
        nth_error h1 d = Some (DiracObj delta rsd) ->
        binary E MatMul self other h = (Raise (NotImplementedError None), h1)).
Proof.
  intros Hs Hc.
  assert (Hrun : binary E MatMul self other h
                 = _MatrixvariateNormal__matmul__ E self other h).
  { simpl. unfold matmul. rewrite (bind_Ok _ (load_normal_Some Hs)).
    cbv beta iota. rewrite Hc. reflexivity. }
  rewrite Hrun. unfold _MatrixvariateNormal__matmul__. split.
  - intros r h' H.
    destruct (asdist E other h) as [[d|e] h1] eqn:Ha;
      [rewrite (bind_Ok _ Ha) in H
      | rewrite (bind_Raise _ Ha) in H; discriminate H].
    apply bind_load_inv in H. destruct H as (o & Hd & H).
    destruct o as [? ?|delta rsd|? ? ?]; try discriminate H;
      exact (raise_self_other_fails _ _ _ _ _ _ H).
  - intros d h1 delta rsd Ha Hd. pass_gate Ha Hd. reflexivity.
Qed.

(** X9.  What never returns a result.  [N ** p] and [p ** N] raise for
    every operand, a point mass included; for a Normal [N] and an operand of
    class [b] the error is NotImplementedError and its message names the two
    classes in the order of the operands.  [N @ other] never returns when [N]
    is matrix-variate: when [other] converts to a point mass it raises
    NotImplementedError without a message, after the conversion. *)
Theorem operations_that_never_return
  (E : collaborators) (h : store) (self : ref) (other : operand)
  (n : normal) (rs : random_state) :
  nth_error h self = Some (NormalObj n rs) ->
  (forall r h',
     Normal__pow__ self other h <> (Ok r, h')
     /\ Normal__rpow__ self other h <> (Ok r, h'))
  /\ (forall b,
        operand_class other h = (Ok b, h) ->
        Normal__pow__ self other h
        = (Raise (NotImplementedError (Some
             ("Exponentiation not implemented for " ++ pyclass_name (n_class n)
                ++ " and " ++ b ++ ".")%string)), h)
        /\ Normal__rpow__ self other h
           = (Raise (NotImplementedError (Some
                ("Exponentiation not implemented for " ++ b ++ " and "
                   ++ pyclass_name (n_class n) ++ ".")%string)), h))
  /\ (n_class n = _MatrixvariateNormal ->
      (forall r h', binary E MatMul self other h <> (Ok r, h'))
      /\ (forall d h1 delta rsd,
            asdist E other h = (Ok d, h1) ->
            nth_error h1 d = Some (DiracObj delta rsd) ->
            binary E MatMul self other h
            = (Raise (NotImplementedError None), h1))).
Proof.
  intros Hs. split; [|split].
  - intros r h'. split.
    + apply raise_self_other_fails.
    + apply raise_other_self_fails.
  - intros b Hb. exact (exponentiation_raises h self other n rs b Hs Hb).
  - intros Hc. exact (matrixvariate_matmul E h self other n rs Hs Hc).
Qed.

(** A matrix-variate Normal with a 1-by-2 mean, and the operand [2]. *)
Lemma operations_that_never_return_witness :
  Normal__pow__ 0 (int_ 2)
    [NormalObj (MkNormal _MatrixvariateNormal
                  (VNdarray [1; 2] [0%Q; 0%Q])
                  (VNdarray [2; 2] [1%Q; 0%Q; 0%Q; 1%Q])) None]
  = (Raise (NotImplementedError (Some
       "Exponentiation not implemented for _MatrixvariateNormal and int.")),
     [NormalObj (MkNormal _MatrixvariateNormal
                   (VNdarray [1; 2] [0%Q; 0%Q])
                   (VNdarray [2; 2] [1%Q; 0%Q; 0%Q; 1%Q])) None])
  /\ binary entrywise_collaborators MatMul 0 (int_ 2)
       [NormalObj (MkNormal _MatrixvariateNormal
                     (VNdarray [1; 2] [0%Q; 0%Q])
                     (VNdarray [2; 2] [1%Q; 0%Q; 0%Q; 1%Q])) None]
     = (Raise (NotImplementedError None),
        [NormalObj (MkNormal _MatrixvariateNormal
                      (VNdarray [1; 2] [0%Q; 0%Q])
                      (VNdarray [2; 2] [1%Q; 0%Q; 0%Q; 1%Q])) None;
         DiracObj (VScalar PyInt 2) None]).
Proof.
  destruct (operations_that_never_return entrywise_collaborators
              [NormalObj (MkNormal _MatrixvariateNormal
                            (VNdarray [1; 2] [0%Q; 0%Q])
                            (VNdarray [2; 2] [1%Q; 0%Q; 0%Q; 1%Q])) None]
              0 (int_ 2) _ None eq_refl) as (_ & Hpow & Hmatmul).
  split.
  - apply (proj1 (Hpow "int"%string eq_refl)).
  - apply (proj2 (Hmatmul eq_refl) 1 _ (VScalar PyInt 2) None); reflexivity.
Defined.

End ArithmeticLaws.

(** ** Moments, densities and reshaping *)

Module NormalMethodsLaws.
Import Py NormalNew NormalMethods NormalNewFacts.

Open Scope list_scope.
Open Scope nat_scope.

Local Unset Implicit Arguments.

Lemma py_float_of_operator (op : linop) (w : pyval) :
  py_float (VLinOp op) <> Ok w.
Proof. discriminate. Qed.

(** A Normal built from a linear operator is of an operator-variate class. *)
Lemma operator_class (mean cov : pyval) (n : normal) :
  construct Normal mean cov = Ok n ->
  is_LinearOperator mean = true \/ is_LinearOperator cov = true ->
  n_class n = _OperatorvariateNormal
  \/ n_class n = _SymmetricKroneckerIdenticalFactorsNormal.
Proof.
  intros H Hl. pose proof (@construct_inv _ _ _ H) as [Hnew Hinit].
  destruct (univariate_input_dec mean cov) as [U|U].
  - exfalso. rewrite (construct_univariate U) in H.
    destruct Hl as [Hl|Hl]; [destruct mean | destruct cov]; try discriminate Hl.
    + discriminate H.
    + destruct (py_float mean); discriminate H.
  - assert (Ha : is_array mean && is_array cov = false).
    { destruct Hl as [Hl|Hl]; [destruct mean | destruct cov]; try discriminate Hl.
      - reflexivity.
      - apply andb_false_r. }
    assert (Hl' : is_LinearOperator mean || is_LinearOperator cov = true)
      by (apply orb_true_iff; exact Hl).
    rewrite (new_operator U Ha Hl') in Hnew. injection Hnew as <-.
    destruct (is_SymmetricKronecker_ABequal cov); auto.
Qed.

Lemma built_class (mean cov : pyval) (n : normal) :
  construct Normal mean cov = Ok n -> n_class n <> Normal.
Proof.
  intros H. pose proof (@construct_inv _ _ _ H) as [Hnew _].
  unfold Normal__new__ in Hnew.
  repeat match type of Hnew with
         | (if ?b then _ else _) = _ => destruct b
         end;
    try discriminate Hnew; injection Hnew as <-; discriminate.
Qed.

(** X11.  What a Normal built by the factory does not support:
    - [reshape] raises NotImplementedError, for every variant;
    - [pdf], [logpdf], [cdf] and [logcdf] raise NotImplementedError when mean
      or cov is a linear operator;
    - [logpdf], [cdf] and [logcdf] raise NotImplementedError for the
      matrix-variate variant. *)
Theorem unsupported_methods (L : library) (mean cov : pyval) (n : normal) :
  construct Normal mean cov = Ok n ->
  (forall shape, reshape L n shape = Raise (NotImplementedError None))
  /\ (is_LinearOperator mean = true \/ is_LinearOperator cov = true ->
      forall x,
        pdf L n x = Raise (NotImplementedError None)
        /\ logpdf L n x = Raise (NotImplementedError None)
        /\ cdf L n x = Raise (NotImplementedError None)
        /\ logcdf L n x = Raise (NotImplementedError None))
  /\ (n_class n = _MatrixvariateNormal ->
      forall x,
        logpdf L n x = Raise (NotImplementedError None)
        /\ cdf L n x = Raise (NotImplementedError None)
        /\ logcdf L n x = Raise (NotImplementedError None)).
Proof.
  intros H. split; [|split].
  - intros shape. pose proof (built_class _ _ _ H) as Hc.
    unfold reshape. destruct (n_class n); try reflexivity. congruence.
  - intros Hl x. unfold pdf, logpdf, cdf, logcdf.
    destruct (operator_class _ _ _ H Hl) as [-> | ->]; repeat split.
  - intros Hc x. unfold logpdf, cdf, logcdf. rewrite Hc. repeat split.
Qed.

Lemma unsupported_methods_witness :
  reshape dense_library
    (MkNormal _OperatorvariateNormal (VNdarray [2; 2] [0%Q; 0%Q; 0%Q; 0%Q])
       (VLinOp (LinearOperator "Identity" (4, 4)))) [4]
  = Raise (NotImplementedError None)
  /\ pdf dense_library
       (MkNormal _OperatorvariateNormal (VNdarray [2; 2] [0%Q; 0%Q; 0%Q; 0%Q])
          (VLinOp (LinearOperator "Identity" (4, 4))))
       (VNdarray [2; 2] [0%Q; 0%Q; 0%Q; 0%Q])
     = Raise (NotImplementedError None).
Proof.
  destruct (unsupported_methods dense_library
              (VNdarray [2; 2] [0%Q; 0%Q; 0%Q; 0%Q])
              (VLinOp (LinearOperator "Identity" (4, 4))) _ eq_refl)
    as (Hreshape & Hdensity & _).
  split.
  - apply Hreshape.
  - apply (Hdensity (or_intror eq_refl)).
Defined.

(** *** The variance of the dense variants *)

Lemma diagonal_length (c k : nat) (data : list Q) :
  List.length (diagonal c k data) = k.
Proof. unfold diagonal. rewrite length_map, length_seq. reflexivity. Qed.

Lemma diagonal_nth (c k i : nat) (data : list Q) :
  i < k -> nth i (diagonal c k data) 0%Q = nth (i * c + i) data 0%Q.
Proof.
  intros Hi. unfold diagonal.
  rewrite (nth_indep _ 0%Q (nth (0 * c + 0) data 0%Q))
    by (rewrite length_map, length_seq; exact Hi).
  rewrite (map_nth (fun j => nth (j * c + j) data 0%Q) (seq 0 k) 0 i).
  rewrite seq_nth by exact Hi. reflexivity.
Qed.

(** X12.  [var()] of a multivariate or matrix-variate Normal built from a
    dense covariance and a mean of fewer than [2 ^ 63] entries, so that the
    64-bit product [np.prod] computes is their number: with [np.diag] taking
    the diagonal of a 2-D array, it is a flat array of as many entries as the
    mean has, the [i]-th of them the entry [cov[i, i]]; for a matrix-variate
    mean it does not have the shape of the mean. *)
Theorem variance_is_the_diagonal
  (L : library) (mean : pyval) (sc : list nat) (dc : list Q) (n : normal) :
  (forall r c data,
     np_diag L (VNdarray [r; c] data)
     = Ok (VNdarray [Nat.min r c] (diagonal c (Nat.min r c) data))) ->
  construct Normal mean (VNdarray sc dc) = Ok n ->
  n_class n <> _UnivariateNormal ->
  is_array mean = true ->
  (Z.of_nat (np_prod (np_shape mean)) < 2 ^ 63)%Z ->
  exists v,
    var L n = Ok (VNdarray [np_prod (np_shape mean)] v)
    /\ List.length v = np_prod (np_shape mean)
    /\ (forall i, i < np_prod (np_shape mean) ->
          nth i v 0%Q = nth (i * np_prod (np_shape mean) + i) dc 0%Q).
Proof.
  intros Hdiag H Hc Hm _.
  pose proof (@construct_inv _ _ _ H) as [Hnew Hinit].
  assert (U : ~ univariate_input mean (VNdarray sc dc)).
  { intros U. rewrite (new_univariate U) in Hnew. injection Hnew as Hn.
    congruence. }
  rewrite (new_dense U Hm eq_refl) in Hnew.
  assert (Hsm : attr_shape mean = Ok (np_shape mean)).
  { destruct mean; try discriminate Hm; reflexivity. }
  assert (Hvar : var L n = np_diag L (n_cov n)).
  { unfold var. destruct (List.length (np_shape mean) =? 1);
      injection Hnew as <-; reflexivity. }
  assert (Hinit' : dense__init__
                     (if (List.length (np_shape mean) =? 1)%nat
                      then "Covariance must be a 2D matrix or linear operator."
                      else "Covariance must be a 2D matrix.")%string
                     mean (VNdarray sc dc)
                   = Ok (n_mean n, n_cov n)).
  { destruct (List.length (np_shape mean) =? 1);
      injection Hnew as Hn; rewrite <- Hn in Hinit; exact Hinit. }
  rewrite (@dense_init_spec _ mean (VNdarray sc dc) (np_shape mean) sc Hsm eq_refl)
    in Hinit'.
  destruct (List.length sc =? 2) eqn:L2; simpl in Hinit'; [|discriminate].
  destruct ((nth 0 sc 0 =? np_prod (np_shape mean))
            && (nth 1 sc 0 =? np_prod (np_shape mean))) eqn:T; [|discriminate].
  apply andb_true_iff in T. destruct T as [T0 T1].
  apply Nat.eqb_eq in T0, T1, L2.
  rewrite (@shape_is_pair sc (np_prod (np_shape mean)) L2 T0 T1) in Hinit'.
  injection Hinit' as _ Hk. rewrite Hvar, <- Hk, Hdiag, Nat.min_id.
  eexists. split; [reflexivity|]. split.
  - apply diagonal_length.
  - intros i Hi. apply diagonal_nth. exact Hi.
Qed.

Lemma variance_is_the_diagonal_witness :
  exists v,
    var dense_library
      (MkNormal _MatrixvariateNormal (VNdarray [1; 2] [0%Q; 0%Q])
         (VNdarray [2; 2] [3%Q; 1%Q; 1%Q; 5%Q]))
    = Ok (VNdarray [2] v)
    /\ List.length v = 2
    /\ (forall i, i < 2 -> nth i v 0%Q = nth (i * 2 + i) [3%Q; 1%Q; 1%Q; 5%Q] 0%Q).
Proof.
  apply (variance_is_the_diagonal dense_library (VNdarray [1; 2] [0%Q; 0%Q])
           [2; 2] [3%Q; 1%Q; 1%Q; 5%Q]
           (MkNormal _MatrixvariateNormal (VNdarray [1; 2] [0%Q; 0%Q])
              (VNdarray [2; 2] [3%Q; 1%Q; 1%Q; 5%Q]))).
  - reflexivity.
  - reflexivity.
  - discriminate.
  - reflexivity.
  - reflexivity.
Defined.

End NormalMethodsLaws.

(** ** The list of random variables: bounds, slices, failures *)

Module RandomVariableListLaws.
Import Py RandomVariableList RandomVariableListFacts.

Open Scope list_scope.
Open Scope nat_scope.

Local Unset Implicit Arguments.

(** *** Slices of step 1 and -1 *)

Lemma firstn_succ {A} (m : list A) (c : nat) :
  firstn (S c) m
  = firstn c m ++ match nth_error m c with Some x => [x] | None => [] end.
Proof.
  revert c. induction m as [|x m IH]; intros [|c]; try reflexivity.
  change (x :: firstn (S c) m
          = x :: (firstn c m
                  ++ match nth_error m c with Some y => [y] | None => [] end)).
  rewrite IH. reflexivity.
Qed.

Lemma flat_map_seq_ext {B} (f g : nat -> list B) (cnt : nat) :
  (forall k, k < cnt -> f k = g k) ->
  flat_map f (seq 0 cnt) = flat_map g (seq 0 cnt).
Proof.
  induction cnt as [|cnt IH]; intros H; [reflexivity|].
  rewrite seq_S, !flat_map_app. simpl.
  rewrite IH by (intros k Hk; apply H; lia).
  rewrite (H cnt) by lia. reflexivity.
Qed.

(** The elements from index [a] on, one after the other. *)
Lemma take_contiguous {A} (l : list A) (a cnt : nat) :
  take l (Z.of_nat a) 1 cnt = firstn cnt (skipn a l).
Proof.
  unfold take. induction cnt as [|cnt IH]; [reflexivity|].
  rewrite seq_S, flat_map_app, IH, firstn_succ, nth_error_skipn. simpl.
  replace (Z.to_nat (Z.of_nat a + Z.of_nat cnt * 1)) with (a + cnt) by lia.
  rewrite app_nil_r. reflexivity.
Qed.

(** The elements from the last one down to the first. *)
Lemma take_backwards {A} (l : list A) :
  take l (Z.of_nat (List.length l) - 1) (-1) (List.length l) = rev l.
Proof.
  transitivity (take (rev l) (Z.of_nat 0) 1 (List.length l)).
  - unfold take. apply flat_map_seq_ext. intros k Hk.
    replace (Z.to_nat (Z.of_nat (List.length l) - 1 + Z.of_nat k * -1))
      with (List.length l - S k) by lia.
    replace (Z.to_nat (Z.of_nat 0 + Z.of_nat k * 1)) with k by lia.
    rewrite nth_error_rev.
    assert (E : (k <? List.length l) = true) by (apply Nat.ltb_lt; exact Hk).
    rewrite E. reflexivity.
  - rewrite take_contiguous. simpl skipn. rewrite <- length_rev.
    apply firstn_all.
Qed.

Lemma clamp_forwards (len v : Z) :
  (0 <= len)%Z ->
  (0 <= clamp len 1 v <= len)%Z
  /\ ((0 <= v <= len)%Z -> clamp len 1 v = v)
  /\ ((- len <= v < 0)%Z -> clamp len 1 v = (v + len)%Z).
Proof.
  intros Hlen. unfold clamp.
  destruct (v <? 0)%Z eqn:E0; [apply Z.ltb_lt in E0 | apply Z.ltb_ge in E0].
  - destruct (v + len <? 0)%Z eqn:E1;
      [apply Z.ltb_lt in E1 | apply Z.ltb_ge in E1]; simpl; lia.
  - destruct (v >=? len)%Z eqn:E1; simpl.
    + rewrite Z.geb_leb in E1. apply Z.leb_le in E1. lia.
    + rewrite Z.geb_leb in E1. apply Z.leb_gt in E1. lia.
Qed.

Lemma slice_length_forwards (a b : Z) :
  (0 <= a)%Z -> (0 <= b)%Z ->
  Z.to_nat (slice_length a b 1) = Z.to_nat b - Z.to_nat a.
Proof.
  intros Ha Hb. unfold slice_length. simpl.
  destruct (a <? b)%Z eqn:E; [apply Z.ltb_lt in E | apply Z.ltb_ge in E].
  - rewrite Z.div_1_r. lia.
  - simpl. lia.
Qed.

(** [self[a:b]] for bounds that are brought into the list. *)
Lemma getitem_forwards (self : _RandomVariableList) (start stop : option Z) :
  let len := Z.of_nat (List.length self) in
  let a := Z.to_nat (slice_start len 1 start) in
  let b := Z.to_nat (slice_stop len 1 stop) in
  __getitem__ self (Slice start stop None)
  = Ok (Wrapped (firstn (b - a) (skipn a self))).
Proof.
  intros len a b. unfold __getitem__, list__getitem__. simpl.
  fold len.
  assert (Ha : (0 <= slice_start len 1 start)%Z).
  { destruct start as [v|]; simpl; [|lia].
    apply (clamp_forwards len v). unfold len. lia. }
  assert (Hb : (0 <= slice_stop len 1 stop)%Z).
  { destruct stop as [v|]; simpl; [|unfold len; lia].
    apply (clamp_forwards len v). unfold len. lia. }
  rewrite (slice_length_forwards _ _ Ha Hb).
  rewrite <- (Z2Nat.id _ Ha) at 1. rewrite take_contiguous. reflexivity.
Qed.

(** *** Positions outside the list *)

(** X13.  A position that fits an index of 64 bits and lies outside the
    list, [i >= len(self)] or [i < -len(self)], raises IndexError
    "list index out of range"; every such position does in the empty list. *)
Theorem position_out_of_range (self : _RandomVariableList) (i : Z) :
  (- 2 ^ 63 <= i < 2 ^ 63)%Z ->
  (i < - Z.of_nat (List.length self) \/ Z.of_nat (List.length self) <= i)%Z ->
  __getitem__ self (Position i) = Raise (IndexError "list index out of range").
Proof.
  intros _ H. unfold __getitem__, list__getitem__. cbv zeta.
  destruct (i <? 0)%Z eqn:E0.
  - apply Z.ltb_lt in E0.
    assert (E1 : (i + Z.of_nat (List.length self) <? 0)%Z = true)
      by (apply Z.ltb_lt; lia).
    rewrite E1. reflexivity.
  - assert (E1 : (i >=? Z.of_nat (List.length self))%Z = true).
    { apply Z.ltb_ge in E0. rewrite Z.geb_leb. apply Z.leb_le. lia. }
    rewrite E0, E1. reflexivity.
Qed.

Lemma position_out_of_range_witness :
  __getitem__ two_rvs (Position 2) = Raise (IndexError "list index out of range")
  /\ __getitem__ [] (Position (-1)) = Raise (IndexError "list index out of range").
Proof.
  split.
  - apply (position_out_of_range two_rvs 2); simpl; lia.
  - apply (position_out_of_range [] (-1)); simpl; lia.
Defined.

(** *** A cut splits the list *)

(** X14.  For every integer [k] the slices [self[:k]] and [self[k:]] are
    two lists of random variables that split the list: the first [c] elements
    and the rest, where [c] is [k] for [0 <= k <= len(self)] and
    [len(self) + k] for [-len(self) <= k < 0]. *)
Theorem slices_partition (self : _RandomVariableList) (k : Z) :
  exists c,
    c <= List.length self
    /\ __getitem__ self (Slice None (Some k) None) = Ok (Wrapped (firstn c self))
    /\ __getitem__ self (Slice (Some k) None None) = Ok (Wrapped (skipn c self))
    /\ firstn c self ++ skipn c self = self
    /\ ((0 <= k <= Z.of_nat (List.length self))%Z -> c = Z.to_nat k)
    /\ ((- Z.of_nat (List.length self) <= k < 0)%Z ->
        c = List.length self - Z.to_nat (- k)).
Proof.
  pose proof (clamp_forwards (Z.of_nat (List.length self)) k
                (Nat2Z.is_nonneg _)) as (Hr & Hin & Hneg).
  exists (Z.to_nat (clamp (Z.of_nat (List.length self)) 1 k)).
  split; [lia|]. split; [|split; [|split; [|split]]].
  - rewrite getitem_forwards. simpl. rewrite Nat.sub_0_r. reflexivity.
  - rewrite getitem_forwards. simpl. rewrite Nat2Z.id.
    rewrite firstn_all2; [reflexivity|]. rewrite length_skipn. lia.
  - apply firstn_skipn.
  - intros H. rewrite (Hin H). reflexivity.
  - intros H. rewrite (Hneg H). lia.
Qed.

(** *** Reversal *)

(** X15.  [self[::-1]] is the list in reversed order, wrapped again. *)
Theorem reversed_slice (self : _RandomVariableList) :
  __getitem__ self (Slice None None (Some (-1)%Z)) = Ok (Wrapped (rev self)).
Proof.
  unfold __getitem__, list__getitem__. simpl.
  set (len := Z.of_nat (List.length self)).
  assert (Hcount : Z.to_nat (slice_length (len - 1) (-1) (-1)) = List.length self).
  { unfold slice_length. simpl.
    destruct (-1 <? len - 1)%Z eqn:E;
      [apply Z.ltb_lt in E | apply Z.ltb_ge in E].
    - rewrite Z.div_1_r. unfold len in *. lia.
    - unfold len in *. simpl. lia. }
  rewrite Hcount. unfold len. rewrite take_backwards. reflexivity.
Qed.

(** *** An element that raises *)

(** X16.  When the statistic of an element raises, and those of the
    elements before it return, the accessor raises that exception:
    [np.stack] is not reached and the elements after it are not asked. *)
Theorem first_failure_is_raised
  (accessor : _RandomVariableList -> result ndarray)
  (f : RandomVariable -> result ndarray)
  (l1 l2 : _RandomVariableList) (rv : RandomVariable)
  (arrays : list ndarray) (e : exn) :
  In (accessor, f)
     [(mean, rv_mean); (cov, rv_cov);
      (var, rv_distribution_var); (std, rv_distribution_std)] ->
  Forall2 (fun x a => f x = Ok a) l1 arrays ->
  f rv = Raise e ->
  accessor (l1 ++ rv :: l2) = Raise e.
Proof.
  intros Hin Hok Hrv.
  assert (Hacc : accessor (l1 ++ rv :: l2)
                 = rbind (comprehension f (l1 ++ rv :: l2)) np_stack).
  { simpl in Hin.
    destruct Hin as [H|[H|[H|[H|[]]]]]; injection H as <- <-; reflexivity. }
  rewrite Hacc. clear Hacc Hin.
  assert (Hc : comprehension f (l1 ++ rv :: l2) = Raise e).
  { induction Hok as [|x a l1 arrays Hx _ IH]; simpl.
    - rewrite Hrv. reflexivity.
    - rewrite Hx. simpl. rewrite IH. reflexivity. }
  rewrite Hc. reflexivity.
Qed.

Lemma first_failure_is_raised_witness :
  var [rv_of (MkArray [2] [1%Q; 2%Q]);
       MkRV (Ok (MkArray [] [0%Q])) (Ok (MkArray [] [1%Q]))
            (Raise (NotImplementedError None)) (Ok (MkArray [] [1%Q]));
       rv_of (MkArray [2] [3%Q; 4%Q])]
  = Raise (NotImplementedError None).
Proof.
  apply (first_failure_is_raised var rv_distribution_var
           [rv_of (MkArray [2] [1%Q; 2%Q])] [rv_of (MkArray [2] [3%Q; 4%Q])]
           (MkRV (Ok (MkArray [] [0%Q])) (Ok (MkArray [] [1%Q]))
                 (Raise (NotImplementedError None)) (Ok (MkArray [] [1%Q])))
           [MkArray [2] [1%Q; 2%Q]]).
  - simpl. auto.
  - repeat constructor.
  - reflexivity.
Defined.

(** *** Slicing and stacking commute *)

Lemma Forall2_firstn {A B} (R : A -> B -> Prop) (n : nat) (l : list A) (l' : list B) :
  Forall2 R l l' -> Forall2 R (firstn n l) (firstn n l').
Proof.
  intros H. revert n. induction H as [|x y l l' Hxy _ IH]; intros [|n]; simpl;
    constructor; auto.
Qed.

Lemma Forall2_skipn {A B} (R : A -> B -> Prop) (n : nat) (l : list A) (l' : list B) :
  Forall2 R l l' -> Forall2 R (skipn n l) (skipn n l').
Proof.
  intros H. revert n. induction H as [|x y l l' Hxy H IH]; intros [|n]; simpl;
    try constructor; auto.
Qed.

Lemma Forall_firstn {A} (P : A -> Prop) (n : nat) (l : list A) :
  Forall P l -> Forall P (firstn n l).
Proof.
  intros H. revert n. induction H as [|x l Hx _ IH]; intros [|n]; simpl;
    constructor; auto.
Qed.

Lemma Forall_skipn {A} (P : A -> Prop) (n : nat) (l : list A) :
  Forall P l -> Forall P (skipn n l).
Proof.
  intros H. revert n. induction H as [|x l Hx H IH]; intros [|n]; simpl;
    try constructor; auto.
Qed.

(** X17.  Slicing and stacking commute: for statistics of one shape [s]
    and [0 <= a < b <= len(self)], the accessor of [self[a:b]] returns an
    array of shape [(b - a,) + s] whose [i]-th entry is the [(a + i)]-th
    entry of the accessor of [self]. *)
Theorem stack_of_a_slice
  (accessor : _RandomVariableList -> result ndarray)
  (f : RandomVariable -> result ndarray)
  (self : _RandomVariableList) (arrays : list ndarray) (s : list nat)
  (a b : nat) :
  In (accessor, f)
     [(mean, rv_mean); (cov, rv_cov);
      (var, rv_distribution_var); (std, rv_distribution_std)] ->
  Forall2 (fun rv x => f rv = Ok x) self arrays ->
  Forall (fun x => shape x = s /\ well_formed x) arrays ->
  a < b <= List.length self ->
  exists l out out',
    __getitem__ self (Slice (Some (Z.of_nat a)) (Some (Z.of_nat b)) None)
    = Ok (Wrapped l)
    /\ accessor self = Ok out
    /\ accessor l = Ok out'
    /\ shape out' = (b - a) :: s
    /\ (forall i, i < b - a -> block out' i = block out (a + i)).
Proof.
  intros Hin Hf Hs Hab.
  assert (Hacc : forall l, accessor l = stacked_statistic f l).
  { intros l. simpl in Hin.
    destruct Hin as [H|[H|[H|[H|[]]]]]; injection H as <- <-; reflexivity. }
  pose proof (Forall2_length Hf) as Hlen.
  pose proof (clamp_forwards (Z.of_nat (List.length self)) (Z.of_nat a)
                (Nat2Z.is_nonneg _)) as (_ & Ha & _).
  pose proof (clamp_forwards (Z.of_nat (List.length self)) (Z.of_nat b)
                (Nat2Z.is_nonneg _)) as (_ & Hb & _).
  set (l := firstn (b - a) (skipn a self)).
  set (arrays_l := firstn (b - a) (skipn a arrays)).
  assert (Hl : List.length l = b - a).
  { unfold l. rewrite firstn_length_le; [reflexivity|].
    rewrite length_skipn. lia. }
  destruct (stacked_in_order f self arrays s Hf) as (out & Hout & _ & Hblocks).
  { destruct self; [simpl in Hab; lia | discriminate]. }
  { exact Hs. }
  destruct (stacked_in_order f l arrays_l s) as (out' & Hout' & Hshape & Hblocks').
  { apply Forall2_firstn, Forall2_skipn, Hf. }
  { destruct l; [simpl in Hl; lia | discriminate]. }
  { apply Forall_firstn, Forall_skipn, Hs. }
  exists l, out, out'. split; [|split; [|split; [|split]]].
  - rewrite getitem_forwards. simpl.
    rewrite Ha, Hb, !Nat2Z.id by lia. reflexivity.
  - rewrite Hacc. exact Hout.
  - rewrite Hacc. exact Hout'.
  - rewrite Hshape, Hl. reflexivity.
  - intros i Hi.
    assert (Hnth : exists x, nth_error arrays (a + i) = Some x).
    { destruct (nth_error arrays (a + i)) as [x|] eqn:E; [eauto|].
      apply nth_error_None in E. lia. }
    destruct Hnth as [x Hx].
    rewrite (Hblocks (a + i) x Hx). apply Hblocks'.
    unfold arrays_l. rewrite nth_error_firstn.
    assert (E : (i <? b - a) = true) by (apply Nat.ltb_lt; exact Hi).
    rewrite E, nth_error_skipn. exact Hx.
Qed.

Lemma stack_of_a_slice_witness :
  exists l out out',
    __getitem__ two_rvs (Slice (Some 1%Z) (Some 2%Z) None) = Ok (Wrapped l)
    /\ mean two_rvs = Ok out
    /\ mean l = Ok out'
    /\ shape out' = [1; 2]
    /\ (forall i, i < 1 -> block out' i = block out (1 + i)).
Proof.
  apply (stack_of_a_slice mean rv_mean two_rvs
           [MkArray [2] [1%Q; 2%Q]; MkArray [2] [3%Q; 4%Q]] [2] 1 2).
  - simpl. auto.
  - repeat constructor.
  - repeat constructor.
  - simpl. lia.
Defined.

End RandomVariableListLaws.

(** ** The directly computed posterior: interpolation and symmetry *)

Module PosteriorLaws.
Import mathcomp.boot.boot mathcomp.algebra.algebra.
Import GRing.Theory.
Import Posterior PosteriorFacts.
Local Open Scope ring_scope.

Section Laws.

Variable F : fieldType.
Variables n k : nat.

(** The solution [U^T] of the test's linear system is a left inverse of
    [S], for a symmetric factor [W]. *)
Lemma solve_left_inverse (W : 'M[F]_n) (S : 'M[F]_(n, k)) :
  W^T = W -> S^T *m (W *m S) \in unitmx ->
  invmx (S^T *m (W *m S)) *m (W *m S)^T *m S = 1%:M.
Proof.
move=> symW unitG.
by rewrite -mulmxA trmx_mul symW -mulmxA mulVmx.
Qed.

(** The residual [Delta = Y - A0 S] against the directions. *)
Lemma residual_symmetric (A0 : 'M[F]_n) (S Y : 'M[F]_(n, k)) :
  A0^T = A0 -> (S^T *m Y)^T = S^T *m Y ->
  (Y - A0 *m S)^T *m S = S^T *m (Y - A0 *m S).
Proof.
move=> symA symSY.
rewrite linearB /= trmx_mul symA mulmxBl mulmxBr -mulmxA.
by rewrite -[Y^T *m S]trmxK trmx_mul trmxK symSY.
Qed.

(** The symmetric rank-2k update, for any [Delta] and any [U^T]. *)
Lemma update_on_directions (A0 : 'M[F]_n) (S D : 'M[F]_(n, k)) (UT : 'M[F]_(k, n)) :
  UT *m S = 1%:M -> D^T *m S = S^T *m D ->
  (A0 + D *m UT + UT^T *m D^T - UT^T *m S^T *m D *m UT) *m S = A0 *m S + D.
Proof.
move=> UTS DS.
rewrite mulmxBl 2!mulmxDl.
rewrite -(mulmxA D UT S) -(mulmxA _ UT S) UTS !mulmx1.
by rewrite -(mulmxA _ D^T S) DS -(mulmxA _ S^T D) addrK.
Qed.

Lemma update_symmetric (A0 : 'M[F]_n) (S D : 'M[F]_(n, k)) (UT : 'M[F]_(k, n)) :
  A0^T = A0 -> D^T *m S = S^T *m D ->
  (A0 + D *m UT + UT^T *m D^T - UT^T *m S^T *m D *m UT)^T
  = A0 + D *m UT + UT^T *m D^T - UT^T *m S^T *m D *m UT.
Proof.
move=> symA DS.
rewrite linearB /= 2!linearD /= !trmx_mul !trmxK symA.
rewrite -(mulmxA UT^T S^T D) -DS !mulmxA.
by rewrite [A0 + _ + _]addrAC.
Qed.

End Laws.

Arguments solve_left_inverse {F n k} [W S] _ _.
Arguments residual_symmetric {F n k} [A0 S Y] _ _.
Arguments update_on_directions {F n k} A0 [S D UT] _ _.
Arguments update_symmetric {F n k} [A0 S D] UT _ _.







End PosteriorLaws.
